(** * Fastest-Voice-Assistant: speech capture, silence monitor and
      assistant loop

    A shallow embedding of [voice_assistant/speech/stt/base_stt.py] and
    [voice_assistant/core/assistant.py].  Every thread of the program is a
    [while not self.stop_threads] loop; one pass through the body of such a
    loop is a function from the shared object state to the new state (and
    to what the pass wrote to the terminal or sent to the speech
    synthesiser).  The collaborators the program calls (the recognition
    backend, [langdetect], the response generator, the clock, the console)
    are arguments of those functions.

    Python floats ([time.time()], ratios, thresholds) are idealised as
    rationals; strings are ASCII strings. *)

From Stdlib Require Import List String Ascii Bool Arith ZArith QArith Lia.
Import ListNotations.

Local Open Scope string_scope.
Local Open Scope nat_scope.
Local Open Scope list_scope.

(** ** Python built-ins used by the program *)

Module Py.

(** [str.isspace] on one ASCII character: TAB..CR, FS..US and SPACE. *)
Definition isspace (c : ascii) : bool :=
  let n := nat_of_ascii c in
  ((9 <=? n) && (n <=? 13)) || ((28 <=? n) && (n <=? 32)).

Fixpoint lstrip (s : string) : string :=
  match s with
  | EmptyString => EmptyString
  | String c s' => if isspace c then lstrip s' else s
  end.

(** Drops the trailing white space: a character is kept when it is not a
    space or when something is kept after it. *)
Fixpoint rstrip (s : string) : string :=
  match s with
  | EmptyString => EmptyString
  | String c s' =>
      match rstrip s' with
      | EmptyString => if isspace c then EmptyString else String c EmptyString
      | r => String c r
      end
  end.

(** [s.strip()] *)
Definition strip (s : string) : string := rstrip (lstrip s).

(** Truth value of a string: [if s:] *)
Definition truthy (s : string) : bool :=
  match s with EmptyString => false | _ => true end.

Definition lower_char (c : ascii) : ascii :=
  let n := nat_of_ascii c in
  if (65 <=? n) && (n <=? 90) then ascii_of_nat (n + 32) else c.

(** [s.lower()] *)
Fixpoint lower (s : string) : string :=
  match s with
  | EmptyString => EmptyString
  | String c s' => String (lower_char c) (lower s')
  end.

(** [needle in hay] on strings *)
Fixpoint contains (needle hay : string) : bool :=
  if String.prefix needle hay then true
  else match hay with
       | EmptyString => false
       | String _ hay' => contains needle hay'
       end.

(** [s.split(sep)[0]]: the part of [s] before the first [sep]. *)
Fixpoint split_head (sep : ascii) (s : string) : string :=
  match s with
  | EmptyString => EmptyString
  | String c s' => if Ascii.eqb c sep then EmptyString
                   else String c (split_head sep s')
  end.

(** [d.get(k, default)] on a dict kept in insertion order. *)
Fixpoint dict_get {V : Type} (d : list (string * V)) (k : string)
         (default : V) : V :=
  match d with
  | [] => default
  | (k', v) :: d' => if String.eqb k' k then v else dict_get d' k default
  end.

(** [l[-n:]] for [n > 0]; [l[-0:]] is [l[0:]], the whole list. *)
Definition slice_last {A : Type} (n : nat) (l : list A) : list A :=
  match n with
  | O => l
  | _ => skipn (List.length l - n) l
  end.

(** [x > y] and [x < y] on numbers. *)
Definition gt (x y : Q) : bool := negb (Qle_bool x y).
Definition lt (x y : Q) : bool := negb (Qle_bool y x).
Definition le (x y : Q) : bool := Qle_bool x y.
Definition ge (x y : Q) : bool := Qle_bool y x.

End Py.

(** ** [voice_assistant/config/settings.py] *)

Module Settings.

Definition SUPPORTED_LANGUAGES : list (string * string) :=
  [ ("en", "en-US"); ("fr", "fr-FR"); ("es", "es-ES"); ("de", "de-DE");
    ("it", "it-IT"); ("ar", "ar-AR"); ("zh", "zh-CN"); ("ja", "ja-JP") ].

(** [STT_SETTINGS["silence_threshold"]] *)
Definition stt_silence_threshold : Q := (9 # 10)%Q.

(** [ASSISTANT_SETTINGS["silence_threshold_seconds"]] *)
Definition silence_threshold_seconds : Q := 5%Q.

End Settings.

(** ** [voice_assistant/speech/stt/base_stt.py] *)

Module BaseSTT.

(** An entry of [result_queue]: the dict with keys text, lang, time and
    energy. *)
Record result : Type := Result
  { text : string; lang : string; time : Q; energy : Q }.

(** An entry of [partial_result_queue]. *)
Record partial : Type := Partial { partial_text : string; partial_time : Q }.

(** What a call of [recognizer.recognize_google(audio, language=...)] does:
    it returns a text, raises [sr.UnknownValueError] or raises
    [sr.RequestError]. *)
Inductive transcription : Type :=
| Text (s : string)
| UnknownValueError
| RequestError.

(** The dict returned by [get_speech_state]. *)
Record speech_state : Type := SpeechState
  { ss_silence_ratio : Q;
    ss_is_silent : bool;
    ss_last_speech_time : Q;
    ss_silence_duration : Q }.

Section Object.

(** Captured audio ([sr.AudioData]) is opaque. *)
Variable audio : Type.

(** The attributes of a [BaseSTT] object the modelled methods use. *)
Record t : Type := Make
  { audio_queue : list audio;
    result_queue : list result;
    partial_result_queue : list partial;
    last_audio_time : Q;
    last_speech_time : Q;
    silence_ratio : Q;
    silence_threshold : Q;
    energy_threshold : Q;
    supported_languages : list string;
    last_detected_language : string }.

Definition set_audio_queue (q : list audio) (self : t) : t :=
  Make q (result_queue self) (partial_result_queue self)
       (last_audio_time self) (last_speech_time self) (silence_ratio self)
       (silence_threshold self) (energy_threshold self)
       (supported_languages self) (last_detected_language self).

Definition set_result_queue (q : list result) (self : t) : t :=
  Make (audio_queue self) q (partial_result_queue self)
       (last_audio_time self) (last_speech_time self) (silence_ratio self)
       (silence_threshold self) (energy_threshold self)
       (supported_languages self) (last_detected_language self).

Definition set_partial_result_queue (q : list partial) (self : t) : t :=
  Make (audio_queue self) (result_queue self) q
       (last_audio_time self) (last_speech_time self) (silence_ratio self)
       (silence_threshold self) (energy_threshold self)
       (supported_languages self) (last_detected_language self).

Definition set_last_audio_time (now : Q) (self : t) : t :=
  Make (audio_queue self) (result_queue self) (partial_result_queue self)
       now (last_speech_time self) (silence_ratio self)
       (silence_threshold self) (energy_threshold self)
       (supported_languages self) (last_detected_language self).

Definition set_last_detected_language (l : string) (self : t) : t :=
  Make (audio_queue self) (result_queue self) (partial_result_queue self)
       (last_audio_time self) (last_speech_time self) (silence_ratio self)
       (silence_threshold self) (energy_threshold self)
       (supported_languages self) l.

(** [__init__], at clock value [now]. *)
Definition init (now : Q) : t :=
  Make [] [] [] now now 1%Q Settings.stt_silence_threshold 300%Q
       (map snd Settings.SUPPORTED_LANGUAGES) "en-US".

(** [get_silence_duration] and [get_speech_state], at clock value
    [now]. *)
Definition get_silence_duration (self : t) (now : Q) : Q :=
  (now - last_speech_time self)%Q.

Definition get_speech_state (self : t) (now : Q) : speech_state :=
  SpeechState (silence_ratio self)
              (Py.gt (silence_ratio self) (silence_threshold self))
              (last_speech_time self)
              (get_silence_duration self now).

(** *** [recognize_worker] *)

(** The recognition backend, and [langdetect.detect] ([None] when it
    raises). *)
Variable recognize_google : audio -> string -> transcription.
Variable detect : string -> option string.

Definition detect_language_from_text (self : t) (txt : string) : string :=
  match detect txt with
  | Some detected_lang_code =>
      Py.dict_get Settings.SUPPORTED_LANGUAGES detected_lang_code
                  (last_detected_language self)
  | None => last_detected_language self
  end.

Definition put_result (r : result) (self : t) : t :=
  set_result_queue (result_queue self ++ [r]) self.

(** The [for lang in self.supported_languages] loop of the
    [except sr.UnknownValueError] branch, from the languages still to
    visit.  Next to the object it returns the languages handed to
    [recognize_google], in call order. *)
Fixpoint try_other_languages (self : t) (now : Q) (a : audio)
         (langs : list string) : t * list string :=
  match langs with
  | [] => (self, [])
  | lang :: rest =>
      if String.eqb lang (last_detected_language self)
      then try_other_languages self now a rest
      else
        match recognize_google a lang with
        | Text txt =>
            if Py.truthy (Py.strip txt) then
              let detected_lang := detect_language_from_text self txt in
              let self := set_last_detected_language detected_lang self in
              let self :=
                put_result (Result txt detected_lang now
                                   (energy_threshold self)) self in
              (set_last_audio_time now self, [lang])
            else
              let (self', calls) := try_other_languages self now a rest in
              (self', lang :: calls)
        | UnknownValueError =>
            let (self', calls) := try_other_languages self now a rest in
            (self', lang :: calls)
        | RequestError => (self, [lang])
        end
  end.

(** The body of the outer [try] of [recognize_worker] for one audio
    chunk. *)
Definition recognize_audio (self : t) (now : Q) (a : audio)
  : t * list string :=
  let hint := last_detected_language self in
  match recognize_google a hint with
  | Text txt =>
      if Py.truthy (Py.strip txt) then
        let detected_lang := detect_language_from_text self txt in
        let '(txt, self, calls) :=
          if negb (String.eqb detected_lang hint) then
            match recognize_google a detected_lang with
            | Text txt' =>
                (txt', set_last_detected_language detected_lang self,
                 [detected_lang])
            | _ => (txt, self, [detected_lang])
            end
          else (txt, self, []) in
        let self :=
          put_result (Result txt (last_detected_language self) now
                             (energy_threshold self)) self in
        (set_last_audio_time now self, hint :: calls)
      else (self, [hint])
  | UnknownValueError =>
      let (self', calls) :=
        try_other_languages self now a (supported_languages self) in
      (self', hint :: calls)
  | RequestError => (self, [hint])
  end.

(** One pass of the [while not self.stop_thread] loop. *)
Definition recognize_worker_iteration (self : t) (now : Q)
  : t * list string :=
  match audio_queue self with
  | [] => (self, [])
  | a :: q => recognize_audio (set_audio_queue q self) now a
  end.

(** The worker over the clock values of its passes. *)
Fixpoint recognize_worker (self : t) (clock : list Q) : t * list string :=
  match clock with
  | [] => (self, [])
  | now :: clock' =>
      let (self', calls) := recognize_worker_iteration self now in
      let (self'', calls') := recognize_worker self' clock' in
      (self'', calls ++ calls')
  end.

(** *** [partial_result_processor] *)

(** One pass of the loop: the object, the local [last_partial] and what
    was printed. *)
Definition partial_result_processor_iteration (self : t)
           (last_partial : string) : t * string * list string :=
  match partial_result_queue self with
  | [] => (self, last_partial, [])
  | r :: q =>
      let self := set_partial_result_queue q self in
      if negb (String.eqb (partial_text r) last_partial)
      then (self, partial_text r, [partial_text r])
      else (self, last_partial, [])
  end.

Fixpoint partial_result_processor_from (passes : nat) (self : t)
         (last_partial : string) : t * list string :=
  match passes with
  | O => (self, [])
  | S passes' =>
      let '(self', last_partial', shown) :=
        partial_result_processor_iteration self last_partial in
      let (self'', shown') :=
        partial_result_processor_from passes' self' last_partial' in
      (self'', shown ++ shown')
  end.

(** [partial_result_processor]: [last_partial] starts empty. *)
Definition partial_result_processor (passes : nat) (self : t)
  : t * list string :=
  partial_result_processor_from passes self "".

End Object.

Arguments Make {audio}.
Arguments audio_queue {audio}.
Arguments result_queue {audio}.
Arguments partial_result_queue {audio}.
Arguments last_audio_time {audio}.
Arguments last_speech_time {audio}.
Arguments silence_ratio {audio}.
Arguments silence_threshold {audio}.
Arguments energy_threshold {audio}.
Arguments supported_languages {audio}.
Arguments last_detected_language {audio}.
Arguments set_audio_queue {audio}.
Arguments set_result_queue {audio}.
Arguments set_partial_result_queue {audio}.
Arguments set_last_audio_time {audio}.
Arguments set_last_detected_language {audio}.
Arguments get_speech_state {audio}.
Arguments detect_language_from_text {audio}.
Arguments put_result {audio}.
Arguments try_other_languages {audio}.
Arguments recognize_audio {audio}.
Arguments recognize_worker_iteration {audio}.
Arguments recognize_worker {audio}.
Arguments partial_result_processor_iteration {audio}.
Arguments partial_result_processor_from {audio}.
Arguments partial_result_processor {audio}.

(** *** [find_best_microphone] *)

(** [for specific_index in idxs: if specific_index < len(mic_names):
    return specific_index] *)
Fixpoint first_specific_index (idxs : list nat) (n : nat) : option nat :=
  match idxs with
  | [] => None
  | specific_index :: idxs' =>
      if specific_index <? n then Some specific_index
      else first_specific_index idxs' n
  end.

(** [for i, name in enumerate(mic_names): if test(name): return i],
    counting from [i]. *)
Fixpoint first_name_from (test : string -> bool) (i : nat)
         (mic_names : list string) : option nat :=
  match mic_names with
  | [] => None
  | name :: rest =>
      if test name then Some i else first_name_from test (S i) rest
  end.

Definition keyword_in_name (keyword name : string) : bool :=
  Py.contains (Py.lower keyword) (Py.lower name).

(** The nested loops of the first pass: keywords outside, names inside. *)
Fixpoint first_keyword_match (keywords : list string)
         (mic_names : list string) : option nat :=
  match keywords with
  | [] => None
  | keyword :: keywords' =>
      match first_name_from (keyword_in_name keyword) 0 mic_names with
      | Some i => Some i
      | None => first_keyword_match keywords' mic_names
      end
  end.

Definition specific_indices : list nat := [7; 14; 24; 25; 28].

Definition priority_keywords : list string :=
  [ "headset mic"; "headset microphone"; "mic input"; "microphone input";
    "microphone ("; "mic ("; "input" ]%string.

Definition avoid_keywords : list string :=
  [ "output"; "speaker"; "playback"; "sound mapper - output" ]%string.

Definition not_output_device (name : string) : bool :=
  negb (existsb (fun keyword => keyword_in_name keyword name)
                avoid_keywords).

(** [find_best_microphone]; the argument is what
    [sr.Microphone.list_microphone_names()] returns, [None] when it
    raises (the [except Exception] branch). *)
Definition find_best_microphone (listing : option (list string))
  : option nat :=
  match listing with
  | None => None
  | Some mic_names =>
      match first_specific_index specific_indices (List.length mic_names) with
      | Some specific_index => Some specific_index
      | None =>
          match first_keyword_match priority_keywords mic_names with
          | Some i => Some i
          | None =>
              match first_name_from not_output_device 0 mic_names with
              | Some i => Some i
              | None =>
                  match mic_names with
                  | _ :: _ => Some 0
                  | [] => None
                  end
              end
          end
      end
  end.

(** *** [active_listening_loop] *)

Section ActiveListening.

Variable audio : Type.

(** What [recognizer.listen(source, timeout=5, phrase_time_limit=10)]
    does: it returns audio, raises [sr.WaitTimeoutError] or raises
    something else. *)
Inductive listen_result : Type :=
| Heard (a : audio)
| WaitTimeoutError
| ListenError.

(** What the outside world does during one pass of the loop. *)
Record pass_env : Type := PassEnv
  { recognizer_ok : bool;
    (** [sr.Recognizer()] at the top of the pass returns *)
    microphone_ok : bool;
    (** [sr.Microphone(...)] at the top of the pass returns *)
    enter_ok : bool;
    (** [with microphone as source] opens the device *)
    ambient : option Q;
    (** the threshold [adjust_for_ambient_noise] leaves, [None] when it
        raises *)
    heard : listen_result;
    google : transcription;
    sphinx : transcription;
    reset_ok : bool;
    (** the constructors of the reset block succeed *)
    pass_time : Q }.

(** [sr.Recognizer()] and [sr.Microphone(...)] at the top of the pass
    both return. *)
Definition create_ok (e : pass_env) : bool :=
  recognizer_ok e && microphone_ok e.

(** The locals of the loop: the recognizer (its energy threshold), the
    microphone (its device index) and the error counter. *)
Record locals : Type := Locals
  { recognizer : option Q;
    microphone : option (option nat);
    consecutive_errors : nat }.

Inductive event : Type :=
| Listening
| Reset
| Sleep (seconds : Q).

Definition max_consecutive_errors : nat := 3.

(** [text] after the Google and Sphinx attempts: [None] is Python's
    [None]. *)
Definition recognized_text (e : pass_env) : option string :=
  let text := match google e with Text s => Some s | _ => None end in
  match text with
  | Some s => if Py.truthy s then text
              else match sphinx e with Text s' => Some s' | _ => text end
  | None => match sphinx e with Text s' => Some s' | _ => None end
  end.

(** The check after the [try] statement, and the closing
    [time.sleep(0.5)]. *)
Definition check_reset (best_mic_index : option nat) (e : pass_env)
           (l : locals) : locals * list event :=
  if max_consecutive_errors <=? consecutive_errors l then
    if reset_ok e
    then (Locals (Some 300%Q) (Some best_mic_index) 0,
          [Reset; Sleep 3%Q; Sleep (1 # 2)%Q])
    else (Locals None None 0, [Reset; Sleep 3%Q; Sleep (1 # 2)%Q])
  else (l, [Sleep (1 # 2)%Q]).

(** One pass of [while not self.stop_thread and
    self.active_listening_running].  Every call that can fail sits in a
    [try] of its own, so the outermost [except Exception] of the pass is
    reached by none of the outcomes of [pass_env]. *)
Definition active_listening_pass (best_mic_index : option nat)
           (self : t audio) (l : locals) (e : pass_env)
  : t audio * locals * list event :=
  let missing :=
    match recognizer l, microphone l with
    | Some _, Some _ => false
    | _, _ => true
    end in
  if missing && negb (recognizer_ok e) then
    (* [sr.Recognizer()] raised: sleep and [continue] *)
    (self, l, [Sleep 2%Q])
  else if missing && negb (microphone_ok e) then
    (* the new recognizer is assigned, then [sr.Microphone(...)] raised:
       sleep and [continue] *)
    (self, Locals (Some 300%Q) (microphone l) (consecutive_errors l),
     [Sleep 2%Q])
  else
    let l :=
      if missing
      then Locals (Some 300%Q) (Some best_mic_index) (consecutive_errors l)
      else l in
    if negb (enter_ok e) then
      (* [except Exception as source_error] *)
      let l := Locals None None (S (consecutive_errors l)) in
      let (l, evs) := check_reset best_mic_index e l in
      (self, l, Sleep 2%Q :: evs)
    else
      let threshold :=
        match ambient e with
        | Some th => if Py.gt th 300%Q then 300%Q else th
        | None => 300%Q
        end in
      let l := Locals (Some threshold) (microphone l)
                      (consecutive_errors l) in
      match heard e with
      | Heard a =>
          let l := Locals (recognizer l) (microphone l) 0 in
          let self :=
            match recognized_text e with
            | Some s =>
                if Py.truthy s
                then put_result
                       (Result s (last_detected_language self)
                               (pass_time e) threshold) self
                else self
            | None => self
            end in
          let (l, evs) := check_reset best_mic_index e l in
          (self, l, Listening :: evs)
      | WaitTimeoutError =>
          let (l, evs) := check_reset best_mic_index e l in
          (self, l, Listening :: evs)
      | ListenError =>
          let l := Locals (recognizer l) (microphone l)
                          (S (consecutive_errors l)) in
          let (l, evs) := check_reset best_mic_index e l in
          (self, l, Listening :: evs)
      end.

(** The loop over what happens in its successive passes. *)
Fixpoint active_listening_from (best_mic_index : option nat)
         (self : t audio) (l : locals) (world : list pass_env)
  : t audio * locals * list event :=
  match world with
  | [] => (self, l, [])
  | e :: world' =>
      let '(self', l', evs) :=
        active_listening_pass best_mic_index self l e in
      let '(self'', l'', evs') :=
        active_listening_from best_mic_index self' l' world' in
      (self'', l'', evs ++ evs')
  end.

(** [active_listening_loop]: the locals before the first pass;
    [init_ok] tells whether the first construction succeeded. *)
Definition initial_locals (best_mic_index : option nat) (init_ok : bool)
  : locals :=
  if init_ok then Locals (Some 300%Q) (Some best_mic_index) 0
  else Locals None None 0.

Definition active_listening_loop (listing : option (list string))
           (init_ok : bool) (self : t audio) (world : list pass_env)
  : t audio * locals * list event :=
  let best_mic_index := find_best_microphone listing in
  active_listening_from best_mic_index self
                        (initial_locals best_mic_index init_ok) world.

(** The number of resets a run performed. *)
Definition resets (evs : list event) : nat :=
  List.length
    (filter (fun ev => match ev with Reset => true | _ => false end) evs).

(** The number of calls of [recognizer.listen] in a run. *)
Definition listens (evs : list event) : nat :=
  List.length
    (filter (fun ev => match ev with Listening => true | _ => false end)
            evs).

End ActiveListening.

Arguments Heard {audio}.
Arguments WaitTimeoutError {audio}.
Arguments ListenError {audio}.
Arguments PassEnv {audio}.
Arguments recognizer_ok {audio}.
Arguments microphone_ok {audio}.
Arguments create_ok {audio}.
Arguments enter_ok {audio}.
Arguments ambient {audio}.
Arguments heard {audio}.
Arguments google {audio}.
Arguments sphinx {audio}.
Arguments reset_ok {audio}.
Arguments pass_time {audio}.
Arguments recognized_text {audio}.
Arguments check_reset {audio}.
Arguments active_listening_pass {audio}.
Arguments active_listening_from {audio}.
Arguments active_listening_loop {audio}.

End BaseSTT.

(** ** [voice_assistant/core/assistant.py] *)

Module VoiceAssistant.

(** An entry of [conversation_history]. *)
Record turn : Type := Turn
  { role : string; turn_text : string; timestamp : Q }.

(** What [check_for_commands] returns when it does not return [None]. *)
Inductive command : Type := document_mode | image_mode | exit_mode.

(** What [language_model.generate_response(text, context=context)] does:
    it returns a text or [None], or it raises. *)
Inductive response : Type :=
| Returns (r : option string)
| Raises.

(** What [input()] does in the keyboard thread. *)
Inductive console : Type :=
| Line (s : string)
| EOFError
| KeyboardInterrupt.

Section Object.

Variable audio : Type.

(** The attributes of a [VoiceAssistant] object. *)
Record t : Type := Make
  { stt : BaseSTT.t audio;
    text_queue : list string;
    stop_threads : bool;
    current_mode : string;
    current_file_path : option string;
    last_speech_time : Q;
    silence_threshold : Q;
    is_listening : bool;
    is_speaking : bool;
    start_time : Q;
    warm_up_period : Q;
    silence_detection_enabled : bool;
    current_language : string;
    last_full_result : string;
    showing_partial : bool;
    conversation_history : list turn;
    max_history_items : nat;
    context_window_minutes : Q }.

Definition set_stt (v : BaseSTT.t audio) (self : t) : t :=
  Make v (text_queue self) (stop_threads self) (current_mode self)
       (current_file_path self) (last_speech_time self)
       (silence_threshold self) (is_listening self) (is_speaking self)
       (start_time self) (warm_up_period self)
       (silence_detection_enabled self) (current_language self)
       (last_full_result self) (showing_partial self)
       (conversation_history self) (max_history_items self)
       (context_window_minutes self).

Definition set_text_queue (v : list string) (self : t) : t :=
  Make (stt self) v (stop_threads self) (current_mode self)
       (current_file_path self) (last_speech_time self)
       (silence_threshold self) (is_listening self) (is_speaking self)
       (start_time self) (warm_up_period self)
       (silence_detection_enabled self) (current_language self)
       (last_full_result self) (showing_partial self)
       (conversation_history self) (max_history_items self)
       (context_window_minutes self).

Definition set_stop_threads (v : bool) (self : t) : t :=
  Make (stt self) (text_queue self) v (current_mode self)
       (current_file_path self) (last_speech_time self)
       (silence_threshold self) (is_listening self) (is_speaking self)
       (start_time self) (warm_up_period self)
       (silence_detection_enabled self) (current_language self)
       (last_full_result self) (showing_partial self)
       (conversation_history self) (max_history_items self)
       (context_window_minutes self).

Definition set_current_mode (v : string) (self : t) : t :=
  Make (stt self) (text_queue self) (stop_threads self) v
       (current_file_path self) (last_speech_time self)
       (silence_threshold self) (is_listening self) (is_speaking self)
       (start_time self) (warm_up_period self)
       (silence_detection_enabled self) (current_language self)
       (last_full_result self) (showing_partial self)
       (conversation_history self) (max_history_items self)
       (context_window_minutes self).

Definition set_current_file_path (v : option string) (self : t) : t :=
  Make (stt self) (text_queue self) (stop_threads self)
       (current_mode self) v (last_speech_time self)
       (silence_threshold self) (is_listening self) (is_speaking self)
       (start_time self) (warm_up_period self)
       (silence_detection_enabled self) (current_language self)
       (last_full_result self) (showing_partial self)
       (conversation_history self) (max_history_items self)
       (context_window_minutes self).

Definition set_last_speech_time (v : Q) (self : t) : t :=
  Make (stt self) (text_queue self) (stop_threads self)
       (current_mode self) (current_file_path self) v
       (silence_threshold self) (is_listening self) (is_speaking self)
       (start_time self) (warm_up_period self)
       (silence_detection_enabled self) (current_language self)
       (last_full_result self) (showing_partial self)
       (conversation_history self) (max_history_items self)
       (context_window_minutes self).

Definition set_is_listening (v : bool) (self : t) : t :=
  Make (stt self) (text_queue self) (stop_threads self)
       (current_mode self) (current_file_path self)
       (last_speech_time self) (silence_threshold self) v
       (is_speaking self) (start_time self) (warm_up_period self)
       (silence_detection_enabled self) (current_language self)
       (last_full_result self) (showing_partial self)
       (conversation_history self) (max_history_items self)
       (context_window_minutes self).

Definition set_is_speaking (v : bool) (self : t) : t :=
  Make (stt self) (text_queue self) (stop_threads self)
       (current_mode self) (current_file_path self)
       (last_speech_time self) (silence_threshold self)
       (is_listening self) v (start_time self) (warm_up_period self)
       (silence_detection_enabled self) (current_language self)
       (last_full_result self) (showing_partial self)
       (conversation_history self) (max_history_items self)
       (context_window_minutes self).

Definition set_start_time (v : Q) (self : t) : t :=
  Make (stt self) (text_queue self) (stop_threads self)
       (current_mode self) (current_file_path self)
       (last_speech_time self) (silence_threshold self)
       (is_listening self) (is_speaking self) v (warm_up_period self)
       (silence_detection_enabled self) (current_language self)
       (last_full_result self) (showing_partial self)
       (conversation_history self) (max_history_items self)
       (context_window_minutes self).

Definition set_silence_detection_enabled (v : bool) (self : t) : t :=
  Make (stt self) (text_queue self) (stop_threads self)
       (current_mode self) (current_file_path self)
       (last_speech_time self) (silence_threshold self)
       (is_listening self) (is_speaking self) (start_time self)
       (warm_up_period self) v (current_language self)
       (last_full_result self) (showing_partial self)
       (conversation_history self) (max_history_items self)
       (context_window_minutes self).

Definition set_current_language (v : string) (self : t) : t :=
  Make (stt self) (text_queue self) (stop_threads self)
       (current_mode self) (current_file_path self)
       (last_speech_time self) (silence_threshold self)
       (is_listening self) (is_speaking self) (start_time self)
       (warm_up_period self) (silence_detection_enabled self) v
       (last_full_result self) (showing_partial self)
       (conversation_history self) (max_history_items self)
       (context_window_minutes self).

Definition set_last_full_result (v : string) (self : t) : t :=
  Make (stt self) (text_queue self) (stop_threads self)
       (current_mode self) (current_file_path self)
       (last_speech_time self) (silence_threshold self)
       (is_listening self) (is_speaking self) (start_time self)
       (warm_up_period self) (silence_detection_enabled self)
       (current_language self) v (showing_partial self)
       (conversation_history self) (max_history_items self)
       (context_window_minutes self).

Definition set_showing_partial (v : bool) (self : t) : t :=
  Make (stt self) (text_queue self) (stop_threads self)
       (current_mode self) (current_file_path self)
       (last_speech_time self) (silence_threshold self)
       (is_listening self) (is_speaking self) (start_time self)
       (warm_up_period self) (silence_detection_enabled self)
       (current_language self) (last_full_result self) v
       (conversation_history self) (max_history_items self)
       (context_window_minutes self).

Definition set_conversation_history (v : list turn) (self : t) : t :=
  Make (stt self) (text_queue self) (stop_threads self)
       (current_mode self) (current_file_path self)
       (last_speech_time self) (silence_threshold self)
       (is_listening self) (is_speaking self) (start_time self)
       (warm_up_period self) (silence_detection_enabled self)
       (current_language self) (last_full_result self)
       (showing_partial self) v (max_history_items self)
       (context_window_minutes self).

(** [__init__] at clock value [now]; the speech-to-text object is the
    one [stt_class()] built. *)
Definition init (stt0 : BaseSTT.t audio) (silence_threshold0 : Q)
           (now : Q) : t :=
  Make stt0 [] false "general" None now silence_threshold0 true false
       now 30%Q false "en" "" false [] 10 15%Q.

(** *** [silence_monitor] *)

(** One pass of the loop at clock value [now]; [speech_state] is what
    [self.stt.get_speech_state()] returns during that pass.  The status
    lines the pass prints are left out. *)
Definition silence_monitor_iteration (now : Q)
           (speech_state : BaseSTT.speech_state) (self : t) : t :=
  let silence_threshold := 3%Q in
  let elapsed_time := (now - start_time self)%Q in
  let in_warm_up := Py.lt elapsed_time (warm_up_period self) in
  let self :=
    if in_warm_up && negb (silence_detection_enabled self) then self
    else if in_warm_up
            && Py.ge elapsed_time (warm_up_period self - 1)%Q
         then set_silence_detection_enabled true self
         else self in
  if silence_detection_enabled self then
    if is_listening self then
      if Py.gt (BaseSTT.ss_silence_duration speech_state)
               silence_threshold
         && BaseSTT.ss_is_silent speech_state
         && negb (is_speaking self)
      then set_is_listening false self
      else self
    else
      if Py.lt (BaseSTT.ss_silence_ratio speech_state) (7 # 10)%Q
      then set_is_listening true self
      else self
  else self.

(** The monitor over the successive samples it sees. *)
Fixpoint silence_monitor (samples : list (Q * BaseSTT.speech_state))
         (self : t) : t :=
  match samples with
  | [] => self
  | (now, speech_state) :: samples' =>
      silence_monitor samples'
                      (silence_monitor_iteration now speech_state self)
  end.

(** *** [stt_processor] *)

Definition stt_processor_iteration (now : Q) (self : t) : t :=
  match BaseSTT.result_queue (stt self) with
  | [] => self
  | result :: q =>
      if is_listening self then
        let self := set_stt (BaseSTT.set_result_queue q (stt self)) self in
        if Py.truthy (Py.strip (BaseSTT.text result)) then
          let self :=
            if showing_partial self then set_showing_partial false self
            else self in
          let text := BaseSTT.text result in
          let lang := BaseSTT.lang result in
          let self := set_last_full_result text self in
          let self :=
            set_current_language (Py.split_head "-"%char lang) self in
          let self := set_text_queue (text_queue self ++ [text]) self in
          let self := set_last_speech_time now self in
          let self :=
            if negb (silence_detection_enabled self)
            then set_silence_detection_enabled true self
            else self in
          set_start_time now self
        else self
      else self
  end.

(** *** [add_to_conversation_history], [get_conversation_context] *)

Definition add_to_conversation_history (role0 text : string) (now : Q)
           (self : t) : t :=
  let history := conversation_history self ++ [Turn role0 text now] in
  if max_history_items self * 2 <? List.length history
  then set_conversation_history
         (Py.slice_last (max_history_items self * 2) history) self
  else set_conversation_history history self.

(** The first loop: [recent_history] grows by [append]. *)
Fixpoint recent_loop (now window : Q) (items recent_history : list turn)
  : list turn :=
  match items with
  | [] => recent_history
  | item :: items' =>
      let time_diff := ((now - timestamp item) / 60)%Q in
      if Py.le time_diff window
      then recent_loop now window items' (recent_history ++ [item])
      else recent_loop now window items' recent_history
  end.

(** The second loop: a role and content pair for each item. *)
Fixpoint format_loop (items : list turn)
         (formatted_context : list (string * string))
  : list (string * string) :=
  match items with
  | [] => formatted_context
  | item :: items' =>
      format_loop items'
                  (formatted_context ++ [(role item, turn_text item)])
  end.

Definition get_conversation_context (now : Q) (self : t)
  : list (string * string) :=
  match conversation_history self with
  | [] => []
  | _ :: _ =>
      let recent_history :=
        recent_loop now (context_window_minutes self)
                    (conversation_history self) [] in
      format_loop recent_history []
  end.

(** *** [check_for_commands], [process_text_queue] *)

(** [re.search(pattern, text, re.IGNORECASE)] is not [None]. *)
Variable re_search : string -> string -> bool.

Definition document_pattern : string :=
  "\b(open|read|analyze|process)\s+(?:the\s+)?(document|pdf|file)\b".
Definition image_pattern : string :=
  "\b(look at|analyze|process|read|see)\s+(?:the\s+)?(image|picture|photo)\b".
Definition exit_pattern : string :=
  "\b(exit|leave|quit|close)\s+(?:the\s+)?(document|pdf|file|image|picture|photo|mode)\b".

Definition check_for_commands (text : string) : option command :=
  if re_search document_pattern text then Some document_mode
  else if re_search image_pattern text then Some image_mode
  else if re_search exit_pattern text then Some exit_mode
  else None.

Variable generate_response :
  string -> list (string * string) -> response.

Definition not_sure : string := "I'm not sure how to respond to that.".
Definition having_trouble : string :=
  "I'm having trouble processing that right now.".
Definition returning : string :=
  "Returning to general conversation mode.".

(** One pass of the loop; next to the object, the texts the assistant
    says in that pass: printed after [Assistant: ] and handed to
    [generate_speech], which catches its own errors. *)
Definition process_text_queue_iteration (now : Q) (self : t)
  : t * list string :=
  match text_queue self with
  | [] => (self, [])
  | text :: q =>
      let self := set_text_queue q self in
      match check_for_commands text with
      | Some exit_mode =>
          let self := set_current_mode "general" self in
          let self := set_current_file_path None self in
          let self := add_to_conversation_history "user" text now self in
          (add_to_conversation_history "assistant" returning now self,
           [returning])
      | _ =>
          let self := set_is_speaking true self in
          let context := get_conversation_context now self in
          let (self, said) :=
            match generate_response text context with
            | Returns (Some r) =>
                if Py.truthy r then
                  let self :=
                    add_to_conversation_history "user" text now self in
                  (add_to_conversation_history "assistant" r now self,
                   [r])
                else
                  let self :=
                    add_to_conversation_history "user" text now self in
                  (add_to_conversation_history "assistant" not_sure now
                                               self, [not_sure])
            | Returns None =>
                let self :=
                  add_to_conversation_history "user" text now self in
                (add_to_conversation_history "assistant" not_sure now
                                             self, [not_sure])
            | Raises =>
                let self :=
                  add_to_conversation_history "user" text now self in
                (add_to_conversation_history "assistant" having_trouble
                                             now self, [having_trouble])
            end in
          (set_is_speaking false self, said)
      end
  end.

(** The loop over the clock values of its passes. *)
Fixpoint process_text_queue (clock : list Q) (self : t)
  : t * list string :=
  match clock with
  | [] => (self, [])
  | now :: clock' =>
      let (self', said) := process_text_queue_iteration now self in
      let (self'', said') := process_text_queue clock' self' in
      (self'', said ++ said')
  end.

(** *** [partial_text_monitor] *)

(** One pass; next to the object, what was written after
    [[Partial]: ]. *)
Definition partial_text_monitor_iteration (self : t) : t * list string :=
  match BaseSTT.partial_result_queue (stt self) with
  | [] => (self, [])
  | result :: q =>
      if is_listening self then
        let self :=
          set_stt (BaseSTT.set_partial_result_queue q (stt self)) self in
        let partial_text := Py.strip (BaseSTT.partial_text result) in
        if Py.truthy partial_text
           && negb (String.eqb partial_text (last_full_result self))
        then
          let self := set_showing_partial true self in
          let self :=
            if negb (silence_detection_enabled self)
            then set_silence_detection_enabled true self
            else self in
          (self, [partial_text])
        else (self, [])
      else (self, [])
  end.

Fixpoint partial_text_monitor (passes : nat) (self : t)
  : t * list string :=
  match passes with
  | O => (self, [])
  | S passes' =>
      let (self', shown) := partial_text_monitor_iteration self in
      let (self'', shown') := partial_text_monitor passes' self' in
      (self'', shown ++ shown')
  end.

(** *** [keyboard_input_thread] *)

Definition keyboard_input_iteration (now : Q) (typed : console)
           (self : t) : t :=
  match typed with
  | Line text =>
      if negb (Py.truthy (Py.strip text)) then self
      else
        let self := set_text_queue (text_queue self ++ [text]) self in
        let self := set_last_speech_time now self in
        let self :=
          if negb (silence_detection_enabled self)
          then set_silence_detection_enabled true self
          else self in
        set_start_time now self
  | EOFError => self
  | KeyboardInterrupt => set_stop_threads true self
  end.

(** *** The threads together *)

(** One pass of one of the threads that share the object.  The threads
    of the speech-to-text object only touch [self.stt]. *)
Inductive op : Type :=
| SilenceMonitor (now : Q) (speech_state : BaseSTT.speech_state)
| SttProcessor (now : Q)
| PartialTextMonitor
| KeyboardInput (now : Q) (typed : console)
| ProcessTextQueue (now : Q)
| SttThread (f : BaseSTT.t audio -> BaseSTT.t audio).

Definition step (o : op) (self : t) : t :=
  match o with
  | SilenceMonitor now speech_state =>
      silence_monitor_iteration now speech_state self
  | SttProcessor now => stt_processor_iteration now self
  | PartialTextMonitor => fst (partial_text_monitor_iteration self)
  | KeyboardInput now typed => keyboard_input_iteration now typed self
  | ProcessTextQueue now => fst (process_text_queue_iteration now self)
  | SttThread f => set_stt (f (stt self)) self
  end.

(** An interleaving of passes, run from [self]. *)
Fixpoint run (ops : list op) (self : t) : t :=
  match ops with
  | [] => self
  | o :: ops' => run ops' (step o self)
  end.

End Object.

Arguments Make {audio}.
Arguments stt {audio}.
Arguments text_queue {audio}.
Arguments stop_threads {audio}.
Arguments current_mode {audio}.
Arguments current_file_path {audio}.
Arguments last_speech_time {audio}.
Arguments silence_threshold {audio}.
Arguments is_listening {audio}.
Arguments is_speaking {audio}.
Arguments start_time {audio}.
Arguments warm_up_period {audio}.
Arguments silence_detection_enabled {audio}.
Arguments current_language {audio}.
Arguments last_full_result {audio}.
Arguments showing_partial {audio}.
Arguments conversation_history {audio}.
Arguments max_history_items {audio}.
Arguments context_window_minutes {audio}.
Arguments set_stt {audio}.
Arguments set_text_queue {audio}.
Arguments set_stop_threads {audio}.
Arguments set_current_mode {audio}.
Arguments set_current_file_path {audio}.
Arguments set_last_speech_time {audio}.
Arguments set_is_listening {audio}.
Arguments set_is_speaking {audio}.
Arguments set_start_time {audio}.
Arguments set_silence_detection_enabled {audio}.
Arguments set_current_language {audio}.
Arguments set_last_full_result {audio}.
Arguments set_showing_partial {audio}.
Arguments set_conversation_history {audio}.
Arguments init {audio}.
Arguments silence_monitor_iteration {audio}.
Arguments silence_monitor {audio}.
Arguments stt_processor_iteration {audio}.
Arguments add_to_conversation_history {audio}.
Arguments get_conversation_context {audio}.
Arguments process_text_queue_iteration {audio}.
Arguments process_text_queue {audio}.
Arguments partial_text_monitor_iteration {audio}.
Arguments partial_text_monitor {audio}.
Arguments keyboard_input_iteration {audio}.
Arguments SilenceMonitor {audio}.
Arguments SttProcessor {audio}.
Arguments PartialTextMonitor {audio}.
Arguments KeyboardInput {audio}.
Arguments ProcessTextQueue {audio}.
Arguments SttThread {audio}.
Arguments step {audio}.
Arguments run {audio}.

End VoiceAssistant.

(** ** [base_stt.py]: frame counting, the background callback and the
       ambient-noise adjustment *)

Module Capture.

(** What [recognizer.recognize_google(audio, language=..., show_all=True)]
    does: it returns a dict with the transcripts of its [alternative]
    list, returns something without such a list, or raises. *)
Inductive show_all_result : Type :=
| Alternatives (transcripts : list string)
| NoAlternatives
| ShowAllRaises.

(** How the adjustment thread ends within the five seconds the caller
    waits: it measured a threshold, it raised, or it did not end. *)
Inductive adjustment : Type :=
| Measured (threshold : Q)
| AdjustmentRaises
| TimedOut.

(** [max(a, b)] and [min(a, b)]: the first argument unless the second is
    strictly beyond it. *)
Definition max (a b : Q) : Q := if Py.gt b a then b else a.
Definition min (a b : Q) : Q := if Py.lt b a then b else a.

Section Object.

Variable audio : Type.

(** The attributes of a [BaseSTT] object that [process_audio],
    [audio_callback] and [adjust_for_ambient_noise] use, next to those of
    [BaseSTT.t]. *)
Record t : Type := Make
  { base : BaseSTT.t audio;
    silence_frames : nat;
    speech_frames : nat;
    total_frames : nat;
    current_partial_text : string;
    min_energy_threshold : Q;
    best_mic_index : option nat }.

Definition set_base (b : BaseSTT.t audio) (self : t) : t :=
  Make b (silence_frames self) (speech_frames self) (total_frames self)
       (current_partial_text self) (min_energy_threshold self)
       (best_mic_index self).

Definition set_frames (silence speech total : nat) (self : t) : t :=
  Make (base self) silence speech total (current_partial_text self)
       (min_energy_threshold self) (best_mic_index self).

Definition set_current_partial_text (v : string) (self : t) : t :=
  Make (base self) (silence_frames self) (speech_frames self)
       (total_frames self) v (min_energy_threshold self)
       (best_mic_index self).

Definition set_best_mic_index (v : option nat) (self : t) : t :=
  Make (base self) (silence_frames self) (speech_frames self)
       (total_frames self) (current_partial_text self)
       (min_energy_threshold self) v.

Definition set_silence_ratio (v : Q) (b : BaseSTT.t audio)
  : BaseSTT.t audio :=
  BaseSTT.Make (BaseSTT.audio_queue b) (BaseSTT.result_queue b)
               (BaseSTT.partial_result_queue b) (BaseSTT.last_audio_time b)
               (BaseSTT.last_speech_time b) v (BaseSTT.silence_threshold b)
               (BaseSTT.energy_threshold b) (BaseSTT.supported_languages b)
               (BaseSTT.last_detected_language b).

Definition set_last_speech_time (v : Q) (b : BaseSTT.t audio)
  : BaseSTT.t audio :=
  BaseSTT.Make (BaseSTT.audio_queue b) (BaseSTT.result_queue b)
               (BaseSTT.partial_result_queue b) (BaseSTT.last_audio_time b)
               v (BaseSTT.silence_ratio b) (BaseSTT.silence_threshold b)
               (BaseSTT.energy_threshold b) (BaseSTT.supported_languages b)
               (BaseSTT.last_detected_language b).

Definition set_energy_threshold (v : Q) (b : BaseSTT.t audio)
  : BaseSTT.t audio :=
  BaseSTT.Make (BaseSTT.audio_queue b) (BaseSTT.result_queue b)
               (BaseSTT.partial_result_queue b) (BaseSTT.last_audio_time b)
               (BaseSTT.last_speech_time b) (BaseSTT.silence_ratio b)
               (BaseSTT.silence_threshold b) v
               (BaseSTT.supported_languages b)
               (BaseSTT.last_detected_language b).

(** [__init__] at clock value [now]; [listing] is what
    [list_microphone_names] gives. *)
Definition init (listing : option (list string)) (now : Q) : t :=
  Make (BaseSTT.init audio now) 0 0 0 "" 300%Q
       (BaseSTT.find_best_microphone listing).

(** [process_audio] at clock value [now]; [energy] is the RMS energy
    numpy computes from the frame data, [None] when that raises (the
    [except] branch, entered before any counter is touched). *)
Definition process_audio (energy : option Q) (now : Q) (self : t)
  : t * bool :=
  match energy with
  | None => (self, false)
  | Some energy =>
      let total := S (total_frames self) in
      let is_speech_detected :=
        Py.gt energy (BaseSTT.energy_threshold (base self) * (8 # 10))%Q in
      let speech :=
        if is_speech_detected then S (speech_frames self)
        else speech_frames self in
      let silence :=
        if is_speech_detected then silence_frames self
        else S (silence_frames self) in
      let b :=
        if is_speech_detected then set_last_speech_time now (base self)
        else base self in
      let b :=
        if 0 <? total
        then set_silence_ratio
               (inject_Z (Z.of_nat silence) / inject_Z (Z.of_nat total))%Q b
        else b in
      let self := set_base b self in
      let self :=
        if 100 <? total then set_frames 0 0 0 self
        else set_frames silence speech total self in
      (self, is_speech_detected)
  end.

(** What one call of [audio_callback] meets. *)
Record heard : Type := Heard
  { chunk : audio;
    energy : option Q;
    at_time : Q;
    show_all : show_all_result }.

(** [audio_callback(recognizer, audio_data)]. *)
Definition audio_callback (h : heard) (self : t) : t :=
  let (self, speech_detected) := process_audio (energy h) (at_time h) self in
  let self :=
    set_base (BaseSTT.set_audio_queue
                (BaseSTT.audio_queue (base self) ++ [chunk h]) (base self))
             self in
  if speech_detected then
    let self :=
      set_base (BaseSTT.set_last_audio_time (at_time h) (base self)) self in
    match show_all h with
    | Alternatives (best_guess :: _) =>
        if Py.truthy best_guess then
          let self := set_current_partial_text best_guess self in
          set_base (BaseSTT.set_partial_result_queue
                      (BaseSTT.partial_result_queue (base self)
                       ++ [BaseSTT.Partial best_guess (at_time h)])
                      (base self))
                   self
        else self
    | _ => self
    end
  else self.

(** The background listener over the chunks it hears. *)
Fixpoint listen_in_background (hs : list heard) (self : t) : t :=
  match hs with
  | [] => self
  | h :: hs' => listen_in_background hs' (audio_callback h self)
  end.

(** [perform_adjustment], the body of the adjustment thread:
    [measured] is the threshold [recognizer.adjust_for_ambient_noise]
    leaves, [None] when it raises. *)
Definition perform_adjustment (measured : option Q) (self : t) : t :=
  match measured with
  | Some m =>
      let th := max m (min_energy_threshold self) in
      let th := min th 300%Q in
      set_base (set_energy_threshold th (base self)) self
  | None => self
  end.

(** [adjust_for_ambient_noise], up to its return. *)
Definition adjust_for_ambient_noise (listing : option (list string))
           (outcome : adjustment) (self : t) : t :=
  let self :=
    match best_mic_index self with
    | None => set_best_mic_index (BaseSTT.find_best_microphone listing) self
    | Some _ => self
    end in
  let self := set_base (set_energy_threshold 300%Q (base self)) self in
  let self :=
    match outcome with
    | Measured m => perform_adjustment (Some m) self
    | AdjustmentRaises => perform_adjustment None self
    | TimedOut =>
        set_base (set_energy_threshold (min_energy_threshold self)
                                       (base self)) self
    end in
  set_base (set_energy_threshold 300%Q (base self)) self.

End Object.

Arguments Make {audio}.
Arguments base {audio}.
Arguments silence_frames {audio}.
Arguments speech_frames {audio}.
Arguments total_frames {audio}.
Arguments current_partial_text {audio}.
Arguments min_energy_threshold {audio}.
Arguments best_mic_index {audio}.
Arguments set_base {audio}.
Arguments set_frames {audio}.
Arguments set_silence_ratio {audio}.
Arguments set_last_speech_time {audio}.
Arguments set_energy_threshold {audio}.
Arguments process_audio {audio}.
Arguments Heard {audio}.
Arguments chunk {audio}.
Arguments energy {audio}.
Arguments at_time {audio}.
Arguments show_all {audio}.
Arguments audio_callback {audio}.
Arguments listen_in_background {audio}.
Arguments perform_adjustment {audio}.
Arguments adjust_for_ambient_noise {audio}.

End Capture.

(** ** [voice_assistant/speech/tts/edge_tts_generator.py]: the duplicate
       guard *)

Module EdgeTTS.

(** The attributes of an [EdgeTTSGenerator] the guard uses. *)
Record t : Type := Make { last_message : string; last_message_time : Q }.

(** [__init__] *)
Definition init : t := Make "" 0.

Definition duplicate_threshold : Q := 2.

(** [generate_and_play_speech(text)] at clock value [current_time], up to
    the point where synthesis starts: the object, and whether the text
    goes on to be synthesised ([false]: skipped as a duplicate). *)
Definition generate_and_play_speech (text : string) (current_time : Q)
           (self : t) : t * bool :=
  if String.eqb text (last_message self)
     && Py.lt (current_time - last_message_time self) duplicate_threshold
  then (self, false)
  else (Make text current_time, true).

(** [generate_speech] called for each request in turn; it returns the
    requests that go on to be synthesised. *)
Fixpoint generate_speech (requests : list (Q * string)) (self : t)
  : t * list (Q * string) :=
  match requests with
  | [] => (self, [])
  | (current_time, text) :: requests' =>
      let (self', go) := generate_and_play_speech text current_time self in
      let (self'', rest) := generate_speech requests' self' in
      (self'', if go then (current_time, text) :: rest else rest)
  end.

End EdgeTTS.

(** ** [voice_assistant/nlp/language_model.py] *)

Module LanguageModel.

(** The attributes of a [LanguageModel] the modelled methods use:
    [chat_session] is the history the chat session was started with
    ([None] while there is no session), and [system_prompt] is [None]
    while the object has no such attribute. *)
Record t : Type := Make
  { api_key : option string;
    chat_session : option (list (string * string));
    system_prompt : option string }.

(** [__init__] *)
Definition init : t := Make None None None.

(** What [setup] meets: the content of the key file ([None] when the file
    does not exist), the environment variable, the two lines typed at the
    prompts, and whether the calls into the Gemini library return. *)
Record setup_env : Type := SetupEnv
  { key_file : option string;
    env_key : option string;
    typed_key : string;
    save_answer : string;
    genai_ok : bool }.

(** [get_api_key] *)
Definition get_api_key (e : setup_env) : option string :=
  match key_file e with
  | Some content => Some (Py.strip content)
  | None => env_key e
  end.

(** [setup(system_prompt)]: the object, and what was written to the key
    file, if anything.  When the library calls raise, the key is set and
    no chat session is started. *)
Definition setup (e : setup_env) (prompt : option string) (self : t)
  : t * option string :=
  let key := get_api_key e in
  let missing :=
    match key with
    | Some k => negb (Py.truthy k)
    | None => true
    end in
  let '(key, written) :=
    if missing then
      (Some (typed_key e),
       if String.eqb (Py.lower (save_answer e)) "y"
       then Some (typed_key e) else None)
    else (key, None) in
  let started :=
    match prompt with
    | Some p =>
        if Py.truthy p
        then [("user"%string, p);
              ("model"%string,
               "I understand and I'm ready to assist as instructed."%string)]
        else []
    | None => []
    end in
  (Make key (if genai_ok e then Some started else chat_session self)
        (system_prompt self),
   written).

Section Generate.

(** Sending [text] on a new session that starts from a history, and on the
    object's own chat session: the text of the response, [None] when
    anything on the way raises. *)
Variable send_with_history : list (string * string) -> string -> option string.
Variable send_plain : string -> option string.

(** The history the context becomes: role and content pairs, the role
    [assistant] renamed to [model], after a system entry when the object
    has a non-empty [system_prompt] attribute. *)
Definition history_of (self : t) (context : list (string * string))
  : list (string * string) :=
  (match system_prompt self with
   | Some p => if Py.truthy p then [("system"%string, p)] else []
   | None => []
   end)
  ++ map (fun message =>
            (if String.eqb (fst message) "assistant" then "model"%string
             else fst message,
             snd message))
         context.

Definition plain_response (text : string) : VoiceAssistant.response :=
  match send_plain text with
  | Some r => VoiceAssistant.Returns (Some r)
  | None => VoiceAssistant.Returns None
  end.

(** [generate_response(text, context=context)] *)
Definition generate_response (self : t) (text : string)
           (context : list (string * string)) : VoiceAssistant.response :=
  match chat_session self with
  | None => VoiceAssistant.Raises
  | Some _ =>
      match context with
      | _ :: _ =>
          match send_with_history (history_of self context) text with
          | Some r => VoiceAssistant.Returns (Some r)
          | None => plain_response text
          end
      | [] => plain_response text
      end
  end.

End Generate.

End LanguageModel.

(** ** Notions the statements use *)

Module Notions.

Section Recognition.

Variable audio : Type.
Variable recognize_google : audio -> string -> BaseSTT.transcription.

(** The languages the fallback loop may visit: the supported ones without
    the hint already tried, in their order. *)
Definition is_other (self : BaseSTT.t audio) (l : string) : bool :=
  negb (String.eqb l (BaseSTT.last_detected_language self)).

Definition other_languages (self : BaseSTT.t audio) : list string :=
  filter (is_other self) (BaseSTT.supported_languages self).

(** The backend returns a non-empty text for [a] in language [l]. *)
Definition answers (a : audio) (l : string) : bool :=
  match recognize_google a l with
  | BaseSTT.Text txt => Py.truthy (Py.strip txt)
  | _ => false
  end.

(** The fallback loop ends at language [l]: a non-empty text, or a request
    error, which leaves the loop through the outer handler. *)
Definition ends_loop (a : audio) (l : string) : bool :=
  match recognize_google a l with
  | BaseSTT.Text txt => Py.truthy (Py.strip txt)
  | BaseSTT.UnknownValueError => false
  | BaseSTT.RequestError => true
  end.

Variable detect : string -> option string.

(** The object after the fallback loop has accepted the text [txt]. *)
Definition accepted (self : BaseSTT.t audio) (now : Q) (txt : string)
  : BaseSTT.t audio :=
  let detected := BaseSTT.detect_language_from_text detect self txt in
  BaseSTT.set_last_audio_time
    now
    (BaseSTT.put_result
       (BaseSTT.Result txt detected now (BaseSTT.energy_threshold self))
       (BaseSTT.set_last_detected_language detected self)).

End Recognition.

Arguments is_other {audio}.
Arguments accepted {audio}.
Arguments other_languages {audio}.
Arguments answers {audio}.
Arguments ends_loop {audio}.

End Notions.

(** ** The context window *)

Module Context.

(** The entry lies within the window of [window] minutes at time [now]. *)
Definition within_window (now window : Q) (item : VoiceAssistant.turn)
  : bool :=
  Py.le ((now - VoiceAssistant.timestamp item) / 60)%Q window.

(** The role and content pair handed to the language model. *)
Definition formatted (item : VoiceAssistant.turn) : string * string :=
  (VoiceAssistant.role item, VoiceAssistant.turn_text item).

End Context.

(** ** Displayed partial results *)

Module Display.

(** Every displayed text differs from the one displayed just before it,
    [previous] being the one before the first. *)
Fixpoint distinct_from_previous (previous : string) (shown : list string)
  : Prop :=
  match shown with
  | [] => True
  | d :: shown' => d <> previous /\ distinct_from_previous d shown'
  end.

(** The text is not blank. *)
Definition nonblank (text : string) : Prop := Py.strip text <> ""%string.

End Display.

(** ** Passes of the active listening loop *)

Module Passes.

Section Kinds.

Variable audio : Type.

(** The pass fails to capture audio: the device does not open, or
    [listen] raises something other than a timeout. *)
Definition capture_fails (e : BaseSTT.pass_env audio) : bool :=
  negb (BaseSTT.enter_ok e)
  || match BaseSTT.heard e with
     | BaseSTT.ListenError => true
     | _ => false
     end.

(** The pass captures no audio (a failure or a timeout), and the
    constructors work should it have to build its recognizer anew. *)
Definition captures_nothing (e : BaseSTT.pass_env audio) : bool :=
  BaseSTT.create_ok e
  && (negb (BaseSTT.enter_ok e)
      || match BaseSTT.heard e with
         | BaseSTT.Heard _ => false
         | _ => true
         end).

(** The number of passes of a run that fail to capture audio. *)
Definition failures (world : list (BaseSTT.pass_env audio)) : nat :=
  List.length (filter capture_fails world).

(** The number of three-second pauses in a run. *)
Definition backoffs (evs : list (BaseSTT.event)) : nat :=
  List.length
    (filter (fun ev => match ev with
                       | BaseSTT.Sleep s => Qeq_bool s 3
                       | _ => false
                       end) evs).

End Kinds.

Arguments capture_fails {audio}.
Arguments captures_nothing {audio}.
Arguments failures {audio}.

End Passes.

(** ** Microphone selection as the specification words it *)

Module Specified.

(** The ranking in the specification's words, for a given allow-list of
    known-good name substrings: the first device whose name contains an
    allow-listed substring, else the first device whose name contains
    "microphone" or "headset", else the first device that is not an output
    device, else index 0, else nothing. *)
Definition select_device (allow_list : list string)
           (mic_names : list string) : option nat :=
  match BaseSTT.first_name_from
          (fun name =>
             existsb (fun s => BaseSTT.keyword_in_name s name) allow_list)
          0 mic_names with
  | Some i => Some i
  | None =>
      match BaseSTT.first_name_from
              (fun name =>
                 BaseSTT.keyword_in_name "microphone" name
                 || BaseSTT.keyword_in_name "headset" name)
              0 mic_names with
      | Some i => Some i
      | None =>
          match BaseSTT.first_name_from BaseSTT.not_output_device
                                        0 mic_names with
          | Some i => Some i
          | None => match mic_names with
                    | _ :: _ => Some 0
                    | [] => None
                    end
          end
      end
  end.

(** Device [i] is the first one whose name passes [test]. *)
Definition first_with (test : string -> bool) (mic_names : list string)
           (i : nat) : Prop :=
  (exists name, nth_error mic_names i = Some name /\ test name = true)
  /\ (forall j name,
         j < i -> nth_error mic_names j = Some name -> test name = false).

(** No device name contains [keyword]. *)
Definition unmatched (mic_names : list string) (keyword : string) : Prop :=
  Forall (fun name => BaseSTT.keyword_in_name keyword name = false) mic_names.

End Specified.

(** ** Concrete collaborators and objects for the examples *)

Module Examples.

(** A backend that returns only white space for the hint [en-US] and a
    text for every other language. *)
Definition blank_for_english (_ : unit) (l : string) : BaseSTT.transcription :=
  if String.eqb l "en-US" then BaseSTT.Text "  " else BaseSTT.Text "hola".

(** A backend that understands the audio in French only. *)
Definition french_only (_ : unit) (l : string) : BaseSTT.transcription :=
  if String.eqb l "fr-FR" then BaseSTT.Text "bonjour"
  else BaseSTT.UnknownValueError.

(** A backend that understands nothing. *)
Definition understands_nothing (_ : unit) (_ : string)
  : BaseSTT.transcription :=
  BaseSTT.UnknownValueError.

(** [langdetect.detect] raising on every text. *)
Definition detect_raises (_ : string) : option string := None.

(** A pass in which audio is captured and both recognition services fail
    with a request error. *)
Definition backend_unreachable : BaseSTT.pass_env unit :=
  BaseSTT.PassEnv true true true (Some 250%Q) (BaseSTT.Heard tt)
                  BaseSTT.RequestError BaseSTT.RequestError true 1.

(** A pass in which [listen] raises. *)
Definition listen_raises : BaseSTT.pass_env unit :=
  BaseSTT.PassEnv true true true (Some 250%Q) BaseSTT.ListenError
                  BaseSTT.RequestError BaseSTT.RequestError true 1.

(** An assistant whose history is full: twenty entries, one a second. *)
Definition twenty_turns : list VoiceAssistant.turn :=
  map (fun n => VoiceAssistant.Turn "user" "hello" (inject_Z (Z.of_nat n)))
      (seq 0 20).

Definition with_full_history : VoiceAssistant.t unit :=
  VoiceAssistant.set_conversation_history
    twenty_turns
    (VoiceAssistant.init (BaseSTT.init unit 0)
                         Settings.silence_threshold_seconds 0).

(** A pass in which [listen] raises and the constructors of the reset
    block raise as well. *)
Definition listen_raises_reset_fails : BaseSTT.pass_env unit :=
  BaseSTT.PassEnv true true true (Some 250%Q) BaseSTT.ListenError
                  BaseSTT.RequestError BaseSTT.RequestError false 1.

(** [re.search] finding no command, a response generator that always
    answers, and one that always raises. *)
Definition no_command (_ _ : string) : bool := false.

Definition always_answers (_ : string) (_ : list (string * string))
  : VoiceAssistant.response :=
  VoiceAssistant.Returns (Some "Hello!"%string).

Definition always_raises (_ : string) (_ : list (string * string))
  : VoiceAssistant.response :=
  VoiceAssistant.Raises.

(** An assistant, listening, whose speech-to-text object holds the same
    partial text twice in a row. *)
Definition same_partial_twice : VoiceAssistant.t unit :=
  VoiceAssistant.init
    (BaseSTT.set_partial_result_queue
       [BaseSTT.Partial "hello" 1; BaseSTT.Partial "hello" 2]
       (BaseSTT.init unit 0))
    Settings.silence_threshold_seconds 0.

(** Eight devices with one and the same name. *)
Definition eight_microphones : list string :=
  repeat "Microphone (USB Audio)"%string 8.

(** A speech-to-text object built at time 0 with one captured chunk. *)
Definition one_chunk : BaseSTT.t unit :=
  BaseSTT.set_audio_queue [tt] (BaseSTT.init unit 0).

End Examples.

(** ** [assistant.py]: the life of an assistant under [run] *)

Module Startup.

Definition welcome : string :=
  "Welcome to the Multilingual Voice Assistant. I can understand and respond in multiple languages. How can I help you today?".

Section Life.

Variable audio : Type.
Variable re_search : string -> string -> bool.
Variable generate_response :
  string -> list (string * string) -> VoiceAssistant.response.

(** [run] starts the threads, records the welcome message in the history
    and enters the text-queue loop: the assistant after the passes
    [before] the welcome message is recorded, the recording at time
    [welcomed_at], and the passes [after] it. *)
Definition life (stt0 : BaseSTT.t audio) (configured t0 : Q)
           (before : list (VoiceAssistant.op audio)) (welcomed_at : Q)
           (after : list (VoiceAssistant.op audio))
  : VoiceAssistant.t audio :=
  VoiceAssistant.run
    re_search generate_response after
    (VoiceAssistant.add_to_conversation_history
       "assistant" welcome welcomed_at
       (VoiceAssistant.run re_search generate_response before
                           (VoiceAssistant.init stt0 configured t0))).

End Life.

Arguments life {audio}.

End Startup.

(** ** Invariants of the objects *)

Module Invariants.

(** The frame counters add up, the window holds at most 100 frames and
    the silence ratio is a ratio. *)
Definition frames_consistent {audio : Type} (self : Capture.t audio)
  : Prop :=
  Capture.silence_frames self + Capture.speech_frames self
  = Capture.total_frames self
  /\ Capture.total_frames self <= 100
  /\ (0 <= BaseSTT.silence_ratio (Capture.base self))%Q
  /\ (BaseSTT.silence_ratio (Capture.base self) <= 1)%Q.

(** Every queued partial result has a non-empty text. *)
Definition partials_nonempty {audio : Type} (b : BaseSTT.t audio) : Prop :=
  Forall (fun r => BaseSTT.partial_text r <> ""%string)
         (BaseSTT.partial_result_queue b).

(** Every entry of the conversation history has the role [user] or
    [assistant]. *)
Definition roles_known (history : list VoiceAssistant.turn) : Prop :=
  Forall (fun item => VoiceAssistant.role item = "user"%string
                      \/ VoiceAssistant.role item = "assistant"%string)
         history.

(** The roles of the history handed to the model are [user] or [model]. *)
Definition roles_for_model (history : list (string * string)) : Prop :=
  Forall (fun message => fst message = "user"%string
                         \/ fst message = "model"%string)
         history.

(** The languages of this program: the supported languages are those of
    the settings and the hint is one of them. *)
Definition languages_known {audio : Type} (self : BaseSTT.t audio) : Prop :=
  BaseSTT.supported_languages self = map snd Settings.SUPPORTED_LANGUAGES
  /\ In (BaseSTT.last_detected_language self)
        (BaseSTT.supported_languages self).

(** What one chunk may do to the speech-to-text object. *)
Definition chunk_effect {audio : Type} (self self' : BaseSTT.t audio)
  : Prop :=
  exists new,
    BaseSTT.result_queue self' = BaseSTT.result_queue self ++ new
    /\ List.length new <= 1
    /\ BaseSTT.audio_queue self' = BaseSTT.audio_queue self
    /\ BaseSTT.partial_result_queue self'
       = BaseSTT.partial_result_queue self
    /\ BaseSTT.supported_languages self' = BaseSTT.supported_languages self
    /\ (languages_known self ->
        languages_known self'
        /\ Forall (fun r => In (BaseSTT.lang r)
                               (BaseSTT.supported_languages self)) new).

(** What holds of an assistant at every moment of its life: it is in the
    general mode with no file, its history bound is 10, and its history
    has at most 20 entries, all with known roles. *)
Definition well_formed {audio : Type} (self : VoiceAssistant.t audio)
  : Prop :=
  VoiceAssistant.current_mode self = "general"%string
  /\ VoiceAssistant.current_file_path self = None
  /\ VoiceAssistant.max_history_items self = 10
  /\ List.length (VoiceAssistant.conversation_history self) <= 20
  /\ roles_known (VoiceAssistant.conversation_history self).

End Invariants.

(** ** Sequences of speech requests *)

Module Requests.

(** Every request in the list differs in text from the one before it or
    comes at least two seconds after it, [previous] coming before the
    first. *)
Fixpoint spaced (previous : Q * string) (requests : list (Q * string))
  : Prop :=
  match requests with
  | [] => True
  | r :: requests' =>
      (snd r <> snd previous \/ (2 <= fst r - fst previous)%Q)
      /\ spaced r requests'
  end.

(** No request repeats the text of the one before it, [previous] being the
    text before the first. *)
Fixpoint changing (previous : string) (requests : list (Q * string))
  : Prop :=
  match requests with
  | [] => True
  | r :: requests' => snd r <> previous /\ changing (snd r) requests'
  end.

End Requests.

(** * Properties *)

(** ** Comparisons *)

Lemma gt_true (x y : Q) : Py.gt x y = true <-> (y < x)%Q.
Proof.
  unfold Py.gt. rewrite negb_true_iff. split; intro H.
  - apply Qnot_le_lt. intro Hle. apply Qle_bool_iff in Hle. congruence.
  - destruct (Qle_bool x y) eqn:E; [| reflexivity].
    apply Qle_bool_iff in E. exfalso. exact (Qlt_not_le _ _ H E).
Qed.

Lemma lt_true (x y : Q) : Py.lt x y = true <-> (x < y)%Q.
Proof. exact (gt_true y x). Qed.

(** ** The silence monitor *)

Module Silence.
Import VoiceAssistant.

Section Monitor.

Variable audio : Type.
Implicit Types (self : VoiceAssistant.t audio)
         (speech_state : BaseSTT.speech_state).

(** While the latch is clear a pass of the monitor changes nothing. *)
Lemma monitor_idle_while_disabled now speech_state self :
  silence_detection_enabled self = false ->
  silence_monitor_iteration now speech_state self = self.
Proof.
  intro En. unfold silence_monitor_iteration. rewrite En.
  destruct (Py.lt (now - start_time self) (warm_up_period self));
    cbn [andb negb]; rewrite En; reflexivity.
Qed.

(** With the latch set, a pass of the monitor is the listening/paused
    switch alone. *)
Lemma monitor_enabled now speech_state self :
  silence_detection_enabled self = true ->
  silence_monitor_iteration now speech_state self =
  if is_listening self then
    if Py.gt (BaseSTT.ss_silence_duration speech_state) 3%Q
       && BaseSTT.ss_is_silent speech_state
       && negb (is_speaking self)
    then set_is_listening false self else self
  else
    if Py.lt (BaseSTT.ss_silence_ratio speech_state) (7 # 10)%Q
    then set_is_listening true self else self.
Proof.
  intro En. unfold silence_monitor_iteration. rewrite En.
  cbn [negb]. rewrite andb_false_r.
  assert (Hset : set_silence_detection_enabled true self = self).
  { destruct self; cbn in *; subst; reflexivity. }
  destruct (Py.lt (now - start_time self) (warm_up_period self)
            && Py.ge (now - start_time self) (warm_up_period self - 1));
    rewrite ?Hset, En; reflexivity.
Qed.

(** The monitor never writes the latch: its [elif] is reached only when
    the latch is already set. *)
Lemma monitor_keeps_latch now speech_state self :
  silence_detection_enabled
    (silence_monitor_iteration now speech_state self)
  = silence_detection_enabled self.
Proof.
  destruct (silence_detection_enabled self) eqn:En.
  - rewrite monitor_enabled by exact En.
    repeat match goal with
           | |- context [if ?b then _ else _] => destruct b
           end; cbn; exact En.
  - rewrite monitor_idle_while_disabled by exact En. exact En.
Qed.

Lemma silence_monitor_snoc samples now speech_state self :
  silence_monitor (samples ++ [(now, speech_state)]) self =
  silence_monitor_iteration now speech_state
                            (silence_monitor samples self).
Proof.
  revert self. induction samples as [| [n s] samples IH]; intro self.
  - reflexivity.
  - cbn [app silence_monitor]. apply IH.
Qed.

End Monitor.

End Silence.

Module Threads.
Import VoiceAssistant.

Section Interleaving.

Variable audio : Type.
Variable re_search : string -> string -> bool.
Variable generate_response :
  string -> list (string * string) -> response.

Implicit Types (self : VoiceAssistant.t audio).

(** [add_to_conversation_history] writes [conversation_history] only. *)
Lemma add_history_writes_history role0 text now self :
  add_to_conversation_history role0 text now self =
  set_conversation_history
    (conversation_history
       (add_to_conversation_history role0 text now self)) self.
Proof.
  unfold add_to_conversation_history.
  destruct (_ <? _); reflexivity.
Qed.

Ltac through_history :=
  repeat match goal with
         | |- context [add_to_conversation_history ?r ?x ?n ?s] =>
             rewrite (add_history_writes_history r x n s);
             generalize (conversation_history
                           (add_to_conversation_history r x n s));
             intro
         end.

Ltac cases :=
  repeat match goal with
         | |- context [match ?x with _ => _ end] =>
             destruct x eqn:?; cbn
         end.

Ltac process_cases :=
  unfold process_text_queue_iteration;
  destruct (text_queue _) as [| text q]; cbn;
  [| destruct (check_for_commands _ _) as [[| |]|]; cbn;
     try (destruct (generate_response _ _) as [[r|]|]; cbn;
          [destruct (Py.truthy r); cbn | |]) ];
  through_history; cbn.

(** Only the silence monitor writes [is_listening]. *)
Lemma other_threads_keep_listening o self :
  (forall now speech_state, o <> SilenceMonitor now speech_state) ->
  is_listening (step re_search generate_response o self)
  = is_listening self.
Proof.
  intro Hop. destruct o; cbn [step].
  - exfalso. eapply Hop. reflexivity.
  - unfold stt_processor_iteration. cases; congruence.
  - unfold partial_text_monitor_iteration. cases; congruence.
  - unfold keyboard_input_iteration. cases; congruence.
  - process_cases; congruence.
  - reflexivity.
Qed.

(** No pass of any thread clears the latch. *)
Lemma step_keeps_latch_set o self :
  silence_detection_enabled self = true ->
  silence_detection_enabled (step re_search generate_response o self)
  = true.
Proof.
  intro En. destruct o; cbn [step].
  - rewrite Silence.monitor_keeps_latch. exact En.
  - unfold stt_processor_iteration. cases; congruence.
  - unfold partial_text_monitor_iteration. cases; congruence.
  - unfold keyboard_input_iteration. cases; congruence.
  - process_cases; congruence.
  - exact En.
Qed.

Lemma latch_one_way ops self :
  silence_detection_enabled self = true ->
  silence_detection_enabled (run re_search generate_response ops self)
  = true.
Proof.
  revert self. induction ops as [| o ops IH]; intros self En.
  - exact En.
  - cbn [run]. apply IH. apply step_keeps_latch_set. exact En.
Qed.

(** No thread writes [max_history_items]. *)
Lemma step_keeps_max_history o self :
  max_history_items (step re_search generate_response o self)
  = max_history_items self.
Proof.
  destruct o; cbn [step].
  - unfold silence_monitor_iteration. cases; reflexivity.
  - unfold stt_processor_iteration. cases; reflexivity.
  - unfold partial_text_monitor_iteration. cases; reflexivity.
  - unfold keyboard_input_iteration. cases; reflexivity.
  - process_cases; reflexivity.
  - reflexivity.
Qed.

Lemma run_keeps_max_history ops self :
  max_history_items (run re_search generate_response ops self)
  = max_history_items self.
Proof.
  revert self. induction ops as [| o ops IH]; intro self; [reflexivity |].
  cbn [run]. rewrite IH. apply step_keeps_max_history.
Qed.

(** A pass that leaves the latch clear leaves [is_listening] as it
    was: no pause happens before the latch is set. *)
Lemma no_pause_while_latch_clear o self :
  silence_detection_enabled (step re_search generate_response o self)
  = false ->
  is_listening (step re_search generate_response o self)
  = is_listening self.
Proof.
  intro Off.
  destruct o as [now speech_state | | | | |];
    try (apply other_threads_keep_listening; discriminate).
  cbn [step] in *. rewrite Silence.monitor_keeps_latch in Off.
  rewrite Silence.monitor_idle_while_disabled by exact Off.
  reflexivity.
Qed.

End Interleaving.

End Threads.

(** C1 (as amended).  For every sequence of speech-state samples fed to the
    silence monitor and every further sample: when the assistant is
    listening before that sample, the monitor pauses on it
    ([is_listening] becomes false) exactly when silence detection is
    enabled, the sample's silence duration exceeds the monitor's own fixed
    3.0 seconds, the sample is silent ([is_silent]: ratio above its
    threshold) and the assistant is not speaking; if any of these fails,
    [is_listening] stays true.  The [silence_threshold] attribute the
    assistant was configured with does not enter the decision. *)
Theorem C1_pause_iff_three_conditions {audio : Type}
        (samples : list (Q * BaseSTT.speech_state)) (now : Q)
        (speech_state : BaseSTT.speech_state)
        (self : VoiceAssistant.t audio) :
  let before := VoiceAssistant.silence_monitor samples self in
  let after :=
    VoiceAssistant.silence_monitor (samples ++ [(now, speech_state)]) self in
  let all_three :=
    (3 < BaseSTT.ss_silence_duration speech_state)%Q
    /\ BaseSTT.ss_is_silent speech_state = true
    /\ VoiceAssistant.is_speaking before = false in
  VoiceAssistant.is_listening before = true ->
  (VoiceAssistant.is_listening after = false <->
   VoiceAssistant.silence_detection_enabled before = true /\ all_three)
  /\ (~ all_three -> VoiceAssistant.is_listening after = true).
Proof.
  intros before after all_three Hl. subst after.
  rewrite Silence.silence_monitor_snoc. fold before.
  assert (Hiff :
    VoiceAssistant.is_listening
      (VoiceAssistant.silence_monitor_iteration now speech_state before)
    = false <->
    VoiceAssistant.silence_detection_enabled before = true /\ all_three).
  { destruct (VoiceAssistant.silence_detection_enabled before) eqn:En.
    - rewrite Silence.monitor_enabled by exact En. rewrite Hl.
      subst all_three. cbv zeta. rewrite <- gt_true.
      destruct (Py.gt (BaseSTT.ss_silence_duration speech_state) 3);
        destruct (BaseSTT.ss_is_silent speech_state);
        destruct (VoiceAssistant.is_speaking before);
        cbn; rewrite ?Hl; intuition congruence.
    - rewrite Silence.monitor_idle_while_disabled by exact En.
      rewrite Hl. intuition congruence. }
  split; [exact Hiff |].
  intro Hnot.
  destruct (VoiceAssistant.is_listening
              (VoiceAssistant.silence_monitor_iteration now speech_state
                                                        before)) eqn:E;
    [reflexivity |].
  exfalso. apply Hnot. apply Hiff. reflexivity.
Qed.

(** A run in which the claim C1 as stated fails: the assistant is built at
    time 0 with the configured threshold of 5 seconds, the user types a
    line at time 1, and at time 4 the monitor reads a silent speech state
    with 4 seconds of silence.  The monitor pauses although 4 seconds do
    not exceed the configured 5. *)
Lemma C1_counterexample :
  let self :=
    VoiceAssistant.keyboard_input_iteration
      1 (VoiceAssistant.Line "hi")
      (VoiceAssistant.init (BaseSTT.init unit 0)
                           Settings.silence_threshold_seconds 0) in
  let speech_state := BaseSTT.get_speech_state (VoiceAssistant.stt self) 4 in
  VoiceAssistant.is_listening self = true
  /\ VoiceAssistant.is_speaking self = false
  /\ BaseSTT.ss_is_silent speech_state = true
  /\ Py.gt (BaseSTT.ss_silence_duration speech_state)
           (VoiceAssistant.silence_threshold self) = false
  /\ VoiceAssistant.is_listening
       (VoiceAssistant.silence_monitor_iteration 4 speech_state self)
     = false.
Proof. vm_compute. repeat split. Qed.

Lemma C1_witness :
  let self :=
    VoiceAssistant.keyboard_input_iteration
      1 (VoiceAssistant.Line "hi")
      (VoiceAssistant.init (BaseSTT.init unit 0) 5 0) in
  let sample := (4%Q, BaseSTT.SpeechState 1 true 0 4) in
  VoiceAssistant.is_listening (VoiceAssistant.silence_monitor [] self) = true
  /\ VoiceAssistant.is_listening
       (VoiceAssistant.silence_monitor ([] ++ [sample]) self) = false.
Proof.
  cbv zeta. split; [reflexivity |].
  apply (C1_pause_iff_three_conditions
           [] 4 (BaseSTT.SpeechState 1 true 0 4)
           (VoiceAssistant.keyboard_input_iteration
              1 (VoiceAssistant.Line "hi")
              (VoiceAssistant.init (BaseSTT.init unit 0) 5 0))
           eq_refl).
  repeat split.
Defined.

(** C2 (the code at the failing input).  From a freshly built assistant,
    however many passes the silence monitor makes and whatever the clock
    and the speech states show, also long after the warm-up period of 30
    seconds, the monitor alone leaves the object as it was:
    [silence_detection_enabled] is still false and [is_listening] still
    true.  Elapsed warm-up time never sets the latch. *)
Theorem C2_elapsed_warm_up_never_enables {audio : Type}
        (stt0 : BaseSTT.t audio) (configured t0 : Q)
        (samples : list (Q * BaseSTT.speech_state)) :
  let self :=
    VoiceAssistant.silence_monitor
      samples (VoiceAssistant.init stt0 configured t0) in
  self = VoiceAssistant.init stt0 configured t0
  /\ VoiceAssistant.silence_detection_enabled self = false
  /\ VoiceAssistant.is_listening self = true.
Proof.
  cbv zeta.
  assert (H : VoiceAssistant.silence_monitor
                samples (VoiceAssistant.init stt0 configured t0)
              = VoiceAssistant.init stt0 configured t0).
  { induction samples as [| [now speech_state] samples IH].
    - reflexivity.
    - cbn [VoiceAssistant.silence_monitor].
      rewrite Silence.monitor_idle_while_disabled by reflexivity.
      exact IH. }
  rewrite H. repeat split.
Qed.


(** ** The recognition worker *)

Module Worker.
Import BaseSTT Notions.

Lemma first_true {A : Type} (p : A -> bool) (l : list A) :
  Forall (fun x => p x = false) l
  \/ exists pre x post,
      l = pre ++ x :: post /\ Forall (fun y => p y = false) pre /\ p x = true.
Proof.
  induction l as [| x l IH].
  - left. constructor.
  - destruct (p x) eqn:Px.
    + right. exists [], x, l. repeat split; [constructor | exact Px].
    + destruct IH as [All | (pre & y & post & -> & Hpre & Py)].
      * left. constructor; assumption.
      * right. exists (x :: pre), y, post.
        repeat split; [constructor; assumption | exact Py].
Qed.

Section Fallback.

Variable audio : Type.
Variable recognize_google : audio -> string -> transcription.
Variable detect : string -> option string.

Implicit Types (self : BaseSTT.t audio) (a : audio).

(** No language ends the loop: every other language is tried, nothing is
    queued. *)
Lemma fallback_exhausted self now a langs :
  Forall (fun l => ends_loop recognize_google a l = false)
         (filter (is_other self) langs) ->
  try_other_languages recognize_google detect self now a langs
  = (self, filter (is_other self) langs).
Proof.
  induction langs as [| lang rest IH]; intro All; [reflexivity |].
  cbn [try_other_languages filter] in *. unfold is_other in All at 1.
  unfold is_other at 1.
  destruct (String.eqb lang (last_detected_language self)); cbn [negb] in *.
  - apply IH, All.
  - inversion All as [| ? ? Hl Hrest]; subst. unfold ends_loop in Hl.
    destruct (recognize_google a lang) as [txt | |]; try discriminate;
      try rewrite Hl; rewrite (IH Hrest); reflexivity.
Qed.

(** The loop stops at the first language that ends it. *)
Lemma fallback_stops self now a langs pre l post :
  filter (is_other self) langs = pre ++ l :: post ->
  Forall (fun l' => ends_loop recognize_google a l' = false) pre ->
  ends_loop recognize_google a l = true ->
  try_other_languages recognize_google detect self now a langs
  = (match recognize_google a l with
     | Text txt => accepted detect self now txt
     | _ => self
     end, pre ++ [l]).
Proof.
  revert pre. induction langs as [| lang rest IH]; intros pre Hf Hpre Hl.
  - destruct pre; discriminate.
  - cbn [try_other_languages filter] in *. unfold is_other in Hf at 1.
    destruct (String.eqb lang (last_detected_language self)); cbn [negb] in *.
    + apply IH; assumption.
    + destruct pre as [| p pre].
      * cbn [app] in *. injection Hf as -> _. unfold ends_loop in Hl.
        destruct (recognize_google a l) as [txt | |]; try discriminate;
          [rewrite Hl |]; reflexivity.
      * cbn [app] in *. injection Hf as -> Hf.
        inversion Hpre as [| ? ? Hp Hpre']; subst. unfold ends_loop in Hp.
        destruct (recognize_google a p) as [txt | |]; try discriminate;
          try rewrite Hp; rewrite (IH pre Hf Hpre' Hl); reflexivity.
Qed.

(** When the backend returns a non-empty text in no language, the chunk
    leaves the object as it was: no result is queued. *)
Lemma no_answer_nothing_queued self now a :
  (forall l, answers recognize_google a l = false) ->
  fst (recognize_audio recognize_google detect self now a) = self.
Proof.
  intro Hno. unfold recognize_audio.
  pose proof (Hno (last_detected_language self)) as Hhint.
  unfold answers in Hhint.
  destruct (recognize_google a (last_detected_language self)) as [txt | |].
  - rewrite Hhint. reflexivity.
  - destruct (first_true (ends_loop recognize_google a)
                         (filter (is_other self) (supported_languages self)))
      as [All | (pre & l & post & Hsplit & Hpre & Hl)].
    + rewrite (fallback_exhausted _ _ _ _ All). reflexivity.
    + rewrite (fallback_stops _ _ _ _ _ _ _ Hsplit Hpre Hl). cbn [fst].
      pose proof (Hno l) as Hl'. unfold answers in Hl'.
      unfold ends_loop in Hl.
      destruct (recognize_google a l); congruence.
  - reflexivity.
Qed.

End Fallback.

End Worker.









(** ** Microphone selection *)

Module Microphone.
Import BaseSTT Specified.

Lemma first_name_from_None test i mic_names :
  first_name_from test i mic_names = None <->
  Forall (fun name => test name = false) mic_names.
Proof.
  revert i. induction mic_names as [| name rest IH]; intro i; cbn.
  - split; [constructor | reflexivity].
  - destruct (test name) eqn:T.
    + split; [discriminate |]. intro H. inversion H; congruence.
    + rewrite IH. split; [intro; constructor; assumption |].
      intro H. inversion H; assumption.
Qed.

Lemma first_name_from_first test i mic_names k :
  first_with test mic_names k ->
  first_name_from test i mic_names = Some (i + k).
Proof.
  revert i k. induction mic_names as [| name rest IH];
    intros i k [(n & Hn & Tn) Hbefore].
  - destruct k; discriminate.
  - cbn [first_name_from]. destruct k as [| k].
    + cbn in Hn. injection Hn as ->. rewrite Tn. f_equal. lia.
    + rewrite (Hbefore 0 name) by (cbn; (lia || reflexivity)).
      replace (i + S k) with (S i + k) by lia. apply IH. split.
      * exists n. split; assumption.
      * intros j m Hj Hm. apply (Hbefore (S j) m); [lia | exact Hm].
Qed.

Lemma first_keyword_match_None keywords mic_names :
  (forall k, In k keywords -> unmatched mic_names k) ->
  first_keyword_match keywords mic_names = None.
Proof.
  induction keywords as [| keyword rest IH]; intro H; [reflexivity |].
  cbn [first_keyword_match].
  rewrite (proj2 (first_name_from_None _ 0 mic_names))
    by (apply H; left; reflexivity).
  apply IH. intros k Hk. apply H. right. exact Hk.
Qed.

Lemma first_keyword_match_first before keyword after mic_names i :
  (forall k, In k before -> unmatched mic_names k) ->
  first_with (keyword_in_name keyword) mic_names i ->
  first_keyword_match (before ++ keyword :: after) mic_names = Some i.
Proof.
  induction before as [| b before IH]; intros Hb Hfirst.
  - cbn [app first_keyword_match].
    rewrite (first_name_from_first _ 0 _ _ Hfirst). reflexivity.
  - cbn [app first_keyword_match].
    rewrite (proj2 (first_name_from_None _ 0 mic_names))
      by (apply Hb; left; reflexivity).
    apply IH; [| exact Hfirst]. intros k Hk. apply Hb. right. exact Hk.
Qed.

Lemma specific_index_large n :
  7 < n -> first_specific_index specific_indices n = Some 7.
Proof.
  intro H. unfold specific_indices. cbn [first_specific_index].
  rewrite (proj2 (Nat.ltb_lt 7 n) H). reflexivity.
Qed.

Lemma specific_index_small n :
  n <= 7 -> first_specific_index specific_indices n = None.
Proof.
  intro H. unfold specific_indices. cbn [first_specific_index].
  repeat match goal with
         | |- context [?k <? n] =>
             rewrite (proj2 (Nat.ltb_ge k n)) by lia
         end.
  reflexivity.
Qed.

End Microphone.

(** C5 (as amended).  For every list of available device names the choice
    is: index 7 whenever there are more than seven devices, whatever their
    names (the first of the fixed indices 7, 14, 24, 25, 28 that exists);
    otherwise the first device whose name contains the earliest priority
    keyword that any name contains; otherwise, when no priority keyword
    occurs, the first device whose name contains no output keyword;
    otherwise index 0; and [None] exactly when there is no device. *)
Theorem C5_microphone_ranking (mic_names : list string) :
  let chosen := BaseSTT.find_best_microphone (Some mic_names) in
  (7 < List.length mic_names -> chosen = Some 7)
  /\ (List.length mic_names <= 7 ->
      (forall before keyword after i,
          BaseSTT.priority_keywords = before ++ keyword :: after ->
          (forall k, In k before -> Specified.unmatched mic_names k) ->
          Specified.first_with (BaseSTT.keyword_in_name keyword) mic_names i ->
          chosen = Some i)
      /\ ((forall k, In k BaseSTT.priority_keywords ->
                     Specified.unmatched mic_names k) ->
          (forall i,
              Specified.first_with BaseSTT.not_output_device mic_names i ->
              chosen = Some i)
          /\ (Forall (fun name => BaseSTT.not_output_device name = false)
                     mic_names ->
              mic_names <> [] -> chosen = Some 0)))
  /\ (chosen = None <-> mic_names = []).
Proof.
  intro chosen. subst chosen. unfold BaseSTT.find_best_microphone.
  split; [| split].
  - intro H. rewrite (Microphone.specific_index_large _ H). reflexivity.
  - intro H. rewrite (Microphone.specific_index_small _ H). split.
    + intros before keyword after i Hsplit Hbefore Hfirst.
      rewrite Hsplit.
      rewrite (Microphone.first_keyword_match_first _ _ _ _ _ Hbefore Hfirst).
      reflexivity.
    + intro Hnone.
      rewrite (Microphone.first_keyword_match_None _ _ Hnone). split.
      * intros i Hfirst.
        rewrite (Microphone.first_name_from_first _ 0 _ _ Hfirst).
        reflexivity.
      * intros Hall Hne.
        rewrite (proj2 (Microphone.first_name_from_None _ 0 mic_names) Hall).
        destruct mic_names; [contradiction | reflexivity].
  - split.
    + destruct (BaseSTT.first_specific_index _ _); [discriminate |].
      destruct (BaseSTT.first_keyword_match _ _); [discriminate |].
      destruct (BaseSTT.first_name_from _ _ _); [discriminate |].
      destruct mic_names; [reflexivity | discriminate].
    + intros ->. reflexivity.
Qed.

(** A listing on which the claim C5 as stated fails: eight devices that all
    carry the same name.  Whatever the allow-list of name substrings, the
    ranking by names picks device 0; the program picks device 7. *)
Lemma C5_counterexample :
  BaseSTT.find_best_microphone (Some Examples.eight_microphones) = Some 7
  /\ forall allow_list,
      Specified.select_device allow_list Examples.eight_microphones = Some 0.
Proof.
  split; [reflexivity |].
  intro allow_list. unfold Specified.select_device, Examples.eight_microphones.
  cbn [repeat BaseSTT.first_name_from].
  destruct (existsb _ allow_list); reflexivity.
Qed.

Lemma C5_witness :
  let mic_names := ["Speakers (Realtek)"; "Microphone (USB Audio)"]%string in
  List.length mic_names <= 7
  /\ BaseSTT.find_best_microphone (Some mic_names) = Some 1.
Proof.
  cbv zeta. split; [cbn; lia |].
  refine (proj1 (proj1 (proj2 (C5_microphone_ranking
                                 ["Speakers (Realtek)";
                                  "Microphone (USB Audio)"]%string))
                       _)
                [ "headset mic"; "headset microphone"; "mic input";
                  "microphone input" ]%string
                "microphone ("%string [ "mic ("; "input" ]%string 1
                eq_refl _ _).
  - cbn; lia.
  - intros k Hk. cbn in Hk.
    repeat (destruct Hk as [<- | Hk];
            [repeat constructor |]); contradiction.
  - split.
    + exists "Microphone (USB Audio)"%string. split; reflexivity.
    + intros j name Hj Hn. destruct j as [| j]; [| lia].
      cbn in Hn. injection Hn as <-. reflexivity.
Defined.

(** ** The active listening loop *)

Module Listening.
Import BaseSTT Passes.

Section Loop.

Variable audio : Type.
Variable best_mic_index : option nat.

Implicit Types (self : BaseSTT.t audio) (l : locals)
         (e : pass_env audio) (world : list (pass_env audio)).

(** The reset check, by the value of the counter. *)
Lemma check_reset_below e l :
  consecutive_errors l < 3 ->
  check_reset best_mic_index e l = (l, [Sleep (1 # 2)]).
Proof.
  intro H. unfold check_reset, max_consecutive_errors.
  rewrite (proj2 (Nat.leb_gt 3 (consecutive_errors l))) by lia.
  reflexivity.
Qed.

Lemma check_reset_reached e l :
  3 <= consecutive_errors l ->
  consecutive_errors (fst (check_reset best_mic_index e l)) = 0
  /\ snd (check_reset best_mic_index e l)
     = [Reset; Sleep 3; Sleep (1 # 2)].
Proof.
  intro H. unfold check_reset, max_consecutive_errors.
  rewrite (proj2 (Nat.leb_le 3 (consecutive_errors l))) by lia.
  destruct (reset_ok e); split; reflexivity.
Qed.

(** A pass that captures nothing: the object is untouched, the counter
    grows by one on a failure and is cleared, with one reset and one
    backoff, when it reaches three. *)
Lemma pass_without_capture self l e :
  consecutive_errors l < 3 ->
  captures_nothing e = true ->
  let '(self', l', evs) := active_listening_pass best_mic_index self l e in
  let c := consecutive_errors l + (if capture_fails e then 1 else 0) in
  self' = self
  /\ consecutive_errors l' = (if c =? 3 then 0 else c)
  /\ resets evs = (if c =? 3 then 1 else 0)
  /\ backoffs evs = resets evs.
Proof.
  intros Hc He. unfold captures_nothing in He.
  apply andb_true_iff in He. destruct He as [Hcreate He].
  unfold active_listening_pass, capture_fails.
  unfold create_ok in Hcreate. apply andb_true_iff in Hcreate.
  destruct Hcreate as [Hrec Hmic].
  rewrite Hrec, Hmic. cbn [negb]. rewrite !andb_false_r. cbv iota.
  set (l0 := if match recognizer l with
                | Some _ => match microphone l with
                            | Some _ => false
                            | None => true
                            end
                | None => true
                end
             then Locals (Some 300%Q) (Some best_mic_index)
                         (consecutive_errors l)
             else l).
  assert (H0 : consecutive_errors l0 = consecutive_errors l).
  { subst l0. destruct (recognizer l), (microphone l); reflexivity. }
  destruct (enter_ok e); cbn [negb orb] in *.
  - destruct (heard e) as [a | |]; try discriminate; cbn [consecutive_errors].
    + (* timeout *)
      rewrite check_reset_below by (cbn; lia). cbn.
      rewrite H0, Nat.add_0_r.
      rewrite (proj2 (Nat.eqb_neq _ 3)) by lia. auto.
    + (* listen error *)
      rewrite H0.
      destruct (Nat.eq_dec (consecutive_errors l + 1) 3) as [E | E].
      * rewrite E, Nat.eqb_refl.
        match goal with
        | |- context [check_reset _ _ ?x] =>
            destruct (check_reset_reached e x) as [R1 R2]; [cbn; lia |];
            destruct (check_reset best_mic_index e x) as [l' evs]
        end.
        cbn in R1, R2. subst evs. cbn. auto.
      * rewrite (proj2 (Nat.eqb_neq _ 3)) by exact E.
        rewrite check_reset_below by (cbn; lia). cbn.
        repeat split; lia.
  - (* the device does not open *)
    rewrite H0.
    destruct (Nat.eq_dec (consecutive_errors l + 1) 3) as [E | E].
    + rewrite E, Nat.eqb_refl.
      match goal with
      | |- context [check_reset _ _ ?x] =>
          destruct (check_reset_reached e x) as [R1 R2]; [cbn; lia |];
          destruct (check_reset best_mic_index e x) as [l' evs]
      end.
      cbn in R1, R2. subst evs. cbn. auto.
    + rewrite (proj2 (Nat.eqb_neq _ 3)) by exact E.
      rewrite check_reset_below by (cbn; lia). cbn.
      repeat split; lia.
Qed.

Lemma resets_app (evs evs' : list event) :
  resets (evs ++ evs') = resets evs + resets evs'.
Proof. unfold resets. rewrite filter_app, length_app. reflexivity. Qed.

Lemma backoffs_app (evs evs' : list event) :
  backoffs (evs ++ evs') = backoffs evs + backoffs evs'.
Proof. unfold backoffs. rewrite filter_app, length_app. reflexivity. Qed.

(** A run of passes that capture nothing: one reset for every third
    failure. *)
Lemma run_without_capture self l world :
  consecutive_errors l < 3 ->
  Forall (fun e => captures_nothing e = true) world ->
  let '(self', l', evs) :=
    active_listening_from best_mic_index self l world in
  self' = self
  /\ consecutive_errors l' = (consecutive_errors l + failures world) mod 3
  /\ resets evs = (consecutive_errors l + failures world) / 3
  /\ backoffs evs = resets evs.
Proof.
  revert self l. induction world as [| e world IH]; intros self l Hc Hall.
  - cbn [active_listening_from resets backoffs filter List.length].
    unfold failures. cbn [filter List.length].
    rewrite Nat.add_0_r, Nat.mod_small, Nat.div_small by lia. auto.
  - inversion Hall as [| ? ? He Hrest]; subst.
    cbn [active_listening_from].
    pose proof (pass_without_capture self l e Hc He) as Hpass.
    destruct (active_listening_pass best_mic_index self l e)
      as [[self1 l1] evs1].
    destruct Hpass as (-> & Hl1 & Hr1 & Hb1).
    assert (Hf : failures (e :: world)
                 = (if capture_fails e then 1 else 0) + failures world).
    { unfold failures. cbn [filter].
      destruct (capture_fails e); reflexivity. }
    set (k := if capture_fails e then 1 else 0) in *.
    assert (Hk : k <= 1) by (subst k; destruct (capture_fails e); lia).
    assert (Hc1 : consecutive_errors l1 < 3).
    { rewrite Hl1. destruct (Nat.eqb_spec (consecutive_errors l + k) 3); lia. }
    specialize (IH self l1 Hc1 Hrest).
    destruct (active_listening_from best_mic_index self l1 world)
      as [[self2 l2] evs2].
    destruct IH as (-> & Hl2 & Hr2 & Hb2).
    rewrite resets_app, backoffs_app, Hb1, Hb2, Hr1, Hr2, Hl2, Hl1, Hf.
    destruct (Nat.eqb_spec (consecutive_errors l + k) 3) as [E | E].
    + replace (consecutive_errors l + (k + failures world))
        with (failures world + 1 * 3) by lia.
      rewrite Nat.Div0.mod_add, Nat.div_add by lia.
      cbn [Nat.add]. repeat split; lia.
    + rewrite Nat.add_assoc. cbn [Nat.add]. repeat split; reflexivity.
Qed.

Lemma check_reset_never_listens e l :
  listens (snd (check_reset best_mic_index e l)) = 0.
Proof.
  unfold check_reset.
  destruct (_ <=? _); [destruct (reset_ok e) |]; reflexivity.
Qed.

(** Whenever the constructors work and the device opens, the pass calls
    [listen], once. *)
Lemma pass_listens self l e :
  create_ok e = true ->
  enter_ok e = true ->
  listens (snd (active_listening_pass best_mic_index self l e)) = 1.
Proof.
  intros Hcreate Henter. unfold active_listening_pass.
  unfold create_ok in Hcreate. apply andb_true_iff in Hcreate.
  destruct Hcreate as [Hrec Hmic].
  rewrite Hrec, Hmic, Henter. cbn [negb]. rewrite !andb_false_r.
  cbv iota.
  destruct (heard e);
    match goal with
    | |- context [check_reset _ _ ?x] =>
        pose proof (check_reset_never_listens e x) as H;
        destruct (check_reset best_mic_index e x) as [l' evs]
    end; cbn in *; rewrite H; reflexivity.
Qed.

(** A pass that captures audio and then meets a failing backend: the
    counter is zero, nothing is reset, the recognizer and the microphone
    stay. *)
Lemma pass_with_backend_failure self l e a :
  create_ok e = true ->
  enter_ok e = true ->
  heard e = Heard a ->
  let '(_, l', evs) := active_listening_pass best_mic_index self l e in
  consecutive_errors l' = 0
  /\ resets evs = 0
  /\ recognizer l' <> None
  /\ microphone l' <> None.
Proof.
  intros Hcreate Henter Hheard. unfold active_listening_pass.
  unfold create_ok in Hcreate. apply andb_true_iff in Hcreate.
  destruct Hcreate as [Hrec Hmic].
  rewrite Hrec, Hmic, Henter, Hheard. cbn [negb].
  rewrite !andb_false_r. cbv iota.
  rewrite check_reset_below by (cbn; lia).
  destruct l as [[r |] [m |] c]; cbn; repeat split; discriminate.
Qed.

(** The pass of the third capture failure in a row: it resets.  The
    recognizer and the microphone are new when the constructors of the
    reset block return, and both are left empty when they raise. *)
Lemma pass_third_failure self l e :
  consecutive_errors l = 2 ->
  captures_nothing e = true ->
  capture_fails e = true ->
  let '(self', l', evs) := active_listening_pass best_mic_index self l e in
  self' = self
  /\ l' = (if reset_ok e
           then Locals (Some 300%Q) (Some best_mic_index) 0
           else Locals None None 0)
  /\ resets evs = 1
  /\ backoffs evs = 1.
Proof.
  intros Hc He Hf. unfold captures_nothing in He.
  apply andb_true_iff in He. destruct He as [Hcreate _].
  unfold capture_fails in Hf.
  unfold active_listening_pass.
  unfold create_ok in Hcreate. apply andb_true_iff in Hcreate.
  destruct Hcreate as [Hrec Hmic].
  rewrite Hrec, Hmic. cbn [negb]. rewrite !andb_false_r. cbv iota.
  destruct l as [r m c]. cbn [consecutive_errors recognizer microphone] in *.
  subst c.
  destruct (enter_ok e); cbn [negb orb] in *.
  - destruct (heard e) as [a | |]; try discriminate.
    destruct r as [r |], m as [m |]; cbv iota;
      cbn [consecutive_errors recognizer microphone];
      unfold check_reset, max_consecutive_errors;
      cbn [consecutive_errors Nat.leb];
      destruct (reset_ok e); repeat split; reflexivity.
  - destruct r as [r |], m as [m |]; cbv iota;
      cbn [consecutive_errors recognizer microphone];
      unfold check_reset, max_consecutive_errors;
      cbn [consecutive_errors Nat.leb];
      destruct (reset_ok e); repeat split; reflexivity.
Qed.

(** A pass that starts without a recognizer or without a microphone,
    such as the pass after a reset whose constructors raised: when the
    constructors return and the device opens, both are created again
    before [listen] is called. *)
Lemma pass_recreates self l e :
  recognizer l = None \/ microphone l = None ->
  consecutive_errors l < 2 ->
  create_ok e = true ->
  enter_ok e = true ->
  let '(_, l', evs) := active_listening_pass best_mic_index self l e in
  recognizer l' <> None
  /\ microphone l' = Some best_mic_index
  /\ listens evs = 1
  /\ resets evs = 0.
Proof.
  intros Hmiss Hc Hcreate Henter. unfold active_listening_pass.
  unfold create_ok in Hcreate. apply andb_true_iff in Hcreate.
  destruct Hcreate as [Hrec Hmic].
  rewrite Hrec, Hmic, Henter. cbn [negb]. rewrite !andb_false_r.
  cbv iota.
  replace (match recognizer l with
           | Some _ => match microphone l with
                       | Some _ => false
                       | None => true
                       end
           | None => true
           end) with true
    by (destruct Hmiss as [-> | ->];
        [| destruct (recognizer l)]; reflexivity).
  cbn [recognizer microphone consecutive_errors].
  destruct (heard e); cbn [recognizer microphone consecutive_errors];
    rewrite check_reset_below by (cbn [consecutive_errors]; lia);
    repeat split; discriminate.
Qed.

End Loop.

End Listening.

(** C6 (as amended).  In the active listening loop the counter counts
    passes that fail to capture audio (the device does not open, or
    [listen] raises something other than a timeout).  Over any run of
    passes that capture nothing, started with the counter below three,
    the loop resets once for every third such failure, each reset comes
    with one three-second pause and clears the counter: three consecutive
    capture failures give exactly one reset, fewer than three give none.
    The pass of the third failure leaves a new recognizer and a new
    microphone when the constructors of the reset block return, and
    neither of them when they raise.  A pass in which audio is captured
    and the recognition request fails is not counted: it leaves the
    counter at zero, resets nothing and keeps the recognizer and the
    microphone.  After any pass, also one that reset, the next pass calls
    [listen] again as soon as the constructors work and the device opens;
    a pass that starts without a recognizer or a microphone creates both
    before it listens. *)
Theorem C6_reset_after_three_capture_failures {audio : Type}
        (best_mic_index : option nat) (self : BaseSTT.t audio)
        (l : BaseSTT.locals) :
  (forall world,
      BaseSTT.consecutive_errors l < 3 ->
      Forall (fun e => Passes.captures_nothing e = true) world ->
      let '(self', l', evs) :=
        BaseSTT.active_listening_from best_mic_index self l world in
      let failed := BaseSTT.consecutive_errors l + Passes.failures world in
      BaseSTT.resets evs = failed / 3
      /\ Passes.backoffs evs = BaseSTT.resets evs
      /\ BaseSTT.consecutive_errors l' = failed mod 3
      /\ self' = self)
  /\ (forall e a,
         BaseSTT.create_ok e = true ->
         BaseSTT.enter_ok e = true ->
         BaseSTT.heard e = BaseSTT.Heard a ->
         BaseSTT.google e = BaseSTT.RequestError ->
         let '(_, l', evs) :=
           BaseSTT.active_listening_pass best_mic_index self l e in
         BaseSTT.consecutive_errors l' = 0
         /\ BaseSTT.resets evs = 0
         /\ BaseSTT.recognizer l' <> None
         /\ BaseSTT.microphone l' <> None)
  /\ (forall e,
         BaseSTT.create_ok e = true ->
         BaseSTT.enter_ok e = true ->
         BaseSTT.listens
           (snd (BaseSTT.active_listening_pass best_mic_index self l e)) = 1)
  /\ (forall e,
         BaseSTT.consecutive_errors l = 2 ->
         Passes.captures_nothing e = true ->
         Passes.capture_fails e = true ->
         let '(self', l', evs) :=
           BaseSTT.active_listening_pass best_mic_index self l e in
         self' = self
         /\ l' = (if BaseSTT.reset_ok e
                  then BaseSTT.Locals (Some 300%Q) (Some best_mic_index) 0
                  else BaseSTT.Locals None None 0)
         /\ BaseSTT.resets evs = 1
         /\ Passes.backoffs evs = 1)
  /\ (forall e,
         BaseSTT.recognizer l = None \/ BaseSTT.microphone l = None ->
         BaseSTT.consecutive_errors l < 2 ->
         BaseSTT.create_ok e = true ->
         BaseSTT.enter_ok e = true ->
         let '(_, l', evs) :=
           BaseSTT.active_listening_pass best_mic_index self l e in
         BaseSTT.recognizer l' <> None
         /\ BaseSTT.microphone l' = Some best_mic_index
         /\ BaseSTT.listens evs = 1
         /\ BaseSTT.resets evs = 0).
Proof.
  split; [| split; [| split; [| split]]].
  - intros world Hc Hall.
    pose proof (Listening.run_without_capture
                  audio best_mic_index self l world Hc Hall) as H.
    destruct (BaseSTT.active_listening_from best_mic_index self l world)
      as [[self' l'] evs].
    cbv zeta. tauto.
  - intros e a Hcreate Henter Hheard _.
    exact (Listening.pass_with_backend_failure
             audio best_mic_index self l e a Hcreate Henter Hheard).
  - intros e Hcreate Henter.
    exact (Listening.pass_listens audio best_mic_index self l e
                                  Hcreate Henter).
  - intros e Hc He Hf.
    exact (Listening.pass_third_failure audio best_mic_index self l e
                                        Hc He Hf).
  - intros e Hmiss Hc Hcreate Henter.
    exact (Listening.pass_recreates audio best_mic_index self l e
                                    Hmiss Hc Hcreate Henter).
Qed.

(** A run on which the claim C6 as stated fails: three passes in a row in
    which the recognition backend cannot be reached.  Each pass captured
    audio, so the counter is cleared each time: no reset happens. *)
Lemma C6_counterexample :
  let '(_, l', evs) :=
    BaseSTT.active_listening_loop
      (Some []) true (BaseSTT.init unit 0)
      [Examples.backend_unreachable; Examples.backend_unreachable;
       Examples.backend_unreachable] in
  BaseSTT.google Examples.backend_unreachable = BaseSTT.RequestError
  /\ BaseSTT.listens evs = 3
  /\ BaseSTT.resets evs = 0
  /\ BaseSTT.consecutive_errors l' = 0.
Proof. vm_compute. repeat split. Qed.

Lemma C6_witness :
  let world := [Examples.listen_raises; Examples.listen_raises;
                Examples.listen_raises] in
  let l := BaseSTT.initial_locals None true in
  let '(_, l', evs) :=
    BaseSTT.active_listening_from None (BaseSTT.init unit 0) l world in
  let twice := BaseSTT.Locals (Some 300%Q) (Some None) 2 in
  let '(_, emptied, _) :=
    BaseSTT.active_listening_pass None (BaseSTT.init unit 0) twice
                                  Examples.listen_raises_reset_fails in
  let '(_, recreated, again) :=
    BaseSTT.active_listening_pass None (BaseSTT.init unit 0) emptied
                                  Examples.backend_unreachable in
  BaseSTT.consecutive_errors l < 3
  /\ BaseSTT.resets evs = 1
  /\ Passes.backoffs evs = 1
  /\ BaseSTT.consecutive_errors l' = 0
  /\ emptied = BaseSTT.Locals None None 0
  /\ BaseSTT.recognizer recreated <> None
  /\ BaseSTT.microphone recreated = Some None
  /\ BaseSTT.listens again = 1.
Proof.
  pose proof (proj1 (C6_reset_after_three_capture_failures
                       None (BaseSTT.init unit 0)
                       (BaseSTT.initial_locals None true))
                    [Examples.listen_raises; Examples.listen_raises;
                     Examples.listen_raises]
                    ltac:(cbn; lia)
                    ltac:(repeat constructor)) as H.
  pose proof (proj1 (proj2 (proj2 (proj2
                (C6_reset_after_three_capture_failures
                   None (BaseSTT.init unit 0)
                   (BaseSTT.Locals (Some 300%Q) (Some None) 2)))))
                Examples.listen_raises_reset_fails
                eq_refl eq_refl eq_refl) as H4.
  pose proof (proj2 (proj2 (proj2 (proj2
                (C6_reset_after_three_capture_failures
                   None (BaseSTT.init unit 0)
                   (BaseSTT.Locals None None 0)))))
                Examples.backend_unreachable
                (or_introl eq_refl) ltac:(cbn; lia) eq_refl eq_refl) as H5.
  cbv zeta in *.
  destruct (BaseSTT.active_listening_from _ _ _ _) as [[self' l'] evs].
  destruct H as (Hr & Hb & Hc & _).
  destruct (BaseSTT.active_listening_pass
              None (BaseSTT.init unit 0)
              (BaseSTT.Locals (Some 300%Q) (Some None) 2)
              Examples.listen_raises_reset_fails)
    as [[self4 emptied] evs4].
  destruct H4 as (_ & He & _ & _).
  change (emptied = BaseSTT.Locals None None 0) in He. subst emptied.
  destruct (BaseSTT.active_listening_pass
              None (BaseSTT.init unit 0) (BaseSTT.Locals None None 0)
              Examples.backend_unreachable)
    as [[self5 recreated] again].
  destruct H5 as (H51 & H52 & H53 & _).
  split; [cbn; lia |].
  split; [exact Hr |].
  split; [rewrite Hb; exact Hr |].
  split; [exact Hc |].
  split; [reflexivity |].
  split; [exact H51 |].
  split; [exact H52 | exact H53].
Defined.


(** ** The conversation history *)

Module History.
Import VoiceAssistant Context.

Lemma recent_loop_filter now window items acc :
  recent_loop now window items acc
  = acc ++ filter (within_window now window) items.
Proof.
  revert acc. induction items as [| item items IH]; intro acc; cbn.
  - rewrite app_nil_r. reflexivity.
  - unfold within_window at 1.
    destruct (Py.le ((now - timestamp item) / 60) window).
    + rewrite IH, <- app_assoc. reflexivity.
    + apply IH.
Qed.

Lemma format_loop_map items acc :
  format_loop items acc = acc ++ map formatted items.
Proof.
  revert acc. induction items as [| item items IH]; intro acc; cbn.
  - rewrite app_nil_r. reflexivity.
  - rewrite IH, <- app_assoc. reflexivity.
Qed.

Lemma context_is_filtered_history {audio : Type} now
      (self : VoiceAssistant.t audio) :
  get_conversation_context now self
  = map formatted
        (filter (within_window now (context_window_minutes self))
                (conversation_history self)).
Proof.
  unfold get_conversation_context.
  destruct (conversation_history self) as [| item items] eqn:E;
    [reflexivity |].
  rewrite recent_loop_filter, format_loop_map. reflexivity.
Qed.

Lemma slice_last_length {A : Type} n (l : list A) :
  0 < n -> List.length (Py.slice_last n l) = Nat.min n (List.length l).
Proof.
  intro Hn. unfold Py.slice_last. destruct n as [| n]; [lia |].
  rewrite length_skipn. lia.
Qed.

Lemma slice_last_suffix {A : Type} n (l : list A) :
  exists pruned, l = pruned ++ Py.slice_last n l.
Proof.
  unfold Py.slice_last. destruct n as [| n].
  - exists []. reflexivity.
  - exists (firstn (List.length l - S n) l).
    symmetry. apply firstn_skipn.
Qed.

(** The history after [add_to_conversation_history]: the old history
    and the new entry, without its first entries beyond the bound. *)
Lemma history_after_add {audio : Type} (self : VoiceAssistant.t audio)
      (role0 text : string) (now : Q) :
  0 < max_history_items self ->
  conversation_history (add_to_conversation_history role0 text now self)
  = skipn (S (List.length (conversation_history self))
           - 2 * max_history_items self)
          (conversation_history self ++ [Turn role0 text now]).
Proof.
  intro Hmax. unfold add_to_conversation_history.
  set (history := conversation_history self ++ [Turn role0 text now]).
  assert (Hlen : List.length history
                 = S (List.length (conversation_history self))).
  { subst history. rewrite length_app. cbn [List.length]. lia. }
  rewrite <- Hlen.
  replace (2 * max_history_items self) with (max_history_items self * 2)
    by lia.
  destruct (Nat.ltb_spec (max_history_items self * 2)
                         (List.length history)) as [Hlt | Hge].
  - cbn [conversation_history set_conversation_history].
    unfold Py.slice_last.
    destruct (max_history_items self * 2) as [| n] eqn:E; [lia |].
    reflexivity.
  - cbn [conversation_history set_conversation_history].
    replace (List.length history - max_history_items self * 2) with 0
      by lia.
    reflexivity.
Qed.

End History.

(** C7.  After every call of [add_to_conversation_history] the history
    holds at most twice [max_history_items] entries; it is the old history
    with the new entry appended, from which only oldest entries may have
    been pruned (nothing is pruned while the bound is not exceeded); and
    [get_conversation_context] returns, as role and content pairs and in
    their original order, exactly the entries whose age in minutes is at
    most [context_window_minutes].  What is kept is exactly the last
    entries: the old history with the new entry, without as many of its
    first entries as exceed the bound; so the new entry is always the
    last one, and a full history stays full. *)
Theorem C7_history_bounded_context_windowed {audio : Type}
        (self : VoiceAssistant.t audio) (role0 text : string) (now : Q) :
  let entry := VoiceAssistant.Turn role0 text now in
  let old := VoiceAssistant.conversation_history self in
  let self' :=
    VoiceAssistant.add_to_conversation_history role0 text now self in
  let new := VoiceAssistant.conversation_history self' in
  let bound := 2 * VoiceAssistant.max_history_items self in
  0 < VoiceAssistant.max_history_items self ->
  List.length new <= bound
  /\ (exists pruned, old ++ [entry] = pruned ++ new)
  /\ (List.length old < bound -> new = old ++ [entry])
  /\ (forall at_time,
         VoiceAssistant.get_conversation_context at_time self'
         = map Context.formatted
               (filter (Context.within_window
                          at_time
                          (VoiceAssistant.context_window_minutes self'))
                       new))
  /\ new = skipn (S (List.length old) - bound) (old ++ [entry])
  /\ List.length new = Nat.min bound (S (List.length old))
  /\ (exists kept, new = kept ++ [entry]).
Proof.
  intros entry old self' new bound Hmax.
  assert (Hnew : new = skipn (S (List.length old) - bound) (old ++ [entry]))
    by (apply History.history_after_add; exact Hmax).
  assert (Hlen : List.length new = Nat.min bound (S (List.length old))).
  { rewrite Hnew, length_skipn, length_app. cbn [List.length].
    subst bound. lia. }
  split; [| split; [| split; [| split; [| split; [| split]]]]].
  - lia.
  - exists (firstn (S (List.length old) - bound) (old ++ [entry])).
    rewrite Hnew. symmetry. apply firstn_skipn.
  - intro Hold. rewrite Hnew.
    replace (S (List.length old) - bound) with 0 by lia. reflexivity.
  - intro at_time. apply History.context_is_filtered_history.
  - exact Hnew.
  - exact Hlen.
  - rewrite Hnew.
    destruct (Nat.le_gt_cases (S (List.length old) - bound)
                              (List.length old)) as [Hle | Hgt].
    + exists (skipn (S (List.length old) - bound) old).
      rewrite skipn_app.
      replace (S (List.length old) - bound - List.length old) with 0 by lia.
      reflexivity.
    + subst bound. lia.
Qed.

Lemma C7_witness :
  let self := Examples.with_full_history in
  let entry := VoiceAssistant.Turn "assistant" "bye" 20 in
  let old := VoiceAssistant.conversation_history self in
  let new :=
    VoiceAssistant.conversation_history
      (VoiceAssistant.add_to_conversation_history "assistant" "bye" 20 self) in
  0 < VoiceAssistant.max_history_items self
  /\ List.length old = 20
  /\ List.length new = 20
  /\ new = skipn 1 (old ++ [entry]).
Proof.
  cbv zeta.
  pose proof (C7_history_bounded_context_windowed
                Examples.with_full_history "assistant" "bye" 20
                ltac:(cbn; lia)) as H.
  cbv zeta in H.
  destruct H as (_ & _ & _ & _ & Hnew & Hlen & _).
  split; [cbn; lia |].
  split; [reflexivity |].
  split; [exact Hlen | exact Hnew].
Defined.


(** ** The text queue loop *)

Module Replies.
Import VoiceAssistant.

Section Loop.

Variable audio : Type.
Variable re_search : string -> string -> bool.
Variable generate_response : string -> list (string * string) -> response.

Implicit Types (self : VoiceAssistant.t audio).

Lemma truthy_nonempty (s : string) : Py.truthy s = true -> s <> ""%string.
Proof. destruct s; [discriminate | intros _; discriminate]. Qed.

Ltac through_history :=
  repeat match goal with
         | |- context [add_to_conversation_history ?r ?x ?n ?s] =>
             rewrite (Threads.add_history_writes_history audio r x n s);
             generalize (conversation_history
                           (add_to_conversation_history r x n s));
             intro
         end.

(** Every text taken from the queue gets exactly one reply, and the
    pass leaves the stop flag alone. *)
Lemma pass_replies now self text q :
  text_queue self = text :: q ->
  exists self' reply,
    process_text_queue_iteration re_search generate_response now self
    = (self', [reply])
    /\ reply <> ""%string
    /\ text_queue self' = q
    /\ stop_threads self' = stop_threads self.
Proof.
  intro Hq. unfold process_text_queue_iteration. rewrite Hq.
  destruct (check_for_commands re_search text) as [[| |] |];
    try (destruct (generate_response _ _) as [[r |] |];
         [destruct (Py.truthy r) eqn:Tr | |]);
    eexists; eexists; (split; [reflexivity |]);
    through_history; cbn; repeat split;
    try discriminate; try (apply truthy_nonempty; assumption).
Qed.

Lemma loop_empties_queue clock self :
  List.length (text_queue self) <= List.length clock ->
  let '(self', said) :=
    process_text_queue re_search generate_response clock self in
  text_queue self' = []
  /\ List.length said = List.length (text_queue self)
  /\ Forall (fun reply => reply <> ""%string) said
  /\ stop_threads self' = stop_threads self.
Proof.
  revert self. induction clock as [| now clock IH]; intros self Hlen.
  - cbn in *. destruct (text_queue self); [| cbn in Hlen; lia].
    repeat split. constructor.
  - cbn [process_text_queue].
    destruct (text_queue self) as [| text q] eqn:Hq.
    + unfold process_text_queue_iteration. rewrite Hq.
      specialize (IH self). rewrite Hq in IH.
      specialize (IH ltac:(cbn; lia)).
      destruct (process_text_queue re_search generate_response clock self)
        as [self'' said'].
      exact IH.
    + destruct (pass_replies now self text q Hq)
        as (self' & reply & -> & Hne & Hq' & Hstop).
      specialize (IH self'). rewrite Hq' in IH.
      specialize (IH ltac:(cbn in Hlen; lia)).
      destruct (process_text_queue re_search generate_response clock self')
        as [self'' said'].
      destruct IH as (H1 & H2 & H3 & H4).
      cbn. repeat split; [exact H1 | lia | | congruence].
      constructor; assumption.
Qed.

(** The reply when no response is produced. *)
Lemma pass_falls_back now self text q :
  text_queue self = text :: q ->
  check_for_commands re_search text <> Some exit_mode ->
  let answer := generate_response text (get_conversation_context now self) in
  let done :=
    process_text_queue_iteration re_search generate_response now self in
  (answer = Raises -> snd done = [having_trouble])
  /\ (answer = Returns None \/ answer = Returns (Some ""%string) ->
      snd done = [not_sure])
  /\ is_speaking (fst done) = false.
Proof.
  intros Hq Hcmd answer done. subst done.
  unfold process_text_queue_iteration. rewrite Hq.
  change (get_conversation_context
            now (set_is_speaking true (set_text_queue q self)))
    with (get_conversation_context now self).
  fold answer. clearbody answer.
  destruct (check_for_commands re_search text) as [[| |] |];
    try congruence;
    (destruct answer as [[r |] |]; [destruct (Py.truthy r) eqn:Tr | |]);
    cbn [fst snd]; repeat split; try reflexivity;
    try (intro H; discriminate H);
    try (intros [H | H]; try discriminate H;
         injection H as ->; discriminate Tr).
Qed.

End Loop.

End Replies.

(** C8 (as amended).  For every text the text-queue loop takes from its
    queue and that is not the exit command: when the response generator
    raises, the assistant says the fixed apology [having_trouble], and when
    it returns nothing or an empty text, the fixed apology [not_sure]; the
    pass takes the text off the queue, ends with [is_speaking] false and
    leaves [stop_threads] as it was.  Given at least as many passes as
    there are queued texts, the loop empties the queue, says exactly one
    non-empty utterance for each text and never sets [stop_threads],
    whatever the response generator does.  A captured chunk for which the
    backend returns a non-empty text in no language (it is not understood,
    or the request fails) leaves the speech-to-text object as it was: no
    result is queued for it, so nothing is said about it. *)
Theorem C8_fallback_reply_and_loop_survives {audio : Type}
        (re_search : string -> string -> bool)
        (generate_response :
           string -> list (string * string) -> VoiceAssistant.response)
        (self : VoiceAssistant.t audio) :
  (forall now text q,
      VoiceAssistant.text_queue self = text :: q ->
      VoiceAssistant.check_for_commands re_search text
      <> Some VoiceAssistant.exit_mode ->
      let answer :=
        generate_response
          text (VoiceAssistant.get_conversation_context now self) in
      let '(self', said) :=
        VoiceAssistant.process_text_queue_iteration
          re_search generate_response now self in
      (answer = VoiceAssistant.Raises ->
       said = [VoiceAssistant.having_trouble])
      /\ (answer = VoiceAssistant.Returns None
          \/ answer = VoiceAssistant.Returns (Some ""%string) ->
          said = [VoiceAssistant.not_sure])
      /\ VoiceAssistant.text_queue self' = q
      /\ VoiceAssistant.is_speaking self' = false
      /\ VoiceAssistant.stop_threads self'
         = VoiceAssistant.stop_threads self)
  /\ (forall clock,
         List.length (VoiceAssistant.text_queue self) <= List.length clock ->
         let '(self', said) :=
           VoiceAssistant.process_text_queue
             re_search generate_response clock self in
         VoiceAssistant.text_queue self' = []
         /\ List.length said = List.length (VoiceAssistant.text_queue self)
         /\ Forall (fun reply => reply <> ""%string) said
         /\ VoiceAssistant.stop_threads self'
            = VoiceAssistant.stop_threads self)
  /\ (forall recognize_google detect now a,
         (forall l, Notions.answers recognize_google a l = false) ->
         fst (BaseSTT.recognize_audio recognize_google detect
                                      (VoiceAssistant.stt self) now a)
         = VoiceAssistant.stt self).
Proof.
  split; [| split].
  - intros now text q Hq Hcmd answer.
    pose proof (Replies.pass_falls_back
                  audio re_search generate_response now self text q
                  Hq Hcmd) as Hfall.
    destruct (Replies.pass_replies
                audio re_search generate_response now self text q Hq)
      as (self' & reply & E & _ & Hq' & Hstop).
    cbv zeta in Hfall. rewrite E in *. cbn [fst snd] in Hfall.
    destruct Hfall as (H1 & H2 & H3). repeat split; assumption.
  - intro clock. apply Replies.loop_empties_queue.
  - intros recognize_google detect now a Hno.
    apply Worker.no_answer_nothing_queued. exact Hno.
Qed.

(** A run on which the claim C8 as stated fails at its last clause: a
    chunk of captured speech that the backend understands in no language.
    The worker tries all eight languages and queues no result, so nothing
    reaches the text queue and the assistant says nothing: no apology. *)
Lemma C8_counterexample :
  let self0 :=
    VoiceAssistant.init Examples.one_chunk
                        Settings.silence_threshold_seconds 0 in
  let worked :=
    BaseSTT.recognize_worker_iteration
      Examples.understands_nothing Examples.detect_raises
      (VoiceAssistant.stt self0) 1 in
  let self1 := VoiceAssistant.set_stt (fst worked) self0 in
  let self2 := VoiceAssistant.stt_processor_iteration 2 self1 in
  let '(self3, said) :=
    VoiceAssistant.process_text_queue
      Examples.no_command Examples.always_answers [3%Q; 4%Q] self2 in
  BaseSTT.audio_queue (VoiceAssistant.stt self0) = [tt]
  /\ BaseSTT.audio_queue (VoiceAssistant.stt self1) = []
  /\ List.length (snd worked) = 8
  /\ BaseSTT.result_queue (VoiceAssistant.stt self1) = []
  /\ VoiceAssistant.text_queue self2 = []
  /\ said = [].
Proof. vm_compute. repeat split. Qed.

Lemma C8_witness :
  let self :=
    VoiceAssistant.keyboard_input_iteration
      1 (VoiceAssistant.Line "hello")
      (VoiceAssistant.init (BaseSTT.init unit 0) 5 0) in
  VoiceAssistant.text_queue self = ["hello"%string]
  /\ snd (VoiceAssistant.process_text_queue_iteration
            Examples.no_command Examples.always_raises 2 self)
     = [VoiceAssistant.having_trouble].
Proof.
  cbv zeta. split; [reflexivity |].
  pose proof (proj1 (C8_fallback_reply_and_loop_survives
                       Examples.no_command Examples.always_raises
                       (VoiceAssistant.keyboard_input_iteration
                          1 (VoiceAssistant.Line "hello")
                          (VoiceAssistant.init (BaseSTT.init unit 0) 5 0)))
                    2%Q "hello"%string [] eq_refl
                    ltac:(discriminate)) as H.
  cbv zeta in H.
  destruct (VoiceAssistant.process_text_queue_iteration _ _ _ _)
    as [self' said].
  exact (proj1 H eq_refl).
Defined.


(** ** Partial results *)

Module Partials.
Import Display.

Section Shown.

Variable audio : Type.

Implicit Types (stt : BaseSTT.t audio) (self : VoiceAssistant.t audio).

Lemma processor_distinct passes stt last_partial :
  distinct_from_previous
    last_partial
    (snd (BaseSTT.partial_result_processor_from passes stt last_partial)).
Proof.
  revert stt last_partial.
  induction passes as [| passes IH]; intros stt last_partial; [exact I |].
  cbn [BaseSTT.partial_result_processor_from].
  unfold BaseSTT.partial_result_processor_iteration.
  destruct (BaseSTT.partial_result_queue stt) as [| r q].
  - specialize (IH stt last_partial).
    destruct (BaseSTT.partial_result_processor_from passes stt last_partial).
    exact IH.
  - destruct (String.eqb_spec (BaseSTT.partial_text r) last_partial)
      as [E | N]; cbn [negb].
    + specialize (IH (BaseSTT.set_partial_result_queue q stt) last_partial).
      destruct (BaseSTT.partial_result_processor_from _ _ _). exact IH.
    + specialize (IH (BaseSTT.set_partial_result_queue q stt)
                     (BaseSTT.partial_text r)).
      destruct (BaseSTT.partial_result_processor_from _ _ _).
      cbn. split; assumption.
Qed.

Lemma processor_idle passes stt last_partial :
  BaseSTT.partial_result_queue stt = [] ->
  snd (BaseSTT.partial_result_processor_from passes stt last_partial) = [].
Proof.
  intro Hq. induction passes as [| passes IH]; [reflexivity |].
  cbn [BaseSTT.partial_result_processor_from].
  unfold BaseSTT.partial_result_processor_iteration. rewrite Hq.
  destruct (BaseSTT.partial_result_processor_from passes stt last_partial).
  exact IH.
Qed.

Lemma processor_at_most_one passes stt last_partial :
  (exists r, BaseSTT.partial_result_queue stt = [r]
             /\ BaseSTT.partial_text r = last_partial)
  \/ BaseSTT.partial_result_queue stt = [] ->
  snd (BaseSTT.partial_result_processor_from passes stt last_partial) = [].
Proof.
  intros [(r & Hq & Hr) | Hq]; [| apply processor_idle; exact Hq].
  destruct passes as [| passes]; [reflexivity |].
  cbn [BaseSTT.partial_result_processor_from].
  unfold BaseSTT.partial_result_processor_iteration.
  rewrite Hq, Hr, String.eqb_refl. cbn [negb].
  pose proof (processor_idle passes (BaseSTT.set_partial_result_queue [] stt)
                             last_partial eq_refl) as H.
  destruct (BaseSTT.partial_result_processor_from _ _ _). exact H.
Qed.

Lemma processor_same_twice passes stt last_partial r1 r2 :
  BaseSTT.partial_result_queue stt = [r1; r2] ->
  BaseSTT.partial_text r1 = BaseSTT.partial_text r2 ->
  List.length
    (snd (BaseSTT.partial_result_processor_from passes stt last_partial))
  <= 1.
Proof.
  intros Hq Hsame. destruct passes as [| passes]; [cbn; lia |].
  cbn [BaseSTT.partial_result_processor_from].
  unfold BaseSTT.partial_result_processor_iteration. rewrite Hq.
  destruct (negb (String.eqb (BaseSTT.partial_text r1) last_partial)) eqn:E.
  - pose proof (processor_at_most_one
                  passes (BaseSTT.set_partial_result_queue [r2] stt)
                  (BaseSTT.partial_text r1)) as H.
    destruct (BaseSTT.partial_result_processor_from _ _ _) as [stt' shown].
    cbn in *. rewrite H; [cbn; lia |].
    left. exists r2. split; [reflexivity | congruence].
  - apply negb_false_iff, String.eqb_eq in E.
    pose proof (processor_at_most_one
                  passes (BaseSTT.set_partial_result_queue [r2] stt)
                  last_partial) as H.
    destruct (BaseSTT.partial_result_processor_from _ _ _) as [stt' shown].
    cbn in *. rewrite H; [cbn; lia |].
    left. exists r2. split; [reflexivity | congruence].
Qed.

Lemma monitor_shows self d :
  In d (snd (VoiceAssistant.partial_text_monitor_iteration self)) ->
  VoiceAssistant.is_listening self = true
  /\ d <> ""%string
  /\ d <> VoiceAssistant.last_full_result self
  /\ exists r q,
      BaseSTT.partial_result_queue (VoiceAssistant.stt self) = r :: q
      /\ d = Py.strip (BaseSTT.partial_text r).
Proof.
  unfold VoiceAssistant.partial_text_monitor_iteration.
  destruct (BaseSTT.partial_result_queue (VoiceAssistant.stt self))
    as [| r q]; [intros [] |].
  destruct (VoiceAssistant.is_listening self); [| intros []].
  cbn [VoiceAssistant.last_full_result VoiceAssistant.set_stt].
  destruct (Py.truthy (Py.strip (BaseSTT.partial_text r))) eqn:T;
    [| intros []].
  destruct (String.eqb_spec (Py.strip (BaseSTT.partial_text r))
                            (VoiceAssistant.last_full_result self))
    as [E | N]; cbn [andb negb]; [intros [] |].
  intros [<- | []]. repeat split.
  - destruct (Py.strip (BaseSTT.partial_text r)); discriminate.
  - exact N.
  - exists r, q. split; reflexivity.
Qed.

End Shown.

End Partials.

(** C9 (as amended).  The two consumers of the partial-result queue each
    apply half of the condition.  [partial_text_monitor] displays a partial
    text only while listening, and only if the stripped text is non-empty
    and differs from the last full result.  [partial_result_processor]
    displays a partial text only if it differs from the partial text it
    displayed last, so that it never displays the same text twice in a
    row; given the same partial text twice in a row it displays at most
    once. *)
Theorem C9_partial_display_conditions {audio : Type} :
  (forall (self : VoiceAssistant.t audio) d,
      In d (snd (VoiceAssistant.partial_text_monitor_iteration self)) ->
      VoiceAssistant.is_listening self = true
      /\ d <> ""%string
      /\ d <> VoiceAssistant.last_full_result self
      /\ exists r q,
          BaseSTT.partial_result_queue (VoiceAssistant.stt self) = r :: q
          /\ d = Py.strip (BaseSTT.partial_text r))
  /\ (forall (stt : BaseSTT.t audio) passes,
         Display.distinct_from_previous
           ""%string (snd (BaseSTT.partial_result_processor passes stt)))
  /\ (forall (stt : BaseSTT.t audio) passes r1 r2,
         BaseSTT.partial_result_queue stt = [r1; r2] ->
         BaseSTT.partial_text r1 = BaseSTT.partial_text r2 ->
         List.length (snd (BaseSTT.partial_result_processor passes stt))
         <= 1).
Proof.
  split; [| split].
  - apply Partials.monitor_shows.
  - intros stt passes. apply Partials.processor_distinct.
  - intros stt passes r1 r2. apply Partials.processor_same_twice.
Qed.

(** A run on which the claim C9 as stated fails: the same partial text
    arrives twice in a row while the assistant listens.
    [partial_text_monitor] displays it both times: the second display
    does not differ from the partial displayed last. *)
Lemma C9_counterexample :
  map BaseSTT.partial_text
      (BaseSTT.partial_result_queue
         (VoiceAssistant.stt Examples.same_partial_twice))
  = ["hello"; "hello"]%string
  /\ snd (VoiceAssistant.partial_text_monitor 2 Examples.same_partial_twice)
     = ["hello"; "hello"]%string.
Proof. vm_compute. split; reflexivity. Qed.

Lemma C9_witness :
  let stt := VoiceAssistant.stt Examples.same_partial_twice in
  BaseSTT.partial_result_queue stt
  = [BaseSTT.Partial "hello" 1; BaseSTT.Partial "hello" 2]
  /\ List.length (snd (BaseSTT.partial_result_processor 5 stt)) <= 1.
Proof.
  cbv zeta. split; [reflexivity |].
  exact (proj2 (proj2 C9_partial_display_conditions)
               (VoiceAssistant.stt Examples.same_partial_twice) 5
               (BaseSTT.Partial "hello" 1) (BaseSTT.Partial "hello" 2)
               eq_refl eq_refl).
Defined.

(** ** Blank input *)

Module Blank.
Import VoiceAssistant Display.

Section Stream.

Variable audio : Type.
Variable re_search : string -> string -> bool.
Variable generate_response : string -> list (string * string) -> response.

Implicit Types (self : VoiceAssistant.t audio).

Lemma truthy_strip_nonblank (text : string) :
  Py.truthy (Py.strip text) = true -> nonblank text.
Proof. unfold nonblank. destruct (Py.strip text); [discriminate | discriminate]. Qed.

Lemma blank_not_truthy (text : string) :
  Py.strip text = ""%string -> Py.truthy (Py.strip text) = false.
Proof. intros ->. reflexivity. Qed.

(** Every pass of every thread keeps blank texts out of the text queue. *)
Lemma step_keeps_queue_nonblank o self :
  Forall nonblank (text_queue self) ->
  Forall nonblank (text_queue (step re_search generate_response o self)).
Proof.
  intro H. destruct o as [now ss | now | | now typed | now | f]; cbn [step].
  - unfold silence_monitor_iteration.
    repeat match goal with
           | |- context [if ?b then _ else _] => destruct b; cbn
           end; exact H.
  - unfold stt_processor_iteration.
    destruct (BaseSTT.result_queue (stt self)) as [| r q]; [exact H |].
    destruct (is_listening self); [| exact H].
    destruct (Py.truthy (Py.strip (BaseSTT.text r))) eqn:T; [| exact H].
    cbn. destruct (showing_partial self); cbn;
      destruct (silence_detection_enabled self); cbn;
      (apply Forall_app; split;
       [exact H | constructor; [apply truthy_strip_nonblank, T | constructor]]).
  - unfold partial_text_monitor_iteration.
    repeat match goal with
           | |- context [match ?x with _ => _ end] => destruct x; cbn
           end; exact H.
  - unfold keyboard_input_iteration. destruct typed as [text | |];
      [| exact H | exact H].
    destruct (Py.truthy (Py.strip text)) eqn:T; cbn [negb]; [| exact H].
    cbn. destruct (silence_detection_enabled self); cbn;
      (apply Forall_app; split;
       [exact H | constructor; [apply truthy_strip_nonblank, T | constructor]]).
  - destruct (text_queue self) as [| text q] eqn:Hq.
    + unfold process_text_queue_iteration. rewrite Hq. cbn. rewrite Hq.
      constructor.
    + destruct (Replies.pass_replies
                  audio re_search generate_response now self text q Hq)
        as (self' & reply & E & _ & Hq' & _).
      rewrite E. cbn [fst]. rewrite Hq'.
      inversion H; assumption.
  - exact H.
Qed.

Lemma run_keeps_queue_nonblank ops self :
  Forall nonblank (text_queue self) ->
  Forall nonblank (text_queue (run re_search generate_response ops self)).
Proof.
  revert self. induction ops as [| o ops IH]; intros self H; [exact H |].
  cbn [run]. apply IH, step_keeps_queue_nonblank, H.
Qed.

(** The processor takes a blank result off the result queue and does
    nothing else. *)
Lemma processor_discards_blank now self r q :
  BaseSTT.result_queue (stt self) = r :: q ->
  Py.strip (BaseSTT.text r) = ""%string ->
  stt_processor_iteration now self
  = if is_listening self
    then set_stt (BaseSTT.set_result_queue q (stt self)) self
    else self.
Proof.
  intros Hq Hblank. unfold stt_processor_iteration.
  rewrite Hq, (blank_not_truthy _ Hblank). reflexivity.
Qed.

End Stream.

End Blank.

(** C10.  A typed line that strips to the empty string leaves the whole
    assistant object as it was: it is not put on the text queue and not
    recorded in the conversation history.  A recognition result whose text
    strips to the empty string is taken off the result queue by the STT
    processor (when it is listening) and otherwise changes nothing: the
    text queue, the conversation history and the last full result stay.
    Over every interleaving of passes of the threads, from a new
    assistant, the text queue never holds a blank text. *)
Theorem C10_blank_input_is_dropped {audio : Type}
        (re_search : string -> string -> bool)
        (generate_response :
           string -> list (string * string) -> VoiceAssistant.response)
        (self : VoiceAssistant.t audio) (now : Q) (text : string) :
  Py.strip text = ""%string ->
  VoiceAssistant.keyboard_input_iteration now (VoiceAssistant.Line text) self
  = self
  /\ (forall lang time energy q,
         BaseSTT.result_queue (VoiceAssistant.stt self)
         = BaseSTT.Result text lang time energy :: q ->
         let self' := VoiceAssistant.stt_processor_iteration now self in
         VoiceAssistant.text_queue self' = VoiceAssistant.text_queue self
         /\ VoiceAssistant.conversation_history self'
            = VoiceAssistant.conversation_history self
         /\ VoiceAssistant.last_full_result self'
            = VoiceAssistant.last_full_result self
         /\ (VoiceAssistant.is_listening self = true ->
             BaseSTT.result_queue (VoiceAssistant.stt self') = q))
  /\ (forall stt0 configured t0 ops,
         Forall Display.nonblank
                (VoiceAssistant.text_queue
                   (VoiceAssistant.run
                      re_search generate_response ops
                      (VoiceAssistant.init (audio := audio)
                                           stt0 configured t0)))).
Proof.
  intro Hblank. split; [| split].
  - unfold VoiceAssistant.keyboard_input_iteration.
    rewrite (Blank.blank_not_truthy _ Hblank). reflexivity.
  - intros lang time energy q Hq self'. subst self'.
    rewrite (Blank.processor_discards_blank audio now self _ q Hq Hblank).
    destruct (VoiceAssistant.is_listening self); cbn; repeat split;
      discriminate.
  - intros stt0 configured t0 ops.
    apply Blank.run_keeps_queue_nonblank. constructor.
Qed.

Lemma C10_witness :
  let self :=
    VoiceAssistant.init (BaseSTT.init unit 0)
                        Settings.silence_threshold_seconds 0 in
  Py.strip "   " = ""%string
  /\ VoiceAssistant.keyboard_input_iteration
       1 (VoiceAssistant.Line "   ") self = self.
Proof.
  cbv zeta. split; [reflexivity |].
  exact (proj1 (C10_blank_input_is_dropped
                  Examples.no_command Examples.always_answers
                  (VoiceAssistant.init (BaseSTT.init unit 0)
                                       Settings.silence_threshold_seconds 0)
                  1 "   " eq_refl)).
Defined.


(** * Further properties of the code *)

(** ** Frame counting and the background callback *)

Module Frames.
Import Capture Invariants.

Lemma ratio_bounds (silence total : nat) :
  silence <= S total ->
  (0 <= inject_Z (Z.of_nat silence) / inject_Z (Z.of_nat (S total)))%Q
  /\ (inject_Z (Z.of_nat silence) / inject_Z (Z.of_nat (S total)) <= 1)%Q.
Proof.
  intro H. unfold Qdiv, Qinv, inject_Z, Qmult, Qle.
  cbn [Qnum Qden Z.of_nat].
  rewrite Pos.mul_1_l, Zpos_P_of_succ_nat. split; lia.
Qed.

Section Object.

Variable audio : Type.
Implicit Types (self : Capture.t audio) (h : heard audio).

Lemma process_audio_consistent energy0 now self :
  frames_consistent self ->
  frames_consistent (fst (process_audio energy0 now self)).
Proof.
  intros (Hsum & Hmax & H0 & H1). unfold process_audio.
  destruct energy0 as [e |]; [| repeat split; assumption].
  change (0 <? S (total_frames self)) with true. cbv iota.
  set (sp := Py.gt e (BaseSTT.energy_threshold (base self) * (8 # 10))).
  assert (Hs : (if sp then silence_frames self else S (silence_frames self))
               <= S (total_frames self)) by (destruct sp; lia).
  destruct (ratio_bounds _ _ Hs) as [R0 R1].
  set (r := (inject_Z _ / inject_Z _)%Q) in *. clearbody r.
  unfold frames_consistent.
  destruct (Nat.ltb_spec 100 (S (total_frames self))) as [Hreset | Hkeep];
    destruct sp; cbn; repeat split; (assumption || lia).
Qed.

Lemma audio_callback_consistent h self :
  frames_consistent self -> frames_consistent (audio_callback h self).
Proof.
  intro H. unfold audio_callback.
  pose proof (process_audio_consistent (energy h) (at_time h) self H) as Hp.
  destruct (process_audio (energy h) (at_time h) self) as [self' sp].
  cbn [fst] in Hp. unfold frames_consistent in *.
  destruct sp; [destruct (show_all h) as [[| best rest] | |];
                [| destruct (Py.truthy best) | |] |]; cbn; exact Hp.
Qed.

(** [process_audio] writes only the silence ratio and the time of the last
    speech of the base object. *)
Lemma process_audio_queues energy0 now self :
  let b := base (fst (process_audio energy0 now self)) in
  BaseSTT.audio_queue b = BaseSTT.audio_queue (base self)
  /\ BaseSTT.result_queue b = BaseSTT.result_queue (base self)
  /\ BaseSTT.partial_result_queue b
     = BaseSTT.partial_result_queue (base self).
Proof.
  unfold process_audio. destruct energy0 as [e |]; [| repeat split].
  destruct (Py.gt e _); destruct (0 <? _); destruct (100 <? _); cbn;
    repeat split.
Qed.

Lemma audio_callback_queues h self :
  let b := base (audio_callback h self) in
  BaseSTT.audio_queue b = BaseSTT.audio_queue (base self) ++ [chunk h]
  /\ BaseSTT.result_queue b = BaseSTT.result_queue (base self)
  /\ (partials_nonempty (base self) -> partials_nonempty b).
Proof.
  unfold audio_callback.
  destruct (process_audio_queues (energy h) (at_time h) self)
    as (Ha & Hr & Hp).
  destruct (process_audio (energy h) (at_time h) self) as [self' sp].
  cbn [fst] in *. unfold partials_nonempty.
  destruct sp; [destruct (show_all h) as [[| best rest] | |];
                [| destruct (Py.truthy best) eqn:T | |] |];
    cbn; rewrite ?Ha, ?Hr, ?Hp; repeat split; auto.
  intro H. apply Forall_app. split; [exact H |].
  constructor; [| constructor]. cbn. destruct best; discriminate.
Qed.

Lemma listen_consistent hs self :
  frames_consistent self -> frames_consistent (listen_in_background hs self).
Proof.
  revert self. induction hs as [| h hs IH]; intros self H; [exact H |].
  cbn [listen_in_background]. apply IH, audio_callback_consistent, H.
Qed.

Lemma listen_queues hs self :
  let b := base (listen_in_background hs self) in
  BaseSTT.audio_queue b = BaseSTT.audio_queue (base self) ++ map chunk hs
  /\ BaseSTT.result_queue b = BaseSTT.result_queue (base self)
  /\ (partials_nonempty (base self) -> partials_nonempty b).
Proof.
  revert self. induction hs as [| h hs IH]; intro self.
  - cbn. rewrite app_nil_r. repeat split. auto.
  - cbn [listen_in_background map].
    destruct (IH (audio_callback h self)) as (Ha & Hr & Hp).
    destruct (audio_callback_queues h self) as (Ha' & Hr' & Hp').
    cbv zeta in *. rewrite Ha, Hr, Ha', Hr', <- app_assoc.
    repeat split. auto.
Qed.

(** [partial_result_processor] prints queued texts only. *)
Lemma processor_shows_queued passes (b : BaseSTT.t audio) last_partial d :
  In d (snd (BaseSTT.partial_result_processor_from passes b last_partial)) ->
  In d (map BaseSTT.partial_text (BaseSTT.partial_result_queue b)).
Proof.
  revert b last_partial.
  induction passes as [| passes IH]; intros b last_partial; [intros [] |].
  cbn [BaseSTT.partial_result_processor_from].
  unfold BaseSTT.partial_result_processor_iteration.
  destruct (BaseSTT.partial_result_queue b) as [| r q] eqn:Hq.
  - specialize (IH b last_partial). rewrite Hq in IH.
    destruct (BaseSTT.partial_result_processor_from passes b last_partial).
    exact IH.
  - destruct (negb (String.eqb (BaseSTT.partial_text r) last_partial)).
    + specialize (IH (BaseSTT.set_partial_result_queue q b)
                     (BaseSTT.partial_text r)).
      destruct (BaseSTT.partial_result_processor_from _ _ _).
      cbn in *. intros [<- | H]; [left; reflexivity | right; auto].
    + specialize (IH (BaseSTT.set_partial_result_queue q b) last_partial).
      destruct (BaseSTT.partial_result_processor_from _ _ _).
      cbn in *. intro H. right. auto.
Qed.

End Object.

End Frames.

Lemma gt_false (x y : Q) : Py.gt x y = false <-> (x <= y)%Q.
Proof.
  unfold Py.gt. rewrite negb_false_iff. apply Qle_bool_iff.
Qed.

Lemma lt_false (x y : Q) : Py.lt x y = false <-> (y <= x)%Q.
Proof. exact (gt_false y x). Qed.

(** X1.  Across every sequence of background callbacks the frame counters
    stay consistent: silent and speech frames add up to the total, the
    window never holds more than 100 frames (it is emptied on the 101st),
    and the silence ratio stays between 0 and 1. *)
Theorem X1_frame_counters_consistent {audio : Type}
        (hs : list (Capture.heard audio)) (self : Capture.t audio) :
  Invariants.frames_consistent self ->
  Invariants.frames_consistent (Capture.listen_in_background hs self).
Proof. apply Frames.listen_consistent. Qed.

Lemma X1_witness :
  Invariants.frames_consistent (Capture.init unit (Some []) 0)
  /\ Invariants.frames_consistent
       (Capture.listen_in_background
          [Capture.Heard tt (Some 500%Q) 1 Capture.NoAlternatives;
           Capture.Heard tt (Some 100%Q) 2 Capture.ShowAllRaises]
          (Capture.init unit (Some []) 0)).
Proof.
  assert (H : Invariants.frames_consistent (Capture.init unit (Some []) 0)).
  { unfold Invariants.frames_consistent. cbn. repeat split; try lia;
      discriminate. }
  split; [exact H |].
  exact (X1_frame_counters_consistent _ _ H).
Defined.

(** X2.  The background callback hands every chunk it hears to the
    recognition workers, in the order heard, whether or not speech was
    detected in it and whatever happens to the energy computation or the
    partial recognition; it never touches the result queue. *)
Theorem X2_every_chunk_is_queued {audio : Type}
        (hs : list (Capture.heard audio)) (self : Capture.t audio) :
  let self' := Capture.listen_in_background hs self in
  BaseSTT.audio_queue (Capture.base self')
  = BaseSTT.audio_queue (Capture.base self) ++ map Capture.chunk hs
  /\ BaseSTT.result_queue (Capture.base self')
     = BaseSTT.result_queue (Capture.base self).
Proof.
  destruct (Frames.listen_queues audio hs self) as (Ha & Hr & _).
  split; assumption.
Qed.

(** X3.  Whatever the background callback hears after the object is
    built, every partial result it queues has a non-empty text, so
    [partial_result_processor] never prints an empty partial. *)
Theorem X3_partials_are_never_empty {audio : Type}
        (listing : option (list string)) (now : Q)
        (hs : list (Capture.heard audio)) (passes : nat) :
  let b :=
    Capture.base
      (Capture.listen_in_background hs (Capture.init audio listing now)) in
  Invariants.partials_nonempty b
  /\ Forall (fun d => d <> ""%string)
            (snd (BaseSTT.partial_result_processor passes b)).
Proof.
  cbv zeta.
  destruct (Frames.listen_queues
              audio hs (Capture.init audio listing now)) as (_ & _ & Hp).
  specialize (Hp (Forall_nil _)). split; [exact Hp |].
  apply Forall_forall. intros d Hd.
  apply Frames.processor_shows_queued in Hd.
  apply in_map_iff in Hd. destruct Hd as (r & <- & Hr).
  unfold Invariants.partials_nonempty in Hp.
  rewrite Forall_forall in Hp. apply Hp, Hr.
Qed.

(** X4.  After a frame in which [process_audio] detected speech, a speech
    state read within three seconds of that frame never makes the silence
    monitor pause: [is_listening] stays true. *)
Theorem X4_no_pause_within_three_seconds_of_speech {audio : Type}
        (self : Capture.t audio) (energy frame_time now monitor_time : Q)
        (assistant : VoiceAssistant.t audio) :
  let heard := Capture.process_audio (Some energy) frame_time self in
  let speech_state :=
    BaseSTT.get_speech_state (Capture.base (fst heard)) now in
  snd heard = true ->
  (now - frame_time <= 3)%Q ->
  VoiceAssistant.is_listening assistant = true ->
  VoiceAssistant.is_listening
    (VoiceAssistant.silence_monitor_iteration monitor_time speech_state
                                              assistant) = true.
Proof.
  intros heard speech_state Hspeech Hnear Hl.
  assert (Hd : BaseSTT.ss_silence_duration speech_state
               = (now - frame_time)%Q).
  { subst speech_state heard. unfold Capture.process_audio in *.
    cbn [snd] in Hspeech. rewrite Hspeech.
    destruct (0 <? _); destruct (100 <? _); reflexivity. }
  destruct (VoiceAssistant.silence_detection_enabled assistant) eqn:En.
  - rewrite Silence.monitor_enabled by exact En. rewrite Hl, Hd.
    rewrite (proj2 (gt_false _ _) Hnear). exact Hl.
  - rewrite Silence.monitor_idle_while_disabled by exact En. exact Hl.
Qed.

Lemma X4_witness :
  let self := Capture.init unit (Some []) 0 in
  let assistant :=
    VoiceAssistant.keyboard_input_iteration
      1 (VoiceAssistant.Line "hi")
      (VoiceAssistant.init (Capture.base self) 5 0) in
  let heard := Capture.process_audio (Some 500%Q) 10 self in
  snd heard = true
  /\ VoiceAssistant.is_listening
       (VoiceAssistant.silence_monitor_iteration
          12 (BaseSTT.get_speech_state (Capture.base (fst heard)) 12)
          assistant) = true.
Proof.
  cbv zeta. split; [reflexivity |].
  apply (X4_no_pause_within_three_seconds_of_speech
           (Capture.init unit (Some []) 0) 500 10 12 12).
  - reflexivity.
  - vm_compute. discriminate.
  - reflexivity.
Defined.

(** X5.  The ambient-noise adjustment never changes the sensitivity: with
    the minimum threshold of 300 that [__init__] sets, the recognizer's
    energy threshold is 300 when [adjust_for_ambient_noise] returns,
    however the adjustment thread ended, and it is still 300 after a
    thread that did not end in time completes its measurement later. *)
Theorem X5_adjustment_leaves_threshold_at_300 {audio : Type}
        (listing : option (list string)) (outcome : Capture.adjustment)
        (late : Q) (self : Capture.t audio) :
  let adjusted := Capture.adjust_for_ambient_noise listing outcome self in
  (Capture.min_energy_threshold self == 300)%Q ->
  BaseSTT.energy_threshold (Capture.base adjusted) = 300%Q
  /\ (BaseSTT.energy_threshold
        (Capture.base (Capture.perform_adjustment (Some late) adjusted))
      == 300)%Q.
Proof.
  intros adjusted Hmin. split; [reflexivity |].
  assert (Hm : Capture.min_energy_threshold adjusted
               = Capture.min_energy_threshold self).
  { subst adjusted. unfold Capture.adjust_for_ambient_noise.
    destruct (Capture.best_mic_index self), outcome; reflexivity. }
  unfold Capture.perform_adjustment. cbn [Capture.base Capture.set_base
    BaseSTT.energy_threshold Capture.set_energy_threshold].
  rewrite Hm. unfold Capture.max, Capture.min.
  destruct (Py.gt (Capture.min_energy_threshold self) late) eqn:G.
  - destruct (Py.lt 300 (Capture.min_energy_threshold self)) eqn:L;
      [reflexivity | exact Hmin].
  - apply gt_false in G.
    destruct (Py.lt 300 late) eqn:L; [reflexivity |].
    apply lt_false in L. apply Qle_antisym; [exact L |].
    rewrite <- Hmin. exact G.
Qed.

Lemma X5_witness :
  let self := Capture.init unit (Some []) 0 in
  (Capture.min_energy_threshold self == 300)%Q
  /\ (BaseSTT.energy_threshold
        (Capture.base
           (Capture.perform_adjustment
              (Some 4000%Q)
              (Capture.adjust_for_ambient_noise (Some []) Capture.TimedOut
                                                self)))
      == 300)%Q.
Proof.
  cbv zeta. split; [reflexivity |].
  exact (proj2 (X5_adjustment_leaves_threshold_at_300
                  (Some []) Capture.TimedOut 4000
                  (Capture.init unit (Some []) 0) (Qeq_refl _))).
Defined.

(** ** The duplicate guard of the synthesiser *)

Module Guard.
Import EdgeTTS Requests.

Lemma guard_spaces text current_time self :
  snd (generate_and_play_speech text current_time self) = true ->
  text <> last_message self
  \/ (2 <= current_time - last_message_time self)%Q.
Proof.
  unfold generate_and_play_speech.
  destruct (String.eqb_spec text (last_message self)) as [E | N];
    [| intros _; left; exact N].
  cbn [andb].
  destruct (Py.lt (current_time - last_message_time self)
                  duplicate_threshold) eqn:L; [discriminate |].
  intros _. right. apply lt_false in L. exact L.
Qed.

Lemma synthesised_spaced requests self :
  spaced (last_message_time self, last_message self)
         (snd (generate_speech requests self)).
Proof.
  revert self. induction requests as [| [current_time text] requests IH];
    intro self; [exact I |].
  cbn [generate_speech].
  pose proof (guard_spaces text current_time self) as Hg.
  destruct (generate_and_play_speech text current_time self)
    as [self' go] eqn:E.
  specialize (IH self').
  destruct (generate_speech requests self') as [self'' rest].
  cbn [snd] in *. unfold generate_and_play_speech in E.
  destruct (String.eqb text (last_message self)
            && Py.lt (current_time - last_message_time self)
                     duplicate_threshold);
    injection E as <- <-.
  - exact IH.
  - split; [apply Hg; reflexivity | exact IH].
Qed.

Lemma changing_all_synthesised requests self :
  changing (last_message self) requests ->
  snd (generate_speech requests self) = requests.
Proof.
  revert self. induction requests as [| [current_time text] requests IH];
    intros self H; [reflexivity |].
  cbn [generate_speech]. destruct H as [Hne Hrest]. cbn [snd] in Hne.
  unfold generate_and_play_speech.
  rewrite (proj2 (String.eqb_neq text (last_message self)) Hne).
  cbn [andb].
  specialize (IH (Make text current_time) Hrest).
  destruct (generate_speech requests (Make text current_time)).
  cbn [snd] in *. rewrite IH. reflexivity.
Qed.

End Guard.



(** X7.  The guard suppresses nothing else: when no request repeats the
    text of the request before it (the first not repeating the last
    message), every request is synthesised, in order, however close in
    time the requests are. *)
Theorem X7_changing_texts_are_all_synthesised
        (requests : list (Q * string)) (self : EdgeTTS.t) :
  Requests.changing (EdgeTTS.last_message self) requests ->
  snd (EdgeTTS.generate_speech requests self) = requests.
Proof. apply Guard.changing_all_synthesised. Qed.

Lemma X7_witness :
  let requests := [(1%Q, "Hello"%string); ((3 # 2)%Q, "Goodbye"%string)] in
  Requests.changing (EdgeTTS.last_message EdgeTTS.init) requests
  /\ snd (EdgeTTS.generate_speech requests EdgeTTS.init) = requests.
Proof.
  assert (H : Requests.changing
                (EdgeTTS.last_message EdgeTTS.init)
                [(1%Q, "Hello"%string); ((3 # 2)%Q, "Goodbye"%string)]).
  { cbn. repeat split; discriminate. }
  split; [exact H |].
  exact (X7_changing_texts_are_all_synthesised _ _ H).
Defined.

(** ** The language model *)

Module Model.
Import LanguageModel.

Section Generate.

Variable send_with_history : list (string * string) -> string -> option string.
Variable send_plain : string -> option string.

(** With a chat session, [generate_response] returns; without one, it
    raises. *)
Lemma raises_iff_no_session self text context :
  generate_response send_with_history send_plain self text context
  = VoiceAssistant.Raises
  <-> chat_session self = None.
Proof.
  unfold generate_response, plain_response.
  destruct (chat_session self); split; try discriminate; try reflexivity.
  destruct context; [| destruct (send_with_history _ _)];
    destruct (send_plain text); discriminate.
Qed.

End Generate.

End Model.

(** X8.  A pass of the text-queue loop that asks the language model: when
    the model has no chat session (it was never set up), every text that
    is not the exit command is answered with the apology
    [having_trouble]; when it has one, [generate_response] never raises
    and the reply is the confirmation of the exit command, the apology
    [not_sure], or the non-empty text the model returned. *)
Theorem X8_reply_with_and_without_chat_session {audio : Type}
        (re_search : string -> string -> bool)
        (send_with_history :
           list (string * string) -> string -> option string)
        (send_plain : string -> option string)
        (model : LanguageModel.t)
        (self : VoiceAssistant.t audio) (now : Q)
        (text : string) (q : list string) :
  let ask :=
    LanguageModel.generate_response send_with_history send_plain model in
  let said :=
    snd (VoiceAssistant.process_text_queue_iteration re_search ask now
                                                     self) in
  VoiceAssistant.text_queue self = text :: q ->
  (LanguageModel.chat_session model = None ->
   VoiceAssistant.check_for_commands re_search text
   <> Some VoiceAssistant.exit_mode ->
   said = [VoiceAssistant.having_trouble])
  /\ (LanguageModel.chat_session model <> None ->
      exists reply,
        said = [reply]
        /\ (reply = VoiceAssistant.returning
            \/ reply = VoiceAssistant.not_sure
            \/ (reply <> ""%string
                /\ ask text (VoiceAssistant.get_conversation_context
                               now self)
                   = VoiceAssistant.Returns (Some reply)))).
Proof.
  intros ask said Hq. subst said.
  unfold VoiceAssistant.process_text_queue_iteration. rewrite Hq.
  change (VoiceAssistant.get_conversation_context
            now (VoiceAssistant.set_is_speaking
                   true (VoiceAssistant.set_text_queue q self)))
    with (VoiceAssistant.get_conversation_context now self).
  pose proof (Model.raises_iff_no_session
                send_with_history send_plain model text
                (VoiceAssistant.get_conversation_context now self)) as Hr.
  fold ask in Hr.
  set (answer := ask text (VoiceAssistant.get_conversation_context now self))
    in *.
  clearbody answer. split.
  - intros Hnone Hcmd. apply Hr in Hnone. rewrite Hnone.
    destruct (VoiceAssistant.check_for_commands re_search text)
      as [[| |] |]; try congruence; reflexivity.
  - intros Hsome.
    assert (Hno : answer <> VoiceAssistant.Raises)
      by (intro E; apply Hsome, Hr, E).
    destruct (VoiceAssistant.check_for_commands re_search text)
      as [[| |] |];
      try (eexists; split; [reflexivity |]; left; reflexivity);
      (destruct answer as [[r |] |]; [destruct (Py.truthy r) eqn:Tr | |];
       [| | | congruence]);
      eexists; (split; [reflexivity |]);
      try (right; left; reflexivity);
      (right; right; split; [| reflexivity]);
      apply Replies.truthy_nonempty; exact Tr.
Qed.

Lemma X8_witness :
  let self :=
    VoiceAssistant.keyboard_input_iteration
      1 (VoiceAssistant.Line "hello")
      (VoiceAssistant.init (BaseSTT.init unit 0) 5 0) in
  VoiceAssistant.text_queue self = ["hello"%string]
  /\ snd (VoiceAssistant.process_text_queue_iteration
            Examples.no_command
            (LanguageModel.generate_response
               (fun _ _ => Some "Hi"%string) (fun _ => Some "Hi"%string)
               LanguageModel.init)
            2 self)
     = [VoiceAssistant.having_trouble].
Proof.
  cbv zeta. split; [reflexivity |].
  exact (proj1 (X8_reply_with_and_without_chat_session
                  Examples.no_command
                  (fun _ _ => Some "Hi"%string) (fun _ => Some "Hi"%string)
                  LanguageModel.init
                  (VoiceAssistant.keyboard_input_iteration
                     1 (VoiceAssistant.Line "hello")
                     (VoiceAssistant.init (BaseSTT.init unit 0) 5 0))
                  2 "hello"%string [] eq_refl)
               eq_refl ltac:(discriminate)).
Defined.

(** X9.  When the key file exists, [setup] never looks at the environment
    variable: a file with a non-blank content gives the stripped content
    as the key and nothing is written; a blank file makes [setup] take
    the key typed at the prompt, and the typed key is written to the file
    exactly when the answer to the second prompt is y or Y. *)
Theorem X9_key_file_shadows_environment
        (e : LanguageModel.setup_env) (prompt : option string)
        (self : LanguageModel.t) (content : string) :
  let done := LanguageModel.setup e prompt self in
  LanguageModel.key_file e = Some content ->
  (Py.strip content <> ""%string ->
   LanguageModel.api_key (fst done) = Some (Py.strip content)
   /\ snd done = None)
  /\ (Py.strip content = ""%string ->
      LanguageModel.api_key (fst done) = Some (LanguageModel.typed_key e)
      /\ snd done
         = if String.eqb (Py.lower (LanguageModel.save_answer e)) "y"
           then Some (LanguageModel.typed_key e) else None).
Proof.
  intros done Hfile. subst done.
  unfold LanguageModel.setup, LanguageModel.get_api_key. rewrite Hfile.
  destruct (Py.strip content) as [| c rest] eqn:S; cbn; split;
    try (intro H; congruence); intros _; split; reflexivity.
Qed.

Lemma X9_witness :
  let e :=
    LanguageModel.SetupEnv (Some "  ") (Some "env-key") "typed-key" "Y"
                           true in
  LanguageModel.key_file e = Some "  "%string
  /\ LanguageModel.api_key
       (fst (LanguageModel.setup e None LanguageModel.init))
     = Some "typed-key"%string.
Proof.
  cbv zeta. split; [reflexivity |].
  exact (proj1 (proj2 (X9_key_file_shadows_environment
                         (LanguageModel.SetupEnv
                            (Some "  ") (Some "env-key") "typed-key" "Y"
                            true)
                         None LanguageModel.init "  " eq_refl)
                      eq_refl)).
Defined.


(** ** What every reachable assistant satisfies *)

Module Reachable.
Import VoiceAssistant Invariants.

Lemma slice_last_keeps_tail {A : Type} n (l tail : list A) :
  0 < n -> List.length tail <= n ->
  exists older, Py.slice_last n (l ++ tail) = older ++ tail.
Proof.
  intros Hn Ht. unfold Py.slice_last. destruct n as [| n]; [lia |].
  rewrite length_app, skipn_app.
  replace (List.length l + List.length tail - S n - List.length l)
    with 0 by lia.
  eexists. reflexivity.
Qed.

Section Object.

Variable audio : Type.
Variable re_search : string -> string -> bool.
Variable generate_response : string -> list (string * string) -> response.

Implicit Types (self : VoiceAssistant.t audio).

(** The history after [add_to_conversation_history]. *)
Lemma add_history role0 text now self :
  conversation_history (add_to_conversation_history role0 text now self)
  = let history := conversation_history self ++ [Turn role0 text now] in
    if max_history_items self * 2 <? List.length history
    then Py.slice_last (max_history_items self * 2) history
    else history.
Proof.
  unfold add_to_conversation_history. destruct (_ <? _); reflexivity.
Qed.

Lemma add_keeps_max role0 text now self :
  max_history_items (add_to_conversation_history role0 text now self)
  = max_history_items self.
Proof.
  unfold add_to_conversation_history. destruct (_ <? _); reflexivity.
Qed.

Lemma add_bounded role0 text now self :
  0 < max_history_items self ->
  List.length
    (conversation_history (add_to_conversation_history role0 text now self))
  <= 2 * max_history_items self.
Proof.
  intro Hmax. rewrite add_history. cbv zeta.
  destruct (Nat.ltb_spec (max_history_items self * 2)
                         (List.length (conversation_history self
                                       ++ [Turn role0 text now])));
    [| lia].
  rewrite History.slice_last_length by lia. lia.
Qed.

Lemma add_keeps_roles role0 text now self :
  role0 = "user"%string \/ role0 = "assistant"%string ->
  roles_known (conversation_history self) ->
  roles_known
    (conversation_history (add_to_conversation_history role0 text now self)).
Proof.
  intros Hr H. rewrite add_history. cbv zeta.
  assert (Hall : roles_known (conversation_history self
                              ++ [Turn role0 text now])).
  { apply Forall_app. split; [exact H |]. constructor; [exact Hr |].
    constructor. }
  destruct (_ <? _); [| exact Hall].
  destruct (History.slice_last_suffix
              (max_history_items self * 2)
              (conversation_history self ++ [Turn role0 text now]))
    as [pruned E].
  unfold roles_known in *. rewrite E in Hall.
  apply Forall_app in Hall. apply Hall.
Qed.

(** The last entries survive the pruning. *)
Lemma add_ends_with role0 text now self tail older :
  conversation_history self = older ++ tail ->
  S (List.length tail) <= 2 * max_history_items self ->
  exists older',
    conversation_history (add_to_conversation_history role0 text now self)
    = older' ++ tail ++ [Turn role0 text now].
Proof.
  intros Hh Hlen. rewrite add_history. cbv zeta. rewrite Hh, <- app_assoc.
  destruct (_ <? _).
  - apply slice_last_keeps_tail; [lia |].
    rewrite length_app. cbn. lia.
  - eexists. reflexivity.
Qed.

(** The history after two additions depends on the history and the
    bound only. *)
Lemma adds_history role1 text1 role2 text2 now self self0 :
  conversation_history self = conversation_history self0 ->
  max_history_items self = max_history_items self0 ->
  conversation_history
    (add_to_conversation_history
       role2 text2 now (add_to_conversation_history role1 text1 now self))
  = conversation_history
      (add_to_conversation_history
         role2 text2 now (add_to_conversation_history role1 text1 now self0)).
Proof.
  intros Hh Hm. rewrite !add_history, !add_keeps_max, Hh, Hm. reflexivity.
Qed.

Ltac branches :=
  unfold process_text_queue_iteration;
  match goal with
  | Hq : text_queue _ = _ :: _ |- _ => rewrite Hq
  end;
  destruct (check_for_commands re_search _) as [[| |] |];
  try (destruct (generate_response _ _) as [[r |] |];
       [destruct (Py.truthy r) | |]);
  cbn [fst snd].

(** What a pass of the text-queue loop does to the history: the user's
    text, then the reply. *)
Lemma pass_history now self text q :
  text_queue self = text :: q ->
  exists reply,
    snd (process_text_queue_iteration re_search generate_response now self)
    = [reply]
    /\ conversation_history
         (fst (process_text_queue_iteration re_search generate_response now
                                            self))
       = conversation_history
           (add_to_conversation_history
              "assistant" reply now
              (add_to_conversation_history "user" text now self)).
Proof.
  intro Hq. branches; eexists; (split; [reflexivity |]);
    match goal with
    | |- conversation_history (set_is_speaking false ?x) = _ =>
        change (conversation_history (set_is_speaking false x))
          with (conversation_history x)
    | _ => idtac
    end; apply adds_history; reflexivity.
Qed.

(** A pass of the text-queue loop keeps the bound, and leaves the mode at
    [general] when it was, and the file path empty when it was. *)
Lemma pass_frame now self :
  let self' :=
    fst (process_text_queue_iteration re_search generate_response now self)
  in
  max_history_items self' = max_history_items self
  /\ (current_mode self = "general"%string ->
      current_mode self' = "general"%string)
  /\ (current_file_path self = None -> current_file_path self' = None)
  /\ silence_detection_enabled self' = silence_detection_enabled self.
Proof.
  unfold process_text_queue_iteration.
  destruct (text_queue self) as [| text q]; [cbn; auto |].
  destruct (check_for_commands re_search text) as [[| |] |];
    try (destruct (generate_response _ _) as [[r |] |];
         [destruct (Py.truthy r) | |]);
    cbn [fst snd];
    repeat match goal with
           | |- context [add_to_conversation_history ?r ?x ?n ?s] =>
               rewrite (Threads.add_history_writes_history audio r x n s);
               generalize (conversation_history
                             (add_to_conversation_history r x n s));
               intro
           end; cbn; auto.
Qed.

(** The passes of the other threads leave the history, its bound, the
    mode and the file path alone. *)
Lemma other_passes_frame o self :
  (forall now, o <> ProcessTextQueue now) ->
  let self' := step re_search generate_response o self in
  conversation_history self' = conversation_history self
  /\ max_history_items self' = max_history_items self
  /\ current_mode self' = current_mode self
  /\ current_file_path self' = current_file_path self.
Proof.
  intro Hop. destruct o as [now ss | now | | now typed | now | f];
    cbn [step].
  - unfold silence_monitor_iteration.
    repeat match goal with
           | |- context [if ?b then _ else _] => destruct b; cbn
           end; repeat split.
  - unfold stt_processor_iteration.
    destruct (BaseSTT.result_queue (stt self)); [repeat split |].
    destruct (is_listening self); [| repeat split].
    destruct (Py.truthy _); [| repeat split].
    cbn. destruct (showing_partial self); cbn;
      destruct (silence_detection_enabled self); cbn; repeat split.
  - unfold partial_text_monitor_iteration.
    destruct (BaseSTT.partial_result_queue (stt self)); [repeat split |].
    destruct (is_listening self); [| repeat split].
    cbn. destruct (_ && _); [| repeat split].
    cbn. destruct (silence_detection_enabled self); cbn; repeat split.
  - unfold keyboard_input_iteration. destruct typed; [| repeat split ..].
    destruct (negb _); [repeat split |].
    cbn. destruct (silence_detection_enabled self); cbn; repeat split.
  - exfalso. apply (Hop now). reflexivity.
  - repeat split.
Qed.

Lemma step_well_formed o self :
  well_formed self ->
  well_formed (step re_search generate_response o self).
Proof.
  intros (Hmode & Hfile & Hmax & Hlen & Hroles).
  destruct o as [now ss | now | | now typed | now | f];
    try (match goal with
         | |- well_formed (step _ _ ?o _) =>
             assert (Hop : forall now0, o <> ProcessTextQueue now0)
               by (intros ?; discriminate);
             pose proof (other_passes_frame o self Hop) as Hp
         end;
         cbv zeta in Hp; destruct Hp as (Hh & Hm & Hc & Hf);
         unfold well_formed; rewrite Hh, Hm, Hc, Hf;
         repeat split; assumption).
  change (step re_search generate_response (ProcessTextQueue now) self)
    with (fst (process_text_queue_iteration re_search generate_response
                                            now self)).
  pose proof (pass_frame now self) as Hp. cbv zeta in Hp.
  destruct Hp as (Hm & Hc & Hf & _).
  unfold well_formed. rewrite Hm.
  repeat split; [auto | auto | assumption | |].
  - destruct (text_queue self) as [| text q] eqn:Hq.
    + unfold process_text_queue_iteration. rewrite Hq. exact Hlen.
    + destruct (pass_history now self text q Hq) as (reply & _ & ->).
      pose proof (add_bounded
                    "assistant" reply now
                    (add_to_conversation_history "user" text now self))
        as Hb.
      rewrite add_keeps_max, Hmax in Hb. apply Hb. lia.
  - destruct (text_queue self) as [| text q] eqn:Hq.
    + unfold process_text_queue_iteration. rewrite Hq. exact Hroles.
    + destruct (pass_history now self text q Hq) as (reply & _ & ->).
      apply add_keeps_roles; [right; reflexivity |].
      apply add_keeps_roles; [left; reflexivity | exact Hroles].
Qed.

Lemma run_well_formed ops self :
  well_formed self ->
  well_formed (run re_search generate_response ops self).
Proof.
  revert self. induction ops as [| o ops IH]; intros self H; [exact H |].
  cbn [run]. apply IH, step_well_formed, H.
Qed.

Lemma init_well_formed stt0 configured t0 :
  well_formed (init (audio := audio) stt0 configured t0).
Proof.
  unfold well_formed. cbn. repeat split; try lia. constructor.
Qed.

Lemma add_well_formed role0 text now self :
  role0 = "user"%string \/ role0 = "assistant"%string ->
  well_formed self ->
  well_formed (add_to_conversation_history role0 text now self).
Proof.
  intros Hr (Hmode & Hfile & Hmax & Hlen & Hroles).
  unfold well_formed. rewrite add_keeps_max.
  rewrite (Threads.add_history_writes_history audio role0 text now self)
    at 1 2.
  cbn [current_mode current_file_path set_conversation_history].
  repeat split; try assumption.
  - pose proof (add_bounded role0 text now self) as Hb.
    rewrite Hmax in Hb. apply Hb. lia.
  - apply add_keeps_roles; assumption.
Qed.

Lemma life_well_formed (stt0 : BaseSTT.t audio) configured t0 before
      welcomed_at after :
  well_formed (Startup.life re_search generate_response stt0 configured t0
                            before welcomed_at after).
Proof.
  unfold Startup.life. apply run_well_formed.
  apply add_well_formed; [right; reflexivity |].
  apply run_well_formed, init_well_formed.
Qed.

End Object.

End Reachable.

Module Exchange.
Import VoiceAssistant Context.

Lemma within_now role0 text now window :
  (0 <= window)%Q -> within_window now window (Turn role0 text now) = true.
Proof.
  intro H. unfold within_window, Py.le. cbn [timestamp].
  apply Qle_bool_iff. unfold Qminus, Qdiv.
  rewrite Qplus_opp_r, Qmult_0_l. exact H.
Qed.

Section Object.

Variable audio : Type.
Variable re_search : string -> string -> bool.
Variable generate_response : string -> list (string * string) -> response.

Implicit Types (self : VoiceAssistant.t audio).

Lemma pass_window now self :
  context_window_minutes
    (fst (process_text_queue_iteration re_search generate_response now self))
  = context_window_minutes self.
Proof.
  unfold process_text_queue_iteration.
  destruct (text_queue self) as [| text q]; [reflexivity |].
  destruct (check_for_commands re_search text) as [[| |] |];
    try (destruct (generate_response _ _) as [[r |] |];
         [destruct (Py.truthy r) | |]);
    cbn [fst snd];
    repeat match goal with
           | |- context [add_to_conversation_history ?r ?x ?n ?s] =>
               rewrite (Threads.add_history_writes_history audio r x n s);
               generalize (conversation_history
                             (add_to_conversation_history r x n s));
               intro
           end; reflexivity.
Qed.

(** Every pass of every thread keeps the text queue, appends one text at
    its end, or takes its first text off. *)
Lemma step_queue o self :
  let before := text_queue self in
  let after := text_queue (step re_search generate_response o self) in
  after = before
  \/ (exists text, after = before ++ [text])
  \/ (exists text, before = text :: after).
Proof.
  cbv zeta.
  destruct o as [now ss | now | | now typed | now | f]; cbn [step].
  - left. unfold silence_monitor_iteration.
    repeat match goal with
           | |- context [if ?b then _ else _] => destruct b; cbn
           end; reflexivity.
  - unfold stt_processor_iteration.
    destruct (BaseSTT.result_queue (stt self)) as [| r q]; [left; reflexivity |].
    destruct (is_listening self); [| left; reflexivity].
    destruct (Py.truthy _); [| left; reflexivity].
    right. left. exists (BaseSTT.text r).
    cbn. destruct (showing_partial self); cbn;
      destruct (silence_detection_enabled self); reflexivity.
  - left. unfold partial_text_monitor_iteration.
    destruct (BaseSTT.partial_result_queue (stt self)); [reflexivity |].
    destruct (is_listening self); [| reflexivity].
    cbn. destruct (_ && _); [| reflexivity].
    cbn. destruct (silence_detection_enabled self); reflexivity.
  - unfold keyboard_input_iteration.
    destruct typed as [text | |]; [| left; reflexivity ..].
    destruct (negb _); [left; reflexivity |].
    right. left. exists text.
    cbn. destruct (silence_detection_enabled self); reflexivity.
  - destruct (text_queue self) as [| text q] eqn:Hq.
    + left. unfold process_text_queue_iteration. rewrite Hq. cbn [fst].
      exact Hq.
    + right. right. exists text.
      destruct (Replies.pass_replies
                  audio re_search generate_response now self text q Hq)
        as (self' & reply & E & _ & Hq' & _).
      rewrite E. cbn [fst]. rewrite Hq'. reflexivity.
  - left. reflexivity.
Qed.

End Object.

End Exchange.

(** X10.  The history the language model is given with a context, for a
    model set up from a new object and an assistant at any moment of its
    life: it has one message for each message of the context, with the
    same contents in the same order, and every role is [user] or [model];
    the system prompt passed to [setup] is not part of it. *)
Theorem X10_history_given_to_the_model {audio : Type}
        (re_search : string -> string -> bool)
        (generate_response :
           string -> list (string * string) -> VoiceAssistant.response)
        (e : LanguageModel.setup_env) (prompt : option string)
        (stt0 : BaseSTT.t audio) (configured t0 : Q)
        (before : list (VoiceAssistant.op audio)) (welcomed_at : Q)
        (after : list (VoiceAssistant.op audio)) (now : Q) :
  let model := fst (LanguageModel.setup e prompt LanguageModel.init) in
  let context :=
    VoiceAssistant.get_conversation_context
      now (Startup.life re_search generate_response stt0 configured t0
                        before welcomed_at after) in
  let sent := LanguageModel.history_of model context in
  Invariants.roles_for_model sent
  /\ map snd sent = map snd context
  /\ List.length sent = List.length context.
Proof.
  intros model context sent.
  assert (Hsent : sent
                  = map (fun message =>
                           (if String.eqb (fst message) "assistant"
                            then "model"%string else fst message,
                            snd message)) context).
  { subst sent model. unfold LanguageModel.history_of, LanguageModel.setup.
    destruct (match LanguageModel.get_api_key e with
              | Some k => negb (Py.truthy k)
              | None => true
              end); reflexivity. }
  assert (Hroles : Forall (fun message =>
                             fst message = "user"%string
                             \/ fst message = "assistant"%string) context).
  { subst context. rewrite History.context_is_filtered_history.
    destruct (Reachable.life_well_formed
                audio re_search generate_response stt0 configured t0
                before welcomed_at after)
      as (_ & _ & _ & _ & Hr).
    unfold Invariants.roles_known in Hr. rewrite Forall_forall in Hr.
    apply Forall_forall. intros m Hm. apply in_map_iff in Hm.
    destruct Hm as (item & <- & Hitem). apply filter_In in Hitem.
    apply Hr, Hitem. }
  rewrite Hsent. clear Hsent. split; [| split].
  - unfold Invariants.roles_for_model. induction Hroles as [| m l Hm _ IH];
      [constructor |].
    cbn [map]. constructor; [| exact IH]. cbn [fst].
    destruct Hm as [-> | ->]; [left | right]; reflexivity.
  - rewrite map_map. reflexivity.
  - apply length_map.
Qed.

(** X11.  At every moment of an assistant's life, however its threads
    interleave and whatever is said or typed, also the commands to open a
    document or an image, [current_mode] is [general] and
    [current_file_path] is [None]: no other mode is ever entered. *)
Theorem X11_mode_never_leaves_general {audio : Type}
        (re_search : string -> string -> bool)
        (generate_response :
           string -> list (string * string) -> VoiceAssistant.response)
        (stt0 : BaseSTT.t audio) (configured t0 : Q)
        (before : list (VoiceAssistant.op audio)) (welcomed_at : Q)
        (after : list (VoiceAssistant.op audio)) :
  let self :=
    Startup.life re_search generate_response stt0 configured t0
                 before welcomed_at after in
  VoiceAssistant.current_mode self = "general"%string
  /\ VoiceAssistant.current_file_path self = None.
Proof.
  destruct (Reachable.life_well_formed
              audio re_search generate_response stt0 configured t0
              before welcomed_at after)
    as (Hm & Hf & _).
  split; assumption.
Qed.

(** X12.  At every moment of an assistant's life the conversation history
    holds at most 20 entries, and each of them has the role [user] or
    [assistant]. *)
Theorem X12_history_bounded_for_life {audio : Type}
        (re_search : string -> string -> bool)
        (generate_response :
           string -> list (string * string) -> VoiceAssistant.response)
        (stt0 : BaseSTT.t audio) (configured t0 : Q)
        (before : list (VoiceAssistant.op audio)) (welcomed_at : Q)
        (after : list (VoiceAssistant.op audio)) :
  let self :=
    Startup.life re_search generate_response stt0 configured t0
                 before welcomed_at after in
  List.length (VoiceAssistant.conversation_history self) <= 20
  /\ Invariants.roles_known (VoiceAssistant.conversation_history self).
Proof.
  destruct (Reachable.life_well_formed
              audio re_search generate_response stt0 configured t0
              before welcomed_at after)
    as (_ & _ & _ & Hl & Hr).
  split; assumption.
Qed.

(** X13.  A pass of the text-queue loop that takes a text off the queue
    records the exchange in order: afterwards the history ends with the
    user's text followed by the assistant's reply, both stamped with the
    time of the pass, and the context computed at that time ends with the
    same two messages, so the next request to the model sees them. *)
Theorem X13_exchange_is_recorded_in_order {audio : Type}
        (re_search : string -> string -> bool)
        (generate_response :
           string -> list (string * string) -> VoiceAssistant.response)
        (self : VoiceAssistant.t audio) (now : Q)
        (text : string) (q : list string) :
  let done :=
    VoiceAssistant.process_text_queue_iteration
      re_search generate_response now self in
  VoiceAssistant.text_queue self = text :: q ->
  0 < VoiceAssistant.max_history_items self ->
  (0 <= VoiceAssistant.context_window_minutes self)%Q ->
  exists reply older earlier,
    snd done = [reply]
    /\ VoiceAssistant.conversation_history (fst done)
       = older ++ [VoiceAssistant.Turn "user" text now;
                   VoiceAssistant.Turn "assistant" reply now]
    /\ VoiceAssistant.get_conversation_context now (fst done)
       = earlier ++ [("user"%string, text); ("assistant"%string, reply)].
Proof.
  intros done Hq Hmax Hwin. subst done.
  destruct (Reachable.pass_history
              audio re_search generate_response now self text q Hq)
    as (reply & Hsaid & Hhist).
  destruct (Reachable.add_ends_with
              audio "user" text now self [] (VoiceAssistant.conversation_history self))
    as [older1 H1]; [symmetry; apply app_nil_r | cbn; lia |].
  cbn [app] in H1.
  destruct (Reachable.add_ends_with
              audio "assistant" reply now
              (VoiceAssistant.add_to_conversation_history "user" text now
                                                          self)
              [VoiceAssistant.Turn "user" text now] older1 H1)
    as [older H2].
  { rewrite Reachable.add_keeps_max. cbn. lia. }
  cbn [app] in H2. rewrite <- Hhist in H2.
  exists reply, older.
  eexists. split; [exact Hsaid |]. split; [exact H2 |].
  rewrite History.context_is_filtered_history, H2, Exchange.pass_window.
  rewrite filter_app, map_app. cbn [filter].
  rewrite !Exchange.within_now by exact Hwin. reflexivity.
Qed.

Lemma X13_witness :
  let self :=
    VoiceAssistant.keyboard_input_iteration
      1 (VoiceAssistant.Line "hello")
      (VoiceAssistant.init (BaseSTT.init unit 0) 5 0) in
  (VoiceAssistant.text_queue self = ["hello"%string]
   /\ 0 < VoiceAssistant.max_history_items self
   /\ (0 <= VoiceAssistant.context_window_minutes self)%Q)
  /\ exists reply older earlier,
      snd (VoiceAssistant.process_text_queue_iteration
             Examples.no_command Examples.always_answers 2 self) = [reply]
      /\ VoiceAssistant.conversation_history
           (fst (VoiceAssistant.process_text_queue_iteration
                   Examples.no_command Examples.always_answers 2 self))
         = older ++ [VoiceAssistant.Turn "user" "hello" 2;
                     VoiceAssistant.Turn "assistant" reply 2]
      /\ VoiceAssistant.get_conversation_context
           2 (fst (VoiceAssistant.process_text_queue_iteration
                     Examples.no_command Examples.always_answers 2 self))
         = earlier ++ [("user"%string, "hello"%string);
                       ("assistant"%string, reply)].
Proof.
  cbv zeta. split.
  - split; [reflexivity | split; [vm_compute; lia | vm_compute; discriminate]].
  - apply (X13_exchange_is_recorded_in_order
             Examples.no_command Examples.always_answers
             (VoiceAssistant.keyboard_input_iteration
                1 (VoiceAssistant.Line "hello")
                (VoiceAssistant.init (BaseSTT.init unit 0) 5 0))
             2 "hello"%string []).
    + reflexivity.
    + vm_compute; lia.
    + vm_compute; discriminate.
Defined.

(** X14.  The text queue is a first-in first-out queue: every pass of
    every thread leaves it as it was, appends one text at its end, or
    takes its first text off; texts are never reordered or dropped from
    the middle. *)
Theorem X14_text_queue_is_first_in_first_out {audio : Type}
        (re_search : string -> string -> bool)
        (generate_response :
           string -> list (string * string) -> VoiceAssistant.response)
        (o : VoiceAssistant.op audio)
        (self : VoiceAssistant.t audio) :
  let before := VoiceAssistant.text_queue self in
  let after :=
    VoiceAssistant.text_queue
      (VoiceAssistant.step re_search generate_response o self) in
  after = before
  \/ (exists text, after = before ++ [text])
  \/ (exists text, before = text :: after).
Proof. apply Exchange.step_queue. Qed.

(** X15.  With silence detection enabled, a paused assistant resumes on a
    sample exactly when the sample's silence ratio is below 0.7.  Between
    that and the pause threshold lies a dead band: for a speech state read
    from a speech-to-text object whose silence ratio is at least 0.7 and
    at most its silence threshold, the monitor leaves [is_listening] as
    it is, listening or paused. *)
Theorem X15_resume_below_seven_tenths {audio : Type}
        (now : Q) (speech_state : BaseSTT.speech_state)
        (self : VoiceAssistant.t audio) :
  let after :=
    VoiceAssistant.silence_monitor_iteration now speech_state self in
  VoiceAssistant.silence_detection_enabled self = true ->
  (VoiceAssistant.is_listening self = false ->
   (VoiceAssistant.is_listening after = true
    <-> (BaseSTT.ss_silence_ratio speech_state < 7 # 10)%Q))
  /\ (forall (b : BaseSTT.t audio) (read_at : Q),
         speech_state = BaseSTT.get_speech_state b read_at ->
         (7 # 10 <= BaseSTT.silence_ratio b)%Q ->
         (BaseSTT.silence_ratio b <= BaseSTT.silence_threshold b)%Q ->
         VoiceAssistant.is_listening after
         = VoiceAssistant.is_listening self).
Proof.
  intros after En. subst after.
  rewrite Silence.monitor_enabled by exact En. split.
  - intros Hp. rewrite Hp, <- lt_true.
    destruct (Py.lt (BaseSTT.ss_silence_ratio speech_state) (7 # 10));
      cbn; rewrite ?Hp; intuition congruence.
  - intros b read_at -> Hlow Hhigh.
    cbn [BaseSTT.get_speech_state BaseSTT.ss_is_silent
         BaseSTT.ss_silence_ratio].
    rewrite (proj2 (gt_false _ _) Hhigh), (proj2 (lt_false _ _) Hlow).
    rewrite andb_false_r. cbn [andb].
    destruct (VoiceAssistant.is_listening self) eqn:L; exact L.
Qed.

Lemma X15_witness :
  let self :=
    VoiceAssistant.set_is_listening
      false
      (VoiceAssistant.keyboard_input_iteration
         1 (VoiceAssistant.Line "hi")
         (VoiceAssistant.init (BaseSTT.init unit 0) 5 0)) in
  let speech_state := BaseSTT.SpeechState (1 # 2) false 9 1 in
  VoiceAssistant.silence_detection_enabled self = true
  /\ VoiceAssistant.is_listening self = false
  /\ VoiceAssistant.is_listening
       (VoiceAssistant.silence_monitor_iteration 10 speech_state self)
     = true.
Proof.
  cbv zeta. split; [reflexivity | split; [reflexivity |]].
  apply (proj1 (X15_resume_below_seven_tenths
                  10 (BaseSTT.SpeechState (1 # 2) false 9 1)
                  (VoiceAssistant.set_is_listening
                     false
                     (VoiceAssistant.keyboard_input_iteration
                        1 (VoiceAssistant.Line "hi")
                        (VoiceAssistant.init (BaseSTT.init unit 0) 5 0)))
                  eq_refl) eq_refl).
  reflexivity.
Defined.

(** X16.  Silence detection is switched on by user input only: whenever a
    pass of some thread finds [silence_detection_enabled] false and
    leaves it true, the pass is the STT processor taking a non-blank
    result while listening, the partial-text monitor taking a non-blank
    partial while listening, or the keyboard thread reading a non-blank
    line.  The silence monitor, the text-queue loop and the threads of the
    speech-to-text object never switch it on. *)
Theorem X16_latch_set_by_input_only {audio : Type}
        (re_search : string -> string -> bool)
        (generate_response :
           string -> list (string * string) -> VoiceAssistant.response)
        (o : VoiceAssistant.op audio) (self : VoiceAssistant.t audio) :
  VoiceAssistant.silence_detection_enabled self = false ->
  VoiceAssistant.silence_detection_enabled
    (VoiceAssistant.step re_search generate_response o self) = true ->
  (exists now r q,
      o = VoiceAssistant.SttProcessor now
      /\ VoiceAssistant.is_listening self = true
      /\ BaseSTT.result_queue (VoiceAssistant.stt self) = r :: q
      /\ Display.nonblank (BaseSTT.text r))
  \/ (exists r q,
         o = VoiceAssistant.PartialTextMonitor
         /\ VoiceAssistant.is_listening self = true
         /\ BaseSTT.partial_result_queue (VoiceAssistant.stt self) = r :: q
         /\ Display.nonblank (BaseSTT.partial_text r))
  \/ (exists now text,
         o = VoiceAssistant.KeyboardInput now (VoiceAssistant.Line text)
         /\ Display.nonblank text).
Proof.
  intros Off On.
  destruct o as [now ss | now | | now typed | now | f];
    cbn [VoiceAssistant.step] in On.
  - rewrite Silence.monitor_keeps_latch in On. congruence.
  - left. unfold VoiceAssistant.stt_processor_iteration in On.
    destruct (BaseSTT.result_queue (VoiceAssistant.stt self)) as [| r q];
      [congruence |].
    destruct (VoiceAssistant.is_listening self); [| congruence].
    destruct (Py.truthy (Py.strip (BaseSTT.text r))) eqn:T;
      [| cbn in On; congruence].
    exists now, r, q. repeat split.
    apply Blank.truthy_strip_nonblank, T.
  - right. left.
    unfold VoiceAssistant.partial_text_monitor_iteration in On.
    destruct (BaseSTT.partial_result_queue (VoiceAssistant.stt self))
      as [| r q]; [cbn in On; congruence |].
    destruct (VoiceAssistant.is_listening self); [| cbn in On; congruence].
    cbn [VoiceAssistant.last_full_result VoiceAssistant.set_stt] in On.
    destruct (Py.truthy (Py.strip (BaseSTT.partial_text r))) eqn:T;
      [| cbn in On; congruence].
    exists r, q. repeat split.
    apply Blank.truthy_strip_nonblank, T.
  - right. right. unfold VoiceAssistant.keyboard_input_iteration in On.
    destruct typed as [text | |]; [| cbn in On; congruence ..].
    destruct (Py.truthy (Py.strip text)) eqn:T; cbn [negb] in On;
      [| congruence].
    exists now, text. split; [reflexivity |].
    apply Blank.truthy_strip_nonblank, T.
  - pose proof (Reachable.pass_frame
                  audio re_search generate_response now self) as Hp.
    cbv zeta in Hp. destruct Hp as (_ & _ & _ & Hlatch).
    congruence.
  - cbn in On. congruence.
Qed.

Lemma X16_witness :
  let self := VoiceAssistant.init (BaseSTT.init unit 0) 5 0 in
  let o := VoiceAssistant.KeyboardInput 1 (VoiceAssistant.Line "hi") in
  VoiceAssistant.silence_detection_enabled self = false
  /\ VoiceAssistant.silence_detection_enabled
       (VoiceAssistant.step Examples.no_command Examples.always_answers
                            o self) = true
  /\ ((exists now r q,
          o = VoiceAssistant.SttProcessor now
          /\ VoiceAssistant.is_listening self = true
          /\ BaseSTT.result_queue (VoiceAssistant.stt self) = r :: q
          /\ Display.nonblank (BaseSTT.text r))
      \/ (exists r q,
             o = VoiceAssistant.PartialTextMonitor
             /\ VoiceAssistant.is_listening self = true
             /\ BaseSTT.partial_result_queue (VoiceAssistant.stt self)
                = r :: q
             /\ Display.nonblank (BaseSTT.partial_text r))
      \/ (exists now text,
             o = VoiceAssistant.KeyboardInput now (VoiceAssistant.Line text)
             /\ Display.nonblank text)).
Proof.
  cbv zeta. split; [reflexivity | split; [reflexivity |]].
  exact (X16_latch_set_by_input_only
           Examples.no_command Examples.always_answers
           (VoiceAssistant.KeyboardInput 1 (VoiceAssistant.Line "hi"))
           (VoiceAssistant.init (BaseSTT.init unit 0) 5 0)
           eq_refl eq_refl).
Defined.

(** ** More on the recognition worker *)

Module Chunks.
Import BaseSTT Notions Invariants.

Lemma dict_get_known (d : list (string * string)) (k default : string) :
  Py.dict_get d k default = default
  \/ In (Py.dict_get d k default) (map snd d).
Proof.
  induction d as [| [k' v] d IH]; [left; reflexivity |].
  cbn. destruct (String.eqb k' k).
  - right. left. reflexivity.
  - destruct IH as [-> | H]; [left; reflexivity | right; right; exact H].
Qed.

Section Worker.

Variable audio : Type.
Variable recognize_google : audio -> string -> transcription.
Variable detect : string -> option string.

Implicit Types (self : BaseSTT.t audio) (a : audio).

Lemma detected_known self txt :
  languages_known self ->
  In (detect_language_from_text detect self txt) (supported_languages self).
Proof.
  intros [Hs Hin]. unfold detect_language_from_text.
  destruct (detect txt) as [code |]; [| exact Hin].
  destruct (dict_get_known Settings.SUPPORTED_LANGUAGES code
                           (last_detected_language self)) as [-> | H];
    [exact Hin | rewrite Hs; exact H].
Qed.

Lemma fallback_calls_bound self now a langs :
  List.length
    (snd (try_other_languages recognize_google detect self now a langs))
  <= List.length langs.
Proof.
  induction langs as [| lang rest IH]; [cbn; lia |].
  cbn [try_other_languages].
  destruct (String.eqb lang (last_detected_language self));
    [cbn [List.length]; lia |].
  destruct (recognize_google a lang) as [txt | |];
    [destruct (Py.truthy (Py.strip txt)) | |];
    try (destruct (try_other_languages recognize_google detect self now a
                                       rest));
    cbn [snd List.length] in *; lia.
Qed.

Lemma unchanged_effect self : chunk_effect self self.
Proof.
  exists []. rewrite app_nil_r.
  split; [reflexivity |]. split; [cbn; lia |].
  do 3 (split; [reflexivity |]).
  intro H. split; [exact H | constructor].
Qed.

(** The effect of queueing one result in a language [l] that becomes or
    stays the hint. *)
Lemma queued_effect self self' (r : result) :
  result_queue self' = result_queue self ++ [r] ->
  audio_queue self' = audio_queue self ->
  partial_result_queue self' = partial_result_queue self ->
  supported_languages self' = supported_languages self ->
  (languages_known self ->
   In (last_detected_language self') (supported_languages self)
   /\ In (lang r) (supported_languages self)) ->
  chunk_effect self self'.
Proof.
  intros Hr Ha Hp Hs Hk. exists [r].
  split; [exact Hr |]. split; [cbn; lia |].
  do 3 (split; [assumption |]).
  intro H. destruct (Hk H) as [H1 H2]. split.
  - split; [rewrite Hs; exact (proj1 H) | rewrite Hs; exact H1].
  - constructor; [exact H2 | constructor].
Qed.

Lemma accepted_effect self now txt :
  chunk_effect self (accepted detect self now txt).
Proof.
  eapply queued_effect; try reflexivity.
  intro H. cbn. split; apply detected_known, H.
Qed.

Lemma recognize_audio_effect self now a :
  chunk_effect self
               (fst (recognize_audio recognize_google detect self now a)).
Proof.
  unfold recognize_audio.
  destruct (recognize_google a (last_detected_language self))
    as [txt | |] eqn:First.
  - destruct (Py.truthy (Py.strip txt)); [| apply unchanged_effect].
    pose proof (detected_known self txt) as Hd.
    destruct (negb (String.eqb (detect_language_from_text detect self txt)
                               (last_detected_language self)));
      [destruct (recognize_google
                   a (detect_language_from_text detect self txt)) |];
      cbn [fst]; (eapply queued_effect; try reflexivity);
      intro H; cbn; split; try (apply Hd, H); apply H.
  - destruct (Worker.first_true (ends_loop recognize_google a)
                                (filter (is_other self)
                                        (supported_languages self)))
      as [All | (pre & l & post & Hsplit & Hpre & Hl)].
    + rewrite (Worker.fallback_exhausted _ _ _ _ _ _ _ All).
      apply unchanged_effect.
    + rewrite (Worker.fallback_stops _ _ _ _ _ _ _ _ _ _ Hsplit Hpre Hl).
      cbn [fst].
      destruct (recognize_google a l);
        [apply accepted_effect | apply unchanged_effect ..].
  - apply unchanged_effect.
Qed.

Lemma recognize_audio_calls self now a :
  List.length (snd (recognize_audio recognize_google detect self now a))
  <= 1 + Nat.max 1 (List.length (supported_languages self)).
Proof.
  unfold recognize_audio.
  destruct (recognize_google a (last_detected_language self)) as [txt | |].
  - destruct (Py.truthy (Py.strip txt)); [| cbn [snd List.length]; lia].
    destruct (negb _); [destruct (recognize_google a _) |];
      cbn [snd List.length]; lia.
  - pose proof (fallback_calls_bound self now a (supported_languages self)).
    destruct (try_other_languages _ _ _ _ _ _). cbn [snd List.length] in *.
    lia.
  - cbn [snd List.length]. lia.
Qed.

(** The worker takes one chunk per pass and empties the audio queue. *)
Lemma worker_drains clock self :
  List.length (audio_queue self) <= List.length clock ->
  let self' := fst (recognize_worker recognize_google detect self clock) in
  audio_queue self' = []
  /\ exists new,
      result_queue self' = result_queue self ++ new
      /\ List.length new <= List.length (audio_queue self).
Proof.
  revert self. induction clock as [| now clock IH]; intros self Hlen.
  - cbn in *. destruct (audio_queue self); [| cbn in Hlen; lia].
    split; [reflexivity |]. exists []. rewrite app_nil_r. split; [| cbn; lia].
    reflexivity.
  - cbn [recognize_worker]. unfold recognize_worker_iteration.
    destruct (audio_queue self) as [| a q] eqn:Hq.
    + specialize (IH self). rewrite Hq in IH.
      specialize (IH ltac:(cbn; lia)).
      destruct (recognize_worker recognize_google detect self clock).
      exact IH.
    + pose proof (recognize_audio_effect (set_audio_queue q self) now a)
        as (new1 & Hr1 & Hn1 & Ha1 & _).
      destruct (recognize_audio recognize_google detect
                                (set_audio_queue q self) now a)
        as [self1 calls1].
      cbn [fst] in *. cbn in Hr1, Ha1.
      specialize (IH self1). rewrite Ha1 in IH.
      specialize (IH ltac:(cbn in Hlen; lia)).
      destruct (recognize_worker recognize_google detect self1 clock)
        as [self2 calls2].
      cbn [fst] in *. destruct IH as (He & new2 & Hr2 & Hn2).
      split; [exact He |].
      exists (new1 ++ new2). rewrite Hr2, Hr1, <- app_assoc.
      split; [reflexivity |]. rewrite length_app. cbn. lia.
Qed.

End Worker.

End Chunks.

(** X17.  For one chunk the worker calls the recognition backend at
    least once and at most once more than there are supported languages
    (twice when there is none): nine calls at most with the eight
    languages of the settings. *)
Theorem X17_backend_calls_per_chunk_bounded {audio : Type}
        (recognize_google : audio -> string -> BaseSTT.transcription)
        (detect : string -> option string)
        (self : BaseSTT.t audio) (now : Q) (a : audio) :
  let calls :=
    snd (BaseSTT.recognize_audio recognize_google detect self now a) in
  1 <= List.length calls
  /\ List.length calls
     <= 1 + Nat.max 1 (List.length (BaseSTT.supported_languages self)).
Proof.
  cbv zeta. split; [| apply Chunks.recognize_audio_calls].
  unfold BaseSTT.recognize_audio.
  destruct (recognize_google a (BaseSTT.last_detected_language self))
    as [txt | |].
  - destruct (Py.truthy (Py.strip txt)); [| cbn; lia].
    destruct (negb _); [destruct (recognize_google a _) |]; cbn; lia.
  - destruct (BaseSTT.try_other_languages _ _ _ _ _ _). cbn. lia.
  - cbn. lia.
Qed.

(** X18.  One chunk adds at most one result, at the end of the result
    queue, and touches neither the audio queue nor the partial-result
    queue nor the list of supported languages.  When the supported
    languages are those of the settings and the hint is one of them, the
    new hint and the language of the queued result are supported
    languages too. *)
Theorem X18_chunk_adds_at_most_one_supported_result {audio : Type}
        (recognize_google : audio -> string -> BaseSTT.transcription)
        (detect : string -> option string)
        (self : BaseSTT.t audio) (now : Q) (a : audio) :
  let self' :=
    fst (BaseSTT.recognize_audio recognize_google detect self now a) in
  exists new,
    BaseSTT.result_queue self' = BaseSTT.result_queue self ++ new
    /\ List.length new <= 1
    /\ BaseSTT.audio_queue self' = BaseSTT.audio_queue self
    /\ BaseSTT.partial_result_queue self'
       = BaseSTT.partial_result_queue self
    /\ BaseSTT.supported_languages self' = BaseSTT.supported_languages self
    /\ (BaseSTT.supported_languages self
        = map snd Settings.SUPPORTED_LANGUAGES ->
        In (BaseSTT.last_detected_language self)
           (BaseSTT.supported_languages self) ->
        In (BaseSTT.last_detected_language self')
           (BaseSTT.supported_languages self)
        /\ Forall (fun r => In (BaseSTT.lang r)
                               (BaseSTT.supported_languages self)) new).
Proof.
  cbv zeta.
  destruct (Chunks.recognize_audio_effect
              audio recognize_google detect self now a)
    as (new & Hr & Hn & Ha & Hp & Hs & Hk).
  exists new. repeat split; try assumption.
  - destruct (Hk (conj H H0)) as [[_ Hin] _]. rewrite Hs in Hin. exact Hin.
  - apply Hk. split; assumption.
Qed.

Lemma X18_witness :
  let self := BaseSTT.init unit 0 in
  let self' :=
    fst (BaseSTT.recognize_audio Examples.french_only
                                 (fun _ => Some "fr"%string) self 1 tt) in
  (BaseSTT.supported_languages self = map snd Settings.SUPPORTED_LANGUAGES
   /\ In (BaseSTT.last_detected_language self)
         (BaseSTT.supported_languages self))
  /\ exists new,
      BaseSTT.result_queue self' = BaseSTT.result_queue self ++ new
      /\ In (BaseSTT.last_detected_language self')
            (BaseSTT.supported_languages self).
Proof.
  cbv zeta.
  assert (H1 : BaseSTT.supported_languages (BaseSTT.init unit 0)
               = map snd Settings.SUPPORTED_LANGUAGES) by reflexivity.
  assert (H2 : In (BaseSTT.last_detected_language (BaseSTT.init unit 0))
                  (BaseSTT.supported_languages (BaseSTT.init unit 0)))
    by (left; reflexivity).
  split; [split; assumption |].
  destruct (X18_chunk_adds_at_most_one_supported_result
              Examples.french_only (fun _ => Some "fr"%string)
              (BaseSTT.init unit 0) 1 tt)
    as (new & Hr & _ & _ & _ & _ & Hk).
  exists new. split; [exact Hr |]. apply (Hk H1 H2).
Defined.

(** X19.  Given at least as many passes as there are chunks in the audio
    queue, the worker empties the audio queue; the result queue only
    grows at its end, by at most one result for each chunk. *)
Theorem X19_worker_empties_the_audio_queue {audio : Type}
        (recognize_google : audio -> string -> BaseSTT.transcription)
        (detect : string -> option string)
        (self : BaseSTT.t audio) (clock : list Q) :
  let self' :=
    fst (BaseSTT.recognize_worker recognize_google detect self clock) in
  List.length (BaseSTT.audio_queue self) <= List.length clock ->
  BaseSTT.audio_queue self' = []
  /\ exists new,
      BaseSTT.result_queue self' = BaseSTT.result_queue self ++ new
      /\ List.length new <= List.length (BaseSTT.audio_queue self).
Proof. apply Chunks.worker_drains. Qed.

Lemma X19_witness :
  let self := Examples.one_chunk in
  List.length (BaseSTT.audio_queue self) <= List.length [1%Q; 2%Q]
  /\ BaseSTT.audio_queue
       (fst (BaseSTT.recognize_worker Examples.french_only
                                      Examples.detect_raises self
                                      [1%Q; 2%Q])) = [].
Proof.
  cbv zeta.
  assert (H : List.length (BaseSTT.audio_queue Examples.one_chunk)
              <= List.length [1%Q; 2%Q]) by (cbn; lia).
  split; [exact H |].
  exact (proj1 (X19_worker_empties_the_audio_queue
                  Examples.french_only Examples.detect_raises
                  Examples.one_chunk [1%Q; 2%Q] H)).
Defined.

(** ** More on the active listening loop *)

Module Heard.
Import BaseSTT.

Section Loop.

Variable audio : Type.
Variable best_mic_index : option nat.

Implicit Types (self : BaseSTT.t audio) (l : locals)
         (e : pass_env audio) (world : list (pass_env audio)).

(** A result of the active listening loop: a non-empty text, in the
    language [hint], recorded with an energy threshold of at most 300. *)
Let sound (hint : string) (r : result) : Prop :=
  text r <> ""%string /\ lang r = hint /\ (energy r <= 300)%Q.

Lemma clamped (measured : option Q) :
  (match measured with
   | Some th => if Py.gt th 300 then 300%Q else th
   | None => 300%Q
   end <= 300)%Q.
Proof.
  destruct measured as [th |]; [| apply Qle_refl].
  destruct (Py.gt th 300) eqn:G; [apply Qle_refl |].
  apply gt_false, G.
Qed.

Lemma pass_results self l e :
  let self' := fst (fst (active_listening_pass best_mic_index self l e)) in
  exists new,
    result_queue self' = result_queue self ++ new
    /\ List.length new <= 1
    /\ Forall (sound (last_detected_language self)) new
    /\ last_detected_language self' = last_detected_language self
    /\ audio_queue self' = audio_queue self.
Proof.
  assert (Hsame : exists new : list result,
             result_queue self = result_queue self ++ new
             /\ List.length new <= 1
             /\ Forall (sound (last_detected_language self)) new
             /\ last_detected_language self = last_detected_language self
             /\ audio_queue self = audio_queue self).
  { exists []. rewrite app_nil_r. repeat split; [cbn; lia | constructor]. }
  unfold active_listening_pass.
  destruct (_ && negb (recognizer_ok e)); [exact Hsame |].
  destruct (_ && negb (microphone_ok e)); [exact Hsame |].
  destruct (negb (enter_ok e)).
  - destruct (check_reset _ _ _). exact Hsame.
  - destruct (heard e) as [a | |];
      try (destruct (check_reset _ _ _); exact Hsame).
    destruct (check_reset _ _ _). cbn [fst].
    destruct (recognized_text e) as [s |]; [| exact Hsame].
    destruct (Py.truthy s) eqn:T; [| exact Hsame].
    eexists. cbn. split; [reflexivity |].
    repeat split; [cbn; lia |]. constructor; [| constructor].
    repeat split; cbn.
    + apply Replies.truthy_nonempty, T.
    + apply clamped.
Qed.

Lemma run_results self l world :
  let self' := fst (fst (active_listening_from best_mic_index self l world)) in
  exists new,
    result_queue self' = result_queue self ++ new
    /\ List.length new <= List.length world
    /\ Forall (sound (last_detected_language self)) new
    /\ last_detected_language self' = last_detected_language self
    /\ audio_queue self' = audio_queue self.
Proof.
  revert self l. induction world as [| e world IH]; intros self l.
  - exists []. cbn. rewrite app_nil_r. repeat split; [lia | constructor].
  - cbn [active_listening_from].
    pose proof (pass_results self l e) as (new1 & Hr1 & Hn1 & Hs1 & Hl1 & Ha1).
    destruct (active_listening_pass best_mic_index self l e)
      as [[self1 l1] evs1].
    cbn [fst] in *.
    pose proof (IH self1 l1) as (new2 & Hr2 & Hn2 & Hs2 & Hl2 & Ha2).
    destruct (active_listening_from best_mic_index self1 l1 world)
      as [[self2 l2] evs2].
    cbn [fst] in *.
    exists (new1 ++ new2). rewrite Hr2, Hr1, <- app_assoc.
    split; [reflexivity |]. rewrite length_app.
    split; [cbn; lia |]. split; [| split; congruence].
    apply Forall_app. split; [exact Hs1 |]. rewrite <- Hl1. exact Hs2.
Qed.

(** While the microphone is missing and the constructors fail, a pass
    only sleeps; it keeps the new recognizer when it is the microphone's
    constructor that failed. *)
Lemma run_without_resources self l world :
  microphone l = None ->
  Forall (fun e => create_ok e = false) world ->
  active_listening_from best_mic_index self l world
  = (self,
     Locals (if existsb recognizer_ok world then Some 300%Q
             else recognizer l)
            None (consecutive_errors l),
     repeat (Sleep 2) (List.length world)).
Proof.
  intros Hmic Hall. revert l Hmic.
  induction Hall as [| e world He _ IH]; intros l Hmic.
  - destruct l as [r m c]. cbn in *. subst m. reflexivity.
  - cbn [active_listening_from List.length repeat existsb].
    unfold active_listening_pass. rewrite Hmic.
    replace (match recognizer l with
             | Some _ => true
             | None => true
             end) with true by (destruct (recognizer l); reflexivity).
    cbn [andb]. unfold create_ok in He.
    destruct (recognizer_ok e); cbn [negb andb orb] in *.
    + rewrite He. cbn [negb].
      rewrite (IH (Locals (Some 300%Q) None (consecutive_errors l)) eq_refl).
      cbn [recognizer consecutive_errors].
      destruct (existsb recognizer_ok world); reflexivity.
    + rewrite (IH l Hmic). reflexivity.
Qed.

End Loop.

End Heard.

(** X20.  Whatever happens in the passes of the active listening loop,
    the result queue only grows at its end, by at most one result for
    each pass, and every result the loop queues has a non-empty text,
    carries the language hint as its language, and records an energy
    threshold of at most 300; the loop never changes the language hint
    and never touches the audio queue. *)
Theorem X20_active_listening_results {audio : Type}
        (best_mic_index : option nat) (self : BaseSTT.t audio)
        (l : BaseSTT.locals) (world : list (BaseSTT.pass_env audio)) :
  let self' :=
    fst (fst (BaseSTT.active_listening_from best_mic_index self l world)) in
  exists new,
    BaseSTT.result_queue self' = BaseSTT.result_queue self ++ new
    /\ List.length new <= List.length world
    /\ Forall (fun r =>
                 BaseSTT.text r <> ""%string
                 /\ BaseSTT.lang r = BaseSTT.last_detected_language self
                 /\ (BaseSTT.energy r <= 300)%Q) new
    /\ BaseSTT.last_detected_language self'
       = BaseSTT.last_detected_language self
    /\ BaseSTT.audio_queue self' = BaseSTT.audio_queue self.
Proof. apply Heard.run_results. Qed.

(** X21.  While the loop has no microphone and the constructors keep
    failing, its passes do nothing but sleep two seconds each: nothing is
    listened to, nothing is reset, and the object, the error counter and
    the missing microphone stay as they are.  The recognizer is the one
    the loop had, unless in some pass [sr.Recognizer()] returned before
    [sr.Microphone(...)] raised: then it is a new recognizer with the
    threshold 300. *)
Theorem X21_loop_idles_while_constructors_fail {audio : Type}
        (best_mic_index : option nat) (self : BaseSTT.t audio)
        (l : BaseSTT.locals) (world : list (BaseSTT.pass_env audio)) :
  BaseSTT.microphone l = None ->
  Forall (fun e => BaseSTT.create_ok e = false) world ->
  let '(self', l', evs) :=
    BaseSTT.active_listening_from best_mic_index self l world in
  self' = self
  /\ BaseSTT.microphone l' = None
  /\ BaseSTT.recognizer l'
     = (if existsb BaseSTT.recognizer_ok world then Some 300%Q
        else BaseSTT.recognizer l)
  /\ BaseSTT.consecutive_errors l' = BaseSTT.consecutive_errors l
  /\ evs = repeat (BaseSTT.Sleep 2) (List.length world)
  /\ BaseSTT.listens evs = 0
  /\ BaseSTT.resets evs = 0.
Proof.
  intros Hmiss Hall.
  rewrite (Heard.run_without_resources
             audio best_mic_index self l world Hmiss Hall).
  repeat split.
  - induction (List.length world) as [| n IH]; [reflexivity | exact IH].
  - induction (List.length world) as [| n IH]; [reflexivity | exact IH].
Qed.

Lemma X21_witness :
  let l := BaseSTT.initial_locals None false in
  let e : BaseSTT.pass_env unit :=
    BaseSTT.PassEnv true false true None BaseSTT.ListenError
                    BaseSTT.RequestError BaseSTT.RequestError true 1 in
  let '(self', l', evs) :=
    BaseSTT.active_listening_from None (BaseSTT.init unit 0) l [e; e] in
  BaseSTT.microphone l = None
  /\ self' = BaseSTT.init unit 0
  /\ BaseSTT.recognizer l' = Some 300%Q
  /\ BaseSTT.listens evs = 0.
Proof.
  pose proof (X21_loop_idles_while_constructors_fail
                None (BaseSTT.init unit 0)
                (BaseSTT.initial_locals None false)
                (let e : BaseSTT.pass_env unit :=
                   BaseSTT.PassEnv true false true None BaseSTT.ListenError
                                   BaseSTT.RequestError BaseSTT.RequestError
                                   true 1 in [e; e])
                eq_refl
                ltac:(repeat constructor)) as H.
  cbv zeta in *.
  destruct (BaseSTT.active_listening_from _ _ _ _) as [[self' l'] evs].
  destruct H as (H1 & _ & H3 & _ & _ & H6 & _).
  split; [reflexivity | split; [exact H1 | split; [exact H3 | exact H6]]].
Defined.

(** ** The language the assistant remembers *)

Module Remembered.

Lemma primary_code_round_trip (v default : string) :
  In v (map snd Settings.SUPPORTED_LANGUAGES) ->
  Py.dict_get Settings.SUPPORTED_LANGUAGES (Py.split_head "-"%char v) default
  = v.
Proof.
  cbn [map snd Settings.SUPPORTED_LANGUAGES].
  intro H. repeat (destruct H as [<- | H]; [reflexivity |]).
  contradiction.
Qed.

End Remembered.

(** X22.  When the STT processor, while listening, takes a result with a
    non-blank text in one of the languages of the settings, it puts the
    text at the end of the text queue, remembers it as the last full
    result, switches silence detection on, restarts the warm-up timer at
    the time of the pass, and remembers as current language the primary
    code of the result's language: the code that [SUPPORTED_LANGUAGES]
    maps back to that language. *)
Theorem X22_final_result_is_taken_over {audio : Type}
        (now : Q) (self : VoiceAssistant.t audio)
        (r : BaseSTT.result) (q : list BaseSTT.result) (default : string) :
  let self' := VoiceAssistant.stt_processor_iteration now self in
  BaseSTT.result_queue (VoiceAssistant.stt self) = r :: q ->
  VoiceAssistant.is_listening self = true ->
  Display.nonblank (BaseSTT.text r) ->
  In (BaseSTT.lang r) (map snd Settings.SUPPORTED_LANGUAGES) ->
  BaseSTT.result_queue (VoiceAssistant.stt self') = q
  /\ VoiceAssistant.text_queue self'
     = VoiceAssistant.text_queue self ++ [BaseSTT.text r]
  /\ VoiceAssistant.last_full_result self' = BaseSTT.text r
  /\ VoiceAssistant.silence_detection_enabled self' = true
  /\ VoiceAssistant.start_time self' = now
  /\ Py.dict_get Settings.SUPPORTED_LANGUAGES
                 (VoiceAssistant.current_language self') default
     = BaseSTT.lang r.
Proof.
  intros self' Hq Hl Hnb Hlang. subst self'.
  unfold VoiceAssistant.stt_processor_iteration. rewrite Hq, Hl.
  assert (T : Py.truthy (Py.strip (BaseSTT.text r)) = true).
  { unfold Display.nonblank in Hnb.
    destruct (Py.strip (BaseSTT.text r)); [congruence | reflexivity]. }
  rewrite T. cbn.
  destruct (VoiceAssistant.showing_partial self); cbn;
    destruct (VoiceAssistant.silence_detection_enabled self) eqn:En; cbn;
    repeat split; try assumption;
    apply Remembered.primary_code_round_trip, Hlang.
Qed.

Lemma X22_witness :
  let r := BaseSTT.Result "bonjour" "fr-FR" 1 300 in
  let self :=
    VoiceAssistant.init
      (BaseSTT.set_result_queue [r] (BaseSTT.init unit 0)) 5 0 in
  (BaseSTT.result_queue (VoiceAssistant.stt self) = [r]
   /\ VoiceAssistant.is_listening self = true
   /\ Display.nonblank (BaseSTT.text r)
   /\ In (BaseSTT.lang r) (map snd Settings.SUPPORTED_LANGUAGES))
  /\ VoiceAssistant.text_queue
       (VoiceAssistant.stt_processor_iteration 2 self)
     = ["bonjour"%string].
Proof.
  cbv zeta.
  assert (Hnb : Display.nonblank "bonjour") by (vm_compute; discriminate).
  assert (Hin : In "fr-FR"%string (map snd Settings.SUPPORTED_LANGUAGES))
    by (right; left; reflexivity).
  split; [repeat split; assumption |].
  exact (proj1 (proj2 (X22_final_result_is_taken_over
                         2 (VoiceAssistant.init
                              (BaseSTT.set_result_queue
                                 [BaseSTT.Result "bonjour" "fr-FR" 1 300]
                                 (BaseSTT.init unit 0)) 5 0)
                         (BaseSTT.Result "bonjour" "fr-FR" 1 300) []
                         ""%string eq_refl eq_refl Hnb Hin))).
Defined.
